(** * A contact book: data model, birthday windows and command handlers

    Shallow embedding of [phone_book_managed_08.py].  Python strings are
    lists of Unicode code points, integers are [Z], the insertion-ordered
    [dict] behind [AddressBook] is an association list, exceptions are an
    explicit outcome type and the clock reading of [datetime.today()] is an
    explicit argument.  The behaviour of the built-ins the program calls
    ([str.isdigit], [str.strip], [str.split], [int], [repr],
    [datetime.strptime], [datetime.strftime], [datetime.replace], datetime
    comparison and subtraction) follows CPython 3.11 with the Unicode 14.0
    character database. *)

From Stdlib Require Import String Ascii.
From Stdlib Require Import ZArith NArith List Bool Lia.
Import ListNotations.

(** ** Unicode character properties *)

Module Unicode.

(** Code points for which [str.isspace] holds. *)
Definition whitespace_ranges : list (N * N) :=
  [
    (0x9, 0xD); (0x1C, 0x20); (0x85, 0x85); (0xA0, 0xA0); (0x1680, 0x1680);
    (0x2000, 0x200A); (0x2028, 0x2029); (0x202F, 0x202F); (0x205F, 0x205F); (0x3000, 0x3000)
  ]%N.

(** Code points for which [str.isdigit] holds (Numeric_Type Digit or
    Decimal). *)
Definition digit_ranges : list (N * N) :=
  [
    (0x30, 0x39); (0xB2, 0xB3); (0xB9, 0xB9); (0x660, 0x669); (0x6F0, 0x6F9);
    (0x7C0, 0x7C9); (0x966, 0x96F); (0x9E6, 0x9EF); (0xA66, 0xA6F); (0xAE6, 0xAEF);
    (0xB66, 0xB6F); (0xBE6, 0xBEF); (0xC66, 0xC6F); (0xCE6, 0xCEF); (0xD66, 0xD6F);
    (0xDE6, 0xDEF); (0xE50, 0xE59); (0xED0, 0xED9); (0xF20, 0xF29); (0x1040, 0x1049);
    (0x1090, 0x1099); (0x1369, 0x1371); (0x17E0, 0x17E9); (0x1810, 0x1819); (0x1946, 0x194F);
    (0x19D0, 0x19DA); (0x1A80, 0x1A89); (0x1A90, 0x1A99); (0x1B50, 0x1B59); (0x1BB0, 0x1BB9);
    (0x1C40, 0x1C49); (0x1C50, 0x1C59); (0x2070, 0x2070); (0x2074, 0x2079); (0x2080, 0x2089);
    (0x2460, 0x2468); (0x2474, 0x247C); (0x2488, 0x2490); (0x24EA, 0x24EA); (0x24F5, 0x24FD);
    (0x24FF, 0x24FF); (0x2776, 0x277E); (0x2780, 0x2788); (0x278A, 0x2792); (0xA620, 0xA629);
    (0xA8D0, 0xA8D9); (0xA900, 0xA909); (0xA9D0, 0xA9D9); (0xA9F0, 0xA9F9); (0xAA50, 0xAA59);
    (0xABF0, 0xABF9); (0xFF10, 0xFF19); (0x104A0, 0x104A9); (0x10A40, 0x10A43); (0x10D30, 0x10D39);
    (0x10E60, 0x10E68); (0x11052, 0x1105A); (0x11066, 0x1106F); (0x110F0, 0x110F9); (0x11136, 0x1113F);
    (0x111D0, 0x111D9); (0x112F0, 0x112F9); (0x11450, 0x11459); (0x114D0, 0x114D9); (0x11650, 0x11659);
    (0x116C0, 0x116C9); (0x11730, 0x11739); (0x118E0, 0x118E9); (0x11950, 0x11959); (0x11C50, 0x11C59);
    (0x11D50, 0x11D59); (0x11DA0, 0x11DA9); (0x16A60, 0x16A69); (0x16AC0, 0x16AC9); (0x16B50, 0x16B59);
    (0x1D7CE, 0x1D7FF); (0x1E140, 0x1E149); (0x1E2F0, 0x1E2F9); (0x1E950, 0x1E959); (0x1F100, 0x1F10A);
    (0x1FBF0, 0x1FBF9)
  ]%N.

(** The zero of every run of ten decimal digits (general category Nd);
    the digit of value [i] is [i] places after its zero. *)
Definition decimal_zeros : list N :=
  [
    0x30; 0x660; 0x6F0; 0x7C0; 0x966; 0x9E6; 0xA66; 0xAE6;
    0xB66; 0xBE6; 0xC66; 0xCE6; 0xD66; 0xDE6; 0xE50; 0xED0;
    0xF20; 0x1040; 0x1090; 0x17E0; 0x1810; 0x1946; 0x19D0; 0x1A80;
    0x1A90; 0x1B50; 0x1BB0; 0x1C40; 0x1C50; 0xA620; 0xA8D0; 0xA900;
    0xA9D0; 0xA9F0; 0xAA50; 0xABF0; 0xFF10; 0x104A0; 0x10D30; 0x11066;
    0x110F0; 0x11136; 0x111D0; 0x112F0; 0x11450; 0x114D0; 0x11650; 0x116C0;
    0x11730; 0x118E0; 0x11950; 0x11C50; 0x11D50; 0x11DA0; 0x16A60; 0x16AC0;
    0x16B50; 0x1D7CE; 0x1D7D8; 0x1D7E2; 0x1D7EC; 0x1D7F6; 0x1E140; 0x1E2F0;
    0x1E950; 0x1FBF0
  ]%N.

(** Code points for which [str.isprintable] fails. *)
Definition unprintable_ranges : list (N * N) :=
  [
    (0x0, 0x1F); (0x7F, 0xA0); (0xAD, 0xAD); (0x378, 0x379); (0x380, 0x383);
    (0x38B, 0x38B); (0x38D, 0x38D); (0x3A2, 0x3A2); (0x530, 0x530); (0x557, 0x558);
    (0x58B, 0x58C); (0x590, 0x590); (0x5C8, 0x5CF); (0x5EB, 0x5EE); (0x5F5, 0x605);
    (0x61C, 0x61C); (0x6DD, 0x6DD); (0x70E, 0x70F); (0x74B, 0x74C); (0x7B2, 0x7BF);
    (0x7FB, 0x7FC); (0x82E, 0x82F); (0x83F, 0x83F); (0x85C, 0x85D); (0x85F, 0x85F);
    (0x86B, 0x86F); (0x88F, 0x897); (0x8E2, 0x8E2); (0x984, 0x984); (0x98D, 0x98E);
    (0x991, 0x992); (0x9A9, 0x9A9); (0x9B1, 0x9B1); (0x9B3, 0x9B5); (0x9BA, 0x9BB);
    (0x9C5, 0x9C6); (0x9C9, 0x9CA); (0x9CF, 0x9D6); (0x9D8, 0x9DB); (0x9DE, 0x9DE);
    (0x9E4, 0x9E5); (0x9FF, 0xA00); (0xA04, 0xA04); (0xA0B, 0xA0E); (0xA11, 0xA12);
    (0xA29, 0xA29); (0xA31, 0xA31); (0xA34, 0xA34); (0xA37, 0xA37); (0xA3A, 0xA3B);
    (0xA3D, 0xA3D); (0xA43, 0xA46); (0xA49, 0xA4A); (0xA4E, 0xA50); (0xA52, 0xA58);
    (0xA5D, 0xA5D); (0xA5F, 0xA65); (0xA77, 0xA80); (0xA84, 0xA84); (0xA8E, 0xA8E);
    (0xA92, 0xA92); (0xAA9, 0xAA9); (0xAB1, 0xAB1); (0xAB4, 0xAB4); (0xABA, 0xABB);
    (0xAC6, 0xAC6); (0xACA, 0xACA); (0xACE, 0xACF); (0xAD1, 0xADF); (0xAE4, 0xAE5);
    (0xAF2, 0xAF8); (0xB00, 0xB00); (0xB04, 0xB04); (0xB0D, 0xB0E); (0xB11, 0xB12);
    (0xB29, 0xB29); (0xB31, 0xB31); (0xB34, 0xB34); (0xB3A, 0xB3B); (0xB45, 0xB46);
    (0xB49, 0xB4A); (0xB4E, 0xB54); (0xB58, 0xB5B); (0xB5E, 0xB5E); (0xB64, 0xB65);
    (0xB78, 0xB81); (0xB84, 0xB84); (0xB8B, 0xB8D); (0xB91, 0xB91); (0xB96, 0xB98);
    (0xB9B, 0xB9B); (0xB9D, 0xB9D); (0xBA0, 0xBA2); (0xBA5, 0xBA7); (0xBAB, 0xBAD);
    (0xBBA, 0xBBD); (0xBC3, 0xBC5); (0xBC9, 0xBC9); (0xBCE, 0xBCF); (0xBD1, 0xBD6);
    (0xBD8, 0xBE5); (0xBFB, 0xBFF); (0xC0D, 0xC0D); (0xC11, 0xC11); (0xC29, 0xC29);
    (0xC3A, 0xC3B); (0xC45, 0xC45); (0xC49, 0xC49); (0xC4E, 0xC54); (0xC57, 0xC57);
    (0xC5B, 0xC5C); (0xC5E, 0xC5F); (0xC64, 0xC65); (0xC70, 0xC76); (0xC8D, 0xC8D);
    (0xC91, 0xC91); (0xCA9, 0xCA9); (0xCB4, 0xCB4); (0xCBA, 0xCBB); (0xCC5, 0xCC5);
    (0xCC9, 0xCC9); (0xCCE, 0xCD4); (0xCD7, 0xCDC); (0xCDF, 0xCDF); (0xCE4, 0xCE5);
    (0xCF0, 0xCF0); (0xCF3, 0xCFF); (0xD0D, 0xD0D); (0xD11, 0xD11); (0xD45, 0xD45);
    (0xD49, 0xD49); (0xD50, 0xD53); (0xD64, 0xD65); (0xD80, 0xD80); (0xD84, 0xD84);
    (0xD97, 0xD99); (0xDB2, 0xDB2); (0xDBC, 0xDBC); (0xDBE, 0xDBF); (0xDC7, 0xDC9);
    (0xDCB, 0xDCE); (0xDD5, 0xDD5); (0xDD7, 0xDD7); (0xDE0, 0xDE5); (0xDF0, 0xDF1);
    (0xDF5, 0xE00); (0xE3B, 0xE3E); (0xE5C, 0xE80); (0xE83, 0xE83); (0xE85, 0xE85);
    (0xE8B, 0xE8B); (0xEA4, 0xEA4); (0xEA6, 0xEA6); (0xEBE, 0xEBF); (0xEC5, 0xEC5);
    (0xEC7, 0xEC7); (0xECE, 0xECF); (0xEDA, 0xEDB); (0xEE0, 0xEFF); (0xF48, 0xF48);
    (0xF6D, 0xF70); (0xF98, 0xF98); (0xFBD, 0xFBD); (0xFCD, 0xFCD); (0xFDB, 0xFFF);
    (0x10C6, 0x10C6); (0x10C8, 0x10CC); (0x10CE, 0x10CF); (0x1249, 0x1249); (0x124E, 0x124F);
    (0x1257, 0x1257); (0x1259, 0x1259); (0x125E, 0x125F); (0x1289, 0x1289); (0x128E, 0x128F);
    (0x12B1, 0x12B1); (0x12B6, 0x12B7); (0x12BF, 0x12BF); (0x12C1, 0x12C1); (0x12C6, 0x12C7);
    (0x12D7, 0x12D7); (0x1311, 0x1311); (0x1316, 0x1317); (0x135B, 0x135C); (0x137D, 0x137F);
    (0x139A, 0x139F); (0x13F6, 0x13F7); (0x13FE, 0x13FF); (0x1680, 0x1680); (0x169D, 0x169F);
    (0x16F9, 0x16FF); (0x1716, 0x171E); (0x1737, 0x173F); (0x1754, 0x175F); (0x176D, 0x176D);
    (0x1771, 0x1771); (0x1774, 0x177F); (0x17DE, 0x17DF); (0x17EA, 0x17EF); (0x17FA, 0x17FF);
    (0x180E, 0x180E); (0x181A, 0x181F); (0x1879, 0x187F); (0x18AB, 0x18AF); (0x18F6, 0x18FF);
    (0x191F, 0x191F); (0x192C, 0x192F); (0x193C, 0x193F); (0x1941, 0x1943); (0x196E, 0x196F);
    (0x1975, 0x197F); (0x19AC, 0x19AF); (0x19CA, 0x19CF); (0x19DB, 0x19DD); (0x1A1C, 0x1A1D);
    (0x1A5F, 0x1A5F); (0x1A7D, 0x1A7E); (0x1A8A, 0x1A8F); (0x1A9A, 0x1A9F); (0x1AAE, 0x1AAF);
    (0x1ACF, 0x1AFF); (0x1B4D, 0x1B4F); (0x1B7F, 0x1B7F); (0x1BF4, 0x1BFB); (0x1C38, 0x1C3A);
    (0x1C4A, 0x1C4C); (0x1C89, 0x1C8F); (0x1CBB, 0x1CBC); (0x1CC8, 0x1CCF); (0x1CFB, 0x1CFF);
    (0x1F16, 0x1F17); (0x1F1E, 0x1F1F); (0x1F46, 0x1F47); (0x1F4E, 0x1F4F); (0x1F58, 0x1F58);
    (0x1F5A, 0x1F5A); (0x1F5C, 0x1F5C); (0x1F5E, 0x1F5E); (0x1F7E, 0x1F7F); (0x1FB5, 0x1FB5);
    (0x1FC5, 0x1FC5); (0x1FD4, 0x1FD5); (0x1FDC, 0x1FDC); (0x1FF0, 0x1FF1); (0x1FF5, 0x1FF5);
    (0x1FFF, 0x200F); (0x2028, 0x202F); (0x205F, 0x206F); (0x2072, 0x2073); (0x208F, 0x208F);
    (0x209D, 0x209F); (0x20C1, 0x20CF); (0x20F1, 0x20FF); (0x218C, 0x218F); (0x2427, 0x243F);
    (0x244B, 0x245F); (0x2B74, 0x2B75); (0x2B96, 0x2B96); (0x2CF4, 0x2CF8); (0x2D26, 0x2D26);
    (0x2D28, 0x2D2C); (0x2D2E, 0x2D2F); (0x2D68, 0x2D6E); (0x2D71, 0x2D7E); (0x2D97, 0x2D9F);
    (0x2DA7, 0x2DA7); (0x2DAF, 0x2DAF); (0x2DB7, 0x2DB7); (0x2DBF, 0x2DBF); (0x2DC7, 0x2DC7);
    (0x2DCF, 0x2DCF); (0x2DD7, 0x2DD7); (0x2DDF, 0x2DDF); (0x2E5E, 0x2E7F); (0x2E9A, 0x2E9A);
    (0x2EF4, 0x2EFF); (0x2FD6, 0x2FEF); (0x2FFC, 0x3000); (0x3040, 0x3040); (0x3097, 0x3098);
    (0x3100, 0x3104); (0x3130, 0x3130); (0x318F, 0x318F); (0x31E4, 0x31EF); (0x321F, 0x321F);
    (0xA48D, 0xA48F); (0xA4C7, 0xA4CF); (0xA62C, 0xA63F); (0xA6F8, 0xA6FF); (0xA7CB, 0xA7CF);
    (0xA7D2, 0xA7D2); (0xA7D4, 0xA7D4); (0xA7DA, 0xA7F1); (0xA82D, 0xA82F); (0xA83A, 0xA83F);
    (0xA878, 0xA87F); (0xA8C6, 0xA8CD); (0xA8DA, 0xA8DF); (0xA954, 0xA95E); (0xA97D, 0xA97F);
    (0xA9CE, 0xA9CE); (0xA9DA, 0xA9DD); (0xA9FF, 0xA9FF); (0xAA37, 0xAA3F); (0xAA4E, 0xAA4F);
    (0xAA5A, 0xAA5B); (0xAAC3, 0xAADA); (0xAAF7, 0xAB00); (0xAB07, 0xAB08); (0xAB0F, 0xAB10);
    (0xAB17, 0xAB1F); (0xAB27, 0xAB27); (0xAB2F, 0xAB2F); (0xAB6C, 0xAB6F); (0xABEE, 0xABEF);
    (0xABFA, 0xABFF); (0xD7A4, 0xD7AF); (0xD7C7, 0xD7CA); (0xD7FC, 0xF8FF); (0xFA6E, 0xFA6F);
    (0xFADA, 0xFAFF); (0xFB07, 0xFB12); (0xFB18, 0xFB1C); (0xFB37, 0xFB37); (0xFB3D, 0xFB3D);
    (0xFB3F, 0xFB3F); (0xFB42, 0xFB42); (0xFB45, 0xFB45); (0xFBC3, 0xFBD2); (0xFD90, 0xFD91);
    (0xFDC8, 0xFDCE); (0xFDD0, 0xFDEF); (0xFE1A, 0xFE1F); (0xFE53, 0xFE53); (0xFE67, 0xFE67);
    (0xFE6C, 0xFE6F); (0xFE75, 0xFE75); (0xFEFD, 0xFF00); (0xFFBF, 0xFFC1); (0xFFC8, 0xFFC9);
    (0xFFD0, 0xFFD1); (0xFFD8, 0xFFD9); (0xFFDD, 0xFFDF); (0xFFE7, 0xFFE7); (0xFFEF, 0xFFFB);
    (0xFFFE, 0xFFFF); (0x1000C, 0x1000C); (0x10027, 0x10027); (0x1003B, 0x1003B); (0x1003E, 0x1003E);
    (0x1004E, 0x1004F); (0x1005E, 0x1007F); (0x100FB, 0x100FF); (0x10103, 0x10106); (0x10134, 0x10136);
    (0x1018F, 0x1018F); (0x1019D, 0x1019F); (0x101A1, 0x101CF); (0x101FE, 0x1027F); (0x1029D, 0x1029F);
    (0x102D1, 0x102DF); (0x102FC, 0x102FF); (0x10324, 0x1032C); (0x1034B, 0x1034F); (0x1037B, 0x1037F);
    (0x1039E, 0x1039E); (0x103C4, 0x103C7); (0x103D6, 0x103FF); (0x1049E, 0x1049F); (0x104AA, 0x104AF);
    (0x104D4, 0x104D7); (0x104FC, 0x104FF); (0x10528, 0x1052F); (0x10564, 0x1056E); (0x1057B, 0x1057B);
    (0x1058B, 0x1058B); (0x10593, 0x10593); (0x10596, 0x10596); (0x105A2, 0x105A2); (0x105B2, 0x105B2);
    (0x105BA, 0x105BA); (0x105BD, 0x105FF); (0x10737, 0x1073F); (0x10756, 0x1075F); (0x10768, 0x1077F);
    (0x10786, 0x10786); (0x107B1, 0x107B1); (0x107BB, 0x107FF); (0x10806, 0x10807); (0x10809, 0x10809);
    (0x10836, 0x10836); (0x10839, 0x1083B); (0x1083D, 0x1083E); (0x10856, 0x10856); (0x1089F, 0x108A6);
    (0x108B0, 0x108DF); (0x108F3, 0x108F3); (0x108F6, 0x108FA); (0x1091C, 0x1091E); (0x1093A, 0x1093E);
    (0x10940, 0x1097F); (0x109B8, 0x109BB); (0x109D0, 0x109D1); (0x10A04, 0x10A04); (0x10A07, 0x10A0B);
    (0x10A14, 0x10A14); (0x10A18, 0x10A18); (0x10A36, 0x10A37); (0x10A3B, 0x10A3E); (0x10A49, 0x10A4F);
    (0x10A59, 0x10A5F); (0x10AA0, 0x10ABF); (0x10AE7, 0x10AEA); (0x10AF7, 0x10AFF); (0x10B36, 0x10B38);
    (0x10B56, 0x10B57); (0x10B73, 0x10B77); (0x10B92, 0x10B98); (0x10B9D, 0x10BA8); (0x10BB0, 0x10BFF);
    (0x10C49, 0x10C7F); (0x10CB3, 0x10CBF); (0x10CF3, 0x10CF9); (0x10D28, 0x10D2F); (0x10D3A, 0x10E5F);
    (0x10E7F, 0x10E7F); (0x10EAA, 0x10EAA); (0x10EAE, 0x10EAF); (0x10EB2, 0x10EFF); (0x10F28, 0x10F2F);
    (0x10F5A, 0x10F6F); (0x10F8A, 0x10FAF); (0x10FCC, 0x10FDF); (0x10FF7, 0x10FFF); (0x1104E, 0x11051);
    (0x11076, 0x1107E); (0x110BD, 0x110BD); (0x110C3, 0x110CF); (0x110E9, 0x110EF); (0x110FA, 0x110FF);
    (0x11135, 0x11135); (0x11148, 0x1114F); (0x11177, 0x1117F); (0x111E0, 0x111E0); (0x111F5, 0x111FF);
    (0x11212, 0x11212); (0x1123F, 0x1127F); (0x11287, 0x11287); (0x11289, 0x11289); (0x1128E, 0x1128E);
    (0x1129E, 0x1129E); (0x112AA, 0x112AF); (0x112EB, 0x112EF); (0x112FA, 0x112FF); (0x11304, 0x11304);
    (0x1130D, 0x1130E); (0x11311, 0x11312); (0x11329, 0x11329); (0x11331, 0x11331); (0x11334, 0x11334);
    (0x1133A, 0x1133A); (0x11345, 0x11346); (0x11349, 0x1134A); (0x1134E, 0x1134F); (0x11351, 0x11356);
    (0x11358, 0x1135C); (0x11364, 0x11365); (0x1136D, 0x1136F); (0x11375, 0x113FF); (0x1145C, 0x1145C);
    (0x11462, 0x1147F); (0x114C8, 0x114CF); (0x114DA, 0x1157F); (0x115B6, 0x115B7); (0x115DE, 0x115FF);
    (0x11645, 0x1164F); (0x1165A, 0x1165F); (0x1166D, 0x1167F); (0x116BA, 0x116BF); (0x116CA, 0x116FF);
    (0x1171B, 0x1171C); (0x1172C, 0x1172F); (0x11747, 0x117FF); (0x1183C, 0x1189F); (0x118F3, 0x118FE);
    (0x11907, 0x11908); (0x1190A, 0x1190B); (0x11914, 0x11914); (0x11917, 0x11917); (0x11936, 0x11936);
    (0x11939, 0x1193A); (0x11947, 0x1194F); (0x1195A, 0x1199F); (0x119A8, 0x119A9); (0x119D8, 0x119D9);
    (0x119E5, 0x119FF); (0x11A48, 0x11A4F); (0x11AA3, 0x11AAF); (0x11AF9, 0x11BFF); (0x11C09, 0x11C09);
    (0x11C37, 0x11C37); (0x11C46, 0x11C4F); (0x11C6D, 0x11C6F); (0x11C90, 0x11C91); (0x11CA8, 0x11CA8);
    (0x11CB7, 0x11CFF); (0x11D07, 0x11D07); (0x11D0A, 0x11D0A); (0x11D37, 0x11D39); (0x11D3B, 0x11D3B);
    (0x11D3E, 0x11D3E); (0x11D48, 0x11D4F); (0x11D5A, 0x11D5F); (0x11D66, 0x11D66); (0x11D69, 0x11D69);
    (0x11D8F, 0x11D8F); (0x11D92, 0x11D92); (0x11D99, 0x11D9F); (0x11DAA, 0x11EDF); (0x11EF9, 0x11FAF);
    (0x11FB1, 0x11FBF); (0x11FF2, 0x11FFE); (0x1239A, 0x123FF); (0x1246F, 0x1246F); (0x12475, 0x1247F);
    (0x12544, 0x12F8F); (0x12FF3, 0x12FFF); (0x1342F, 0x143FF); (0x14647, 0x167FF); (0x16A39, 0x16A3F);
    (0x16A5F, 0x16A5F); (0x16A6A, 0x16A6D); (0x16ABF, 0x16ABF); (0x16ACA, 0x16ACF); (0x16AEE, 0x16AEF);
    (0x16AF6, 0x16AFF); (0x16B46, 0x16B4F); (0x16B5A, 0x16B5A); (0x16B62, 0x16B62); (0x16B78, 0x16B7C);
    (0x16B90, 0x16E3F); (0x16E9B, 0x16EFF); (0x16F4B, 0x16F4E); (0x16F88, 0x16F8E); (0x16FA0, 0x16FDF);
    (0x16FE5, 0x16FEF); (0x16FF2, 0x16FFF); (0x187F8, 0x187FF); (0x18CD6, 0x18CFF); (0x18D09, 0x1AFEF);
    (0x1AFF4, 0x1AFF4); (0x1AFFC, 0x1AFFC); (0x1AFFF, 0x1AFFF); (0x1B123, 0x1B14F); (0x1B153, 0x1B163);
    (0x1B168, 0x1B16F); (0x1B2FC, 0x1BBFF); (0x1BC6B, 0x1BC6F); (0x1BC7D, 0x1BC7F); (0x1BC89, 0x1BC8F);
    (0x1BC9A, 0x1BC9B); (0x1BCA0, 0x1CEFF); (0x1CF2E, 0x1CF2F); (0x1CF47, 0x1CF4F); (0x1CFC4, 0x1CFFF);
    (0x1D0F6, 0x1D0FF); (0x1D127, 0x1D128); (0x1D173, 0x1D17A); (0x1D1EB, 0x1D1FF); (0x1D246, 0x1D2DF);
    (0x1D2F4, 0x1D2FF); (0x1D357, 0x1D35F); (0x1D379, 0x1D3FF); (0x1D455, 0x1D455); (0x1D49D, 0x1D49D);
    (0x1D4A0, 0x1D4A1); (0x1D4A3, 0x1D4A4); (0x1D4A7, 0x1D4A8); (0x1D4AD, 0x1D4AD); (0x1D4BA, 0x1D4BA);
    (0x1D4BC, 0x1D4BC); (0x1D4C4, 0x1D4C4); (0x1D506, 0x1D506); (0x1D50B, 0x1D50C); (0x1D515, 0x1D515);
    (0x1D51D, 0x1D51D); (0x1D53A, 0x1D53A); (0x1D53F, 0x1D53F); (0x1D545, 0x1D545); (0x1D547, 0x1D549);
    (0x1D551, 0x1D551); (0x1D6A6, 0x1D6A7); (0x1D7CC, 0x1D7CD); (0x1DA8C, 0x1DA9A); (0x1DAA0, 0x1DAA0);
    (0x1DAB0, 0x1DEFF); (0x1DF1F, 0x1DFFF); (0x1E007, 0x1E007); (0x1E019, 0x1E01A); (0x1E022, 0x1E022);
    (0x1E025, 0x1E025); (0x1E02B, 0x1E0FF); (0x1E12D, 0x1E12F); (0x1E13E, 0x1E13F); (0x1E14A, 0x1E14D);
    (0x1E150, 0x1E28F); (0x1E2AF, 0x1E2BF); (0x1E2FA, 0x1E2FE); (0x1E300, 0x1E7DF); (0x1E7E7, 0x1E7E7);
    (0x1E7EC, 0x1E7EC); (0x1E7EF, 0x1E7EF); (0x1E7FF, 0x1E7FF); (0x1E8C5, 0x1E8C6); (0x1E8D7, 0x1E8FF);
    (0x1E94C, 0x1E94F); (0x1E95A, 0x1E95D); (0x1E960, 0x1EC70); (0x1ECB5, 0x1ED00); (0x1ED3E, 0x1EDFF);
    (0x1EE04, 0x1EE04); (0x1EE20, 0x1EE20); (0x1EE23, 0x1EE23); (0x1EE25, 0x1EE26); (0x1EE28, 0x1EE28);
    (0x1EE33, 0x1EE33); (0x1EE38, 0x1EE38); (0x1EE3A, 0x1EE3A); (0x1EE3C, 0x1EE41); (0x1EE43, 0x1EE46);
    (0x1EE48, 0x1EE48); (0x1EE4A, 0x1EE4A); (0x1EE4C, 0x1EE4C); (0x1EE50, 0x1EE50); (0x1EE53, 0x1EE53);
    (0x1EE55, 0x1EE56); (0x1EE58, 0x1EE58); (0x1EE5A, 0x1EE5A); (0x1EE5C, 0x1EE5C); (0x1EE5E, 0x1EE5E);
    (0x1EE60, 0x1EE60); (0x1EE63, 0x1EE63); (0x1EE65, 0x1EE66); (0x1EE6B, 0x1EE6B); (0x1EE73, 0x1EE73);
    (0x1EE78, 0x1EE78); (0x1EE7D, 0x1EE7D); (0x1EE7F, 0x1EE7F); (0x1EE8A, 0x1EE8A); (0x1EE9C, 0x1EEA0);
    (0x1EEA4, 0x1EEA4); (0x1EEAA, 0x1EEAA); (0x1EEBC, 0x1EEEF); (0x1EEF2, 0x1EFFF); (0x1F02C, 0x1F02F);
    (0x1F094, 0x1F09F); (0x1F0AF, 0x1F0B0); (0x1F0C0, 0x1F0C0); (0x1F0D0, 0x1F0D0); (0x1F0F6, 0x1F0FF);
    (0x1F1AE, 0x1F1E5); (0x1F203, 0x1F20F); (0x1F23C, 0x1F23F); (0x1F249, 0x1F24F); (0x1F252, 0x1F25F);
    (0x1F266, 0x1F2FF); (0x1F6D8, 0x1F6DC); (0x1F6ED, 0x1F6EF); (0x1F6FD, 0x1F6FF); (0x1F774, 0x1F77F);
    (0x1F7D9, 0x1F7DF); (0x1F7EC, 0x1F7EF); (0x1F7F1, 0x1F7FF); (0x1F80C, 0x1F80F); (0x1F848, 0x1F84F);
    (0x1F85A, 0x1F85F); (0x1F888, 0x1F88F); (0x1F8AE, 0x1F8AF); (0x1F8B2, 0x1F8FF); (0x1FA54, 0x1FA5F);
    (0x1FA6E, 0x1FA6F); (0x1FA75, 0x1FA77); (0x1FA7D, 0x1FA7F); (0x1FA87, 0x1FA8F); (0x1FAAD, 0x1FAAF);
    (0x1FABB, 0x1FABF); (0x1FAC6, 0x1FACF); (0x1FADA, 0x1FADF); (0x1FAE8, 0x1FAEF); (0x1FAF7, 0x1FAFF);
    (0x1FB93, 0x1FB93); (0x1FBCB, 0x1FBEF); (0x1FBFA, 0x1FFFF); (0x2A6E0, 0x2A6FF); (0x2B739, 0x2B73F);
    (0x2B81E, 0x2B81F); (0x2CEA2, 0x2CEAF); (0x2EBE1, 0x2F7FF); (0x2FA1E, 0x2FFFF); (0x3134B, 0xE00FF);
    (0xE01F0, 0x10FFFF)
  ]%N.

Definition in_ranges (tbl : list (N * N)) (c : N) : bool :=
  existsb (fun r => (fst r <=? c)%N && (c <=? snd r)%N) tbl.

Definition isspace (c : N) : bool := in_ranges whitespace_ranges c.
Definition isdigit (c : N) : bool := in_ranges digit_ranges c.
Definition isprintable (c : N) : bool := negb (in_ranges unprintable_ranges c).

(** [Py_UNICODE_TODECIMAL]: the decimal value of a code point, if any. *)
Definition todecimal (c : N) : option N :=
  match find (fun z => (z <=? c)%N && (c <=? z + 9)%N) decimal_zeros with
  | Some z => Some (c - z)%N
  | None => None
  end.

Definition isdecimal (c : N) : bool :=
  match todecimal c with Some _ => true | None => false end.

(** [Py_ISSPACE]: the ASCII-only whitespace test of the C layer. *)
Definition c_isspace (c : N) : bool :=
  ((9 <=? c) && (c <=? 13) || (c =? 32))%N.

Definition is_ascii_digit (c : N) : bool := ((48 <=? c) && (c <=? 57))%N.

End Unicode.

(** ** Python strings *)

(** A [str] is the list of its code points. *)
Definition pystr : Type := list N.

(** An ASCII literal of the source. *)
Definition lit (s : string) : pystr :=
  map N_of_ascii (list_ascii_of_string s).

Arguments lit s%_string.

Module PyStr.

Fixpoint eqb (a b : pystr) : bool :=
  match a, b with
  | [], [] => true
  | x :: a', y :: b' => (x =? y)%N && eqb a' b'
  | _, _ => false
  end.

Fixpoint dropwhile (p : N -> bool) (s : pystr) : pystr :=
  match s with
  | c :: s' => if p c then dropwhile p s' else s
  | [] => []
  end.

Definition lstrip (s : pystr) : pystr := dropwhile Unicode.isspace s.
Definition rstrip (s : pystr) : pystr := rev (lstrip (rev s)).

(** [s.strip()] *)
Definition strip (s : pystr) : pystr := rstrip (lstrip s).

(** [s.split(sep)] for a separator of one character: every occurrence
    separates, so consecutive separators give empty pieces and the result
    is never the empty list. *)
Fixpoint split (sep : N) (s : pystr) : list pystr :=
  match s with
  | [] => [[]]
  | c :: s' =>
      if (c =? sep)%N then [] :: split sep s'
      else match split sep s' with
           | w :: ws => (c :: w) :: ws
           | [] => [[c]]
           end
  end.

(** [sep.join(l)] *)
Fixpoint join (sep : pystr) (l : list pystr) : pystr :=
  match l with
  | [] => []
  | w :: ws =>
      match ws with
      | [] => w
      | _ :: _ => w ++ sep ++ join sep ws
      end
  end.

(** [s.isdigit()]: at least one character, and all of them digits. *)
Definition isdigit (s : pystr) : bool :=
  match s with
  | [] => false
  | _ :: _ => forallb Unicode.isdigit s
  end.

(** Decimal digits of a natural number, most significant first. *)
Fixpoint digits_fuel (fuel : nat) (n : N) (acc : pystr) : pystr :=
  match fuel with
  | O => acc
  | S f =>
      let acc' := (48 + n mod 10)%N :: acc in
      if (n <? 10)%N then acc' else digits_fuel f (n / 10)%N acc'
  end.

Definition of_N (n : N) : pystr :=
  digits_fuel (S (N.to_nat (N.log2 n))) n [].

(** [str(n)] for an [int]. *)
Definition of_Z (z : Z) : pystr :=
  if (z <? 0)%Z then 45%N :: of_N (Z.abs_N z) else of_N (Z.abs_N z).

Definition of_nat (n : nat) : pystr := of_N (N.of_nat n).

(** Left padding with zeros up to [w] characters, as [%02d] does. *)
Definition zfill (w : nat) (s : pystr) : pystr :=
  repeat 48%N (w - length s) ++ s.

Definition hex_char (d : N) : N :=
  if (d <? 10)%N then (48 + d)%N else (87 + d)%N.

(** [w] lower-case hexadecimal digits of [n]. *)
Fixpoint hex_fixed (w : nat) (n : N) : pystr :=
  match w with
  | O => []
  | S w' => hex_char ((n / 16 ^ N.of_nat w') mod 16)%N :: hex_fixed w' n
  end.

Definition mem (c : N) (s : pystr) : bool := existsb (N.eqb c) s.

(** One character of [repr(s)] between quotes [quote]. *)
Definition repr_char (quote c : N) : pystr :=
  if ((c =? quote) || (c =? 92))%N then [92%N; c]
  else if (c =? 9)%N then [92; 116]%N
  else if (c =? 10)%N then [92; 110]%N
  else if (c =? 13)%N then [92; 114]%N
  else if ((c <? 32) || (c =? 127))%N then [92; 120]%N ++ hex_fixed 2 c
  else if (c <? 127)%N then [c]
  else if Unicode.isprintable c then [c]
  else if (c <=? 255)%N then [92; 120]%N ++ hex_fixed 2 c
  else if (c <=? 65535)%N then [92; 117]%N ++ hex_fixed 4 c
  else [92; 85]%N ++ hex_fixed 8 c.

(** [repr(s)]: single quotes unless the string has single quotes and no
    double quote. *)
Definition repr (s : pystr) : pystr :=
  let quote := if mem 39 s && negb (mem 34 s) then 34%N else 39%N in
  quote :: flat_map (repr_char quote) s ++ [quote].

End PyStr.

(** ** Exceptions *)

(** The classes the uniform wrapper tells apart: [ValueError],
    [IndexError], any other subclass of [Exception], and what is a
    [BaseException] only. *)
Inductive exn_class : Type :=
| ValueError
| IndexError
| OtherException
| BaseExceptionOnly.

Record exn : Type := mkExn { exn_cls : exn_class; exn_msg : pystr }.

Inductive result (A : Type) : Type :=
| Ok (a : A)
| Raise (e : exn).

Arguments Ok {A} a.
Arguments Raise {A} e.

Definition raise_ValueError {A : Type} (msg : pystr) : result A :=
  Raise (mkExn ValueError msg).

Definition bind {A B : Type} (m : result A) (k : A -> result B) : result B :=
  match m with
  | Ok a => k a
  | Raise e => Raise e
  end.

Declare Scope py_scope.
Delimit Scope py_scope with py.
Notation "x <- m ;; k" := (bind m (fun x => k))
  (at level 61, m at next level, right associativity) : py_scope.

(** ** [int(s)] *)

Module PyInt.

(** [_PyUnicode_TransformDecimalAndSpaceToASCII]: the buffer ends with a
    question mark at the first character above ASCII that is neither
    whitespace nor a decimal digit. *)
Fixpoint to_ascii_decimal (s : pystr) : pystr :=
  match s with
  | [] => []
  | c :: s' =>
      if (c <? 127)%N then c :: to_ascii_decimal s'
      else if Unicode.isspace c then 32%N :: to_ascii_decimal s'
      else match Unicode.todecimal c with
           | Some d => (48 + d)%N :: to_ascii_decimal s'
           | None => [63%N]
           end
  end.

(** The digit scan of [PyLong_FromString] in base 10: value, number of
    digits and the unread rest; [None] for a doubled or trailing
    underscore. *)
Fixpoint scan_digits (s : pystr) (prev_us : bool) (ndigits : nat) (acc : Z)
  : option (Z * nat * pystr) :=
  match s with
  | c :: s' =>
      if (c =? 95)%N then
        if prev_us then None else scan_digits s' true ndigits acc
      else if Unicode.is_ascii_digit c then
        scan_digits s' false (S ndigits) (10 * acc + Z.of_N (c - 48))%Z
      else if prev_us then None else Some (acc, ndigits, s)
  | [] => if prev_us then None else Some (acc, ndigits, [])
  end.

Definition max_str_digits : nat := 4300.

Definition invalid_literal (s : pystr) : exn :=
  mkExn ValueError
    (lit "invalid literal for int() with base 10: " ++ firstn 200 (PyStr.repr s)).

Definition exceeds_limit (ndigits : nat) : exn :=
  mkExn ValueError
    (lit "Exceeds the limit (" ++ PyStr.of_nat max_str_digits
       ++ lit " digits) for integer string conversion: value has "
       ++ PyStr.of_nat ndigits
       ++ lit " digits; use sys.set_int_max_str_digits() to increase the limit").

(** The optional sign: whether it is a minus, and what follows it. *)
Definition split_sign (b : pystr) : bool * pystr :=
  match b with
  | c :: r =>
      if (c =? 43)%N then (false, r)
      else if (c =? 45)%N then (true, r)
      else (false, b)
  | [] => (false, b)
  end.

Definition starts_with (c : N) (s : pystr) : bool :=
  match s with
  | x :: _ => (x =? c)%N
  | [] => false
  end.

Definition int (s : pystr) : result Z :=
  let sb := split_sign (PyStr.dropwhile Unicode.c_isspace (to_ascii_decimal s)) in
  if starts_with 95 (snd sb) then Raise (invalid_literal s)
  else
    match scan_digits (snd sb) false 0 0%Z with
    | None => Raise (invalid_literal s)
    | Some (v, n, rest) =>
        if Nat.ltb max_str_digits n then Raise (exceeds_limit n)
        else if Nat.eqb n 0 then Raise (invalid_literal s)
        else
          match PyStr.dropwhile Unicode.c_isspace rest with
          | [] => Ok (if fst sb then (- v)%Z else v)
          | _ :: _ => Raise (invalid_literal s)
          end
    end.

End PyInt.

(** ** [datetime] *)

Module DateTime.

Record datetime : Type := mkDatetime {
  year : Z; month : Z; day : Z;
  hour : Z; minute : Z; second : Z; microsecond : Z
}.

Record timedelta : Type := mkTimedelta {
  days : Z; seconds : Z; microseconds : Z
}.

Local Open Scope Z_scope.

Definition MINYEAR : Z := 1.
Definition MAXYEAR : Z := 9999.

Definition is_leap (y : Z) : bool :=
  (y mod 4 =? 0) && (negb (y mod 100 =? 0) || (y mod 400 =? 0)).

Definition days_in_month (y m : Z) : Z :=
  if m =? 2 then (if is_leap y then 29 else 28)
  else if (m =? 4) || (m =? 6) || (m =? 9) || (m =? 11) then 30
  else 31.

Definition days_before_year (y : Z) : Z :=
  let p := y - 1 in p * 365 + p / 4 - p / 100 + p / 400.

(** Days of the year [y] before the first day of month [m]. *)
Definition days_before_month (y m : Z) : Z :=
  fold_left (fun acc k => acc + days_in_month y (Z.of_nat k))
            (seq 1 (Z.to_nat (m - 1))) 0.

Definition ymd_to_ord (y m d : Z) : Z :=
  days_before_year y + days_before_month y m + d.

Definition toordinal (t : datetime) : Z :=
  ymd_to_ord (year t) (month t) (day t).

(** The argument check of the [date] and [datetime] constructors. *)
Definition check_date_fields (y m d : Z) : result unit :=
  if (y <? MINYEAR) || (MAXYEAR <? y) then
    raise_ValueError (lit "year " ++ PyStr.of_Z y ++ lit " is out of range")
  else if (m <? 1) || (12 <? m) then
    raise_ValueError (lit "month must be in 1..12")
  else if (d <? 1) || (days_in_month y m <? d) then
    raise_ValueError (lit "day is out of range for month")
  else Ok tt.

(** [t.replace(year=y)] *)
Definition replace_year (t : datetime) (y : Z) : result datetime :=
  bind (check_date_fields y (month t) (day t)) (fun _ =>
  Ok (mkDatetime y (month t) (day t)
                 (hour t) (minute t) (second t) (microsecond t))).

Fixpoint lex_ltb (a b : list Z) : bool :=
  match a, b with
  | x :: a', y :: b' => (x <? y) || ((x =? y) && lex_ltb a' b')
  | _, _ => false
  end.

Definition fields (t : datetime) : list Z :=
  [year t; month t; day t; hour t; minute t; second t; microsecond t].

(** [a < b] on naive datetimes: field by field, most significant first. *)
Definition ltb (a b : datetime) : bool := lex_ltb (fields a) (fields b).

(** Normalising constructor of [timedelta]: [0 <= microseconds < 10^6]
    and [0 <= seconds < 86400], the carries going to the days. *)
Definition new_delta (d s us : Z) : timedelta :=
  let s' := s + us / 1000000 in
  mkTimedelta (d + s' / 86400) (s' mod 86400) (us mod 1000000).

Definition seconds_of_day (t : datetime) : Z :=
  hour t * 3600 + minute t * 60 + second t.

(** [a - b] *)
Definition sub (a b : datetime) : timedelta :=
  new_delta (toordinal a - toordinal b)
            (seconds_of_day a - seconds_of_day b)
            (microsecond a - microsecond b).

(** *** [datetime.strptime(s, "%d.%m.%Y")] *)

(** One-character classes of the regular expression [_strptime] builds. *)
Inductive cls : Type :=
| Chr (c : N)            (* a literal character *)
| Rng (lo hi : N)        (* [lo-hi] *)
| Dec.                   (* \d: any Unicode decimal digit *)

Definition cls_match (k : cls) (c : N) : bool :=
  match k with
  | Chr x => (c =? x)%N
  | Rng lo hi => ((lo <=? c) && (c <=? hi))%N
  | Dec => Unicode.isdecimal c
  end.

(** A sequence of classes against a prefix: matched text and rest. *)
Fixpoint match_seq (p : list cls) (s : pystr) : option (pystr * pystr) :=
  match p with
  | [] => Some ([], s)
  | k :: p' =>
      match s with
      | c :: s' =>
          if cls_match k c then
            match match_seq p' s' with
            | Some (tok, rest) => Some (c :: tok, rest)
            | None => None
            end
          else None
      | [] => None
      end
  end.

(** A group of alternatives followed by the continuation [k]: the first
    alternative with which the whole match succeeds (backtracking). *)
Fixpoint alt_group {R : Type} (alts : list (list cls)) (s : pystr)
    (k : pystr -> pystr -> option R) : option R :=
  match alts with
  | [] => None
  | p :: alts' =>
      match match_seq p s with
      | Some (tok, rest) =>
          match k tok rest with
          | Some r => Some r
          | None => alt_group alts' s k
          end
      | None => alt_group alts' s k
      end
  end.

(** [(?P<d>3[0-1]|[1-2]\d|0[1-9]|[1-9]| [1-9])] *)
Definition re_d : list (list cls) :=
  [ [Chr 51; Rng 48 49]; [Rng 49 50; Dec]; [Chr 48; Rng 49 57];
    [Rng 49 57]; [Chr 32; Rng 49 57] ]%N.

(** [(?P<m>1[0-2]|0[1-9]|[1-9])] *)
Definition re_m : list (list cls) :=
  [ [Chr 49; Rng 48 50]; [Chr 48; Rng 49 57]; [Rng 49 57] ]%N.

(** [(?P<Y>\d\d\d\d)] *)
Definition re_Y : list (list cls) := [ [Dec; Dec; Dec; Dec] ].

Definition dot : list cls := [Chr 46%N].

(** The groups d, m, Y and the text left after the match. *)
Definition match_dmY (s : pystr) : option (pystr * pystr * pystr * pystr) :=
  alt_group re_d s (fun d r1 =>
  match match_seq dot r1 with
  | None => None
  | Some (_, r2) =>
      alt_group re_m r2 (fun m r3 =>
      match match_seq dot r3 with
      | None => None
      | Some (_, r4) =>
          alt_group re_Y r4 (fun Y r5 => Some (d, m, Y, r5))
      end)
  end).

Definition fmt_dmY : pystr := lit "%d.%m.%Y".

Definition strptime_dmY (s : pystr) : result datetime :=
  match match_dmY s with
  | None =>
      raise_ValueError (lit "time data " ++ PyStr.repr s
                          ++ lit " does not match format " ++ PyStr.repr fmt_dmY)
  | Some (d, m, Y, rest) =>
      match rest with
      | _ :: _ => raise_ValueError (lit "unconverted data remains: " ++ rest)
      | [] =>
          bind (PyInt.int d) (fun dd =>
          bind (PyInt.int m) (fun mo =>
          bind (PyInt.int Y) (fun y =>
          bind (check_date_fields y mo dd) (fun _ =>
          Ok (mkDatetime y mo dd 0 0 0 0)))))
      end
  end.

(** [t.strftime("%d.%m.%Y")]: two digits for the day and the month; the
    year as the C library prints it, without padding. *)
Definition strftime_dmY (t : datetime) : pystr :=
  PyStr.zfill 2 (PyStr.of_Z (day t)) ++ lit "."
    ++ PyStr.zfill 2 (PyStr.of_Z (month t)) ++ lit "."
    ++ PyStr.of_Z (year t).

End DateTime.

(** ** The data model of the source *)

(** [class Field]: a wrapper of one value. *)
Record Field (A : Type) : Type := mkField { value : A }.

Arguments mkField {A} value.
Arguments value {A} f.

(** [class Name(Field)]: no check of its own. *)
Definition Name : Type := Field pystr.
Definition new_Name (v : pystr) : Name := mkField v.

(** [class Phone(Field)] *)
Definition Phone : Type := Field pystr.
Definition new_Phone (v : pystr) : result Phone :=
  if negb (PyStr.isdigit v) || negb (Nat.eqb (length v) 10) then
    raise_ValueError (lit "Phone must have exactly 10 digits.")
  else Ok (mkField v).

(** [class Birthday(Field)], for an argument that is a [str]: the branch
    for other types is out of reach of a [pystr]. *)
Definition Birthday : Type := Field DateTime.datetime.
Definition new_Birthday (v : pystr) : result Birthday :=
  match DateTime.strptime_dmY v with
  | Ok t => Ok (mkField t)
  | Raise e =>
      match exn_cls e with
      | ValueError => raise_ValueError (lit "Invalid date format. Use DD.MM.YYYY")
      | _ => Raise e
      end
  end.

(** [class Record] *)
Record Record_ : Type := mkRecord {
  name : Name;
  phones : list Phone;
  birthday : option Birthday
}.

Definition new_Record (n : pystr) : Record_ :=
  mkRecord (new_Name n) [] None.

Definition Record_add_phone (self : Record_) (phone : pystr) : result Record_ :=
  bind (new_Phone phone) (fun p =>
  Ok (mkRecord (name self) (phones self ++ [p]) (birthday self))).

Definition Record_remove_phone (self : Record_) (phone : pystr) : Record_ :=
  mkRecord (name self)
           (filter (fun num_ph => negb (PyStr.eqb (value num_ph) phone)) (phones self))
           (birthday self).

(** The loop of [edit_phone]: the first entry equal to [old_phone] gets
    the new value, and the loop returns. *)
Fixpoint edit_first (ps : list Phone) (old_phone new_phone : pystr) : list Phone :=
  match ps with
  | [] => []
  | phone :: ps' =>
      if PyStr.eqb (value phone) old_phone then mkField new_phone :: ps'
      else phone :: edit_first ps' old_phone new_phone
  end.

Definition Record_edit_phone (self : Record_) (old_phone new_phone : pystr) : Record_ :=
  mkRecord (name self) (edit_first (phones self) old_phone new_phone) (birthday self).

Definition Record_add_birthday (self : Record_) (b : pystr) : result Record_ :=
  bind (new_Birthday b) (fun bd =>
  Ok (mkRecord (name self) (phones self) (Some bd))).

(** The next occurrence as both [days_to_birthday] and
    [get_upcoming_birthdays] compute it from the clock reading [today]. *)
Definition next_birthday (today : DateTime.datetime) (b : Birthday)
  : result DateTime.datetime :=
  bind (DateTime.replace_year (value b) (DateTime.year today)) (fun nb =>
  if DateTime.ltb nb today
  then DateTime.replace_year nb (DateTime.year today + 1)
  else Ok nb).

(** [days_to_birthday]; [today] is what [datetime.today()] returns. *)
Definition Record_days_to_birthday (today : DateTime.datetime) (self : Record_)
  : result (option Z) :=
  match birthday self with
  | Some b =>
      bind (next_birthday today b) (fun nb =>
      Ok (Some (DateTime.days (DateTime.sub nb today))))
  | None => Ok None
  end.

Definition Record_str (self : Record_) : pystr :=
  let phones_str := PyStr.join (lit ", ") (map value (phones self)) in
  let birthday_str :=
    match birthday self with
    | Some b => DateTime.strftime_dmY (value b)
    | None => lit "No birthday"
    end in
  lit "Contact name: " ++ value (name self) ++ lit ", phones: " ++ phones_str
    ++ lit ", birthday: " ++ birthday_str.

(** [class AddressBook(UserDict)]: the [data] dictionary, in insertion
    order. *)
Definition AddressBook : Type := list (pystr * Record_).

Fixpoint dict_get (k : pystr) (d : AddressBook) : option Record_ :=
  match d with
  | [] => None
  | (k', v) :: d' => if PyStr.eqb k' k then Some v else dict_get k d'
  end.

(** [d[k] = v]: an existing key keeps its place, a new one goes last. *)
Fixpoint dict_set (k : pystr) (v : Record_) (d : AddressBook) : AddressBook :=
  match d with
  | [] => [(k, v)]
  | (k', v') :: d' =>
      if PyStr.eqb k' k then (k', v) :: d' else (k', v') :: dict_set k v d'
  end.

Fixpoint dict_del (k : pystr) (d : AddressBook) : AddressBook :=
  match d with
  | [] => []
  | (k', v') :: d' =>
      if PyStr.eqb k' k then d' else (k', v') :: dict_del k d'
  end.

Definition dict_values (d : AddressBook) : list Record_ := map snd d.
Definition dict_keys (d : AddressBook) : list pystr := map fst d.

Definition AddressBook_add_record (record : Record_) (self : AddressBook) : AddressBook :=
  dict_set (value (name record)) record self.

Definition AddressBook_find (n : pystr) (self : AddressBook) : option Record_ :=
  dict_get n self.

Definition AddressBook_delete (n : pystr) (self : AddressBook) : AddressBook :=
  dict_del n self.

(** The loop of [get_upcoming_birthdays] over the values, with the list
    built so far. *)
Fixpoint upcoming_loop (today : DateTime.datetime) (days : Z)
    (recs : list Record_) (upcoming_birthdays : list Record_)
  : result (list Record_) :=
  match recs with
  | [] => Ok upcoming_birthdays
  | rec_birth :: recs' =>
      match birthday rec_birth with
      | Some b =>
          bind (next_birthday today b) (fun nb =>
          let d := DateTime.days (DateTime.sub nb today) in
          if ((0 <=? d) && (d <=? days))%Z
          then upcoming_loop today days recs' (upcoming_birthdays ++ [rec_birth])
          else upcoming_loop today days recs' upcoming_birthdays)
      | None => upcoming_loop today days recs' upcoming_birthdays
      end
  end.

Definition AddressBook_get_upcoming_birthdays (today : DateTime.datetime)
    (days : Z) (self : AddressBook) : result (list Record_) :=
  upcoming_loop today days (dict_values self) [].

(** ** The command layer *)

(** What a handler leaves behind: its result or exception, and the book
    as it has mutated it up to that point. *)
Definition outcome : Type := (result pystr * AddressBook)%type.

(** The decorator [input_error]: [ValueError] and [IndexError] have their
    own messages, every other [Exception] the third one; what is not an
    [Exception] is not caught. *)
Definition catch_errors (r : result pystr) : result pystr :=
  match r with
  | Ok s => Ok s
  | Raise e =>
      match exn_cls e with
      | ValueError => Ok (lit "Error: " ++ exn_msg e)
      | IndexError => Ok (lit "Error: Missing arguments.")
      | OtherException => Ok (lit "Unexpected error: " ++ exn_msg e)
      | BaseExceptionOnly => Raise e
      end
  end.

Definition input_error {A : Type} (func : A -> AddressBook -> outcome)
  : A -> AddressBook -> outcome :=
  fun args book => (catch_errors (fst (func args book)), snd (func args book)).

(** [a, b, c = args] *)
Definition unpack3 (args : list pystr) : result (pystr * pystr * pystr) :=
  match args with
  | [a; b; c] => Ok (a, b, c)
  | _ =>
      if Nat.ltb (length args) 3 then
        raise_ValueError (lit "not enough values to unpack (expected 3, got "
                            ++ PyStr.of_nat (length args) ++ lit ")")
      else raise_ValueError (lit "too many values to unpack (expected 3)")
  end.

(** [a, b, *_ = args] *)
Definition unpack2_star (args : list pystr) : result (pystr * pystr) :=
  match args with
  | a :: b :: _ => Ok (a, b)
  | _ =>
      raise_ValueError (lit "not enough values to unpack (expected at least 2, got "
                          ++ PyStr.of_nat (length args) ++ lit ")")
  end.

(** [a, *_ = args] *)
Definition unpack1_star (args : list pystr) : result pystr :=
  match args with
  | a :: _ => Ok a
  | [] =>
      raise_ValueError (lit "not enough values to unpack (expected at least 1, got "
                          ++ PyStr.of_nat (length args) ++ lit ")")
  end.

(** A method that mutates the record object found under key [n] changes
    what the book holds there. *)
Definition store_record (n : pystr) (record : Record_) (book : AddressBook)
  : AddressBook := dict_set n record book.

Definition not_found (n : pystr) : pystr :=
  lit "Contact " ++ n ++ lit " not found in AddressBook.".

Definition add_contact_func (args : list pystr) (book : AddressBook) : outcome :=
  if Nat.ltb (length args) 2 || negb (PyStr.isdigit (nth 1 args [])) then
    (raise_ValueError (lit "Please provide both name and a valid phone number."), book)
  else
    match unpack2_star args with
    | Raise e => (Raise e, book)
    | Ok (n, phone) =>
        let '(record, book1, message) :=
          match AddressBook_find n book with
          | None =>
              let record := new_Record n in
              (record, AddressBook_add_record record book, lit "Contact added.")
          | Some record => (record, book, lit "Contact updated.")
          end in
        match Record_add_phone record phone with
        | Raise e => (Raise e, book1)
        | Ok record' => (Ok message, store_record n record' book1)
        end
    end.

Definition add_contact := input_error add_contact_func.

Definition change_phone_func (args : list pystr) (book : AddressBook) : outcome :=
  match unpack3 args with
  | Raise e => (Raise e, book)
  | Ok (n, old_phone, new_phone) =>
      match AddressBook_find n book with
      | None => (raise_ValueError (not_found n), book)
      | Some record =>
          (Ok (lit "Phone number " ++ old_phone ++ lit " changed to " ++ new_phone
                 ++ lit " for contact " ++ n ++ lit "."),
           store_record n (Record_edit_phone record old_phone new_phone) book)
      end
  end.

Definition change_phone := input_error change_phone_func.

Definition show_phones_func (args : list pystr) (book : AddressBook) : outcome :=
  match unpack1_star args with
  | Raise e => (Raise e, book)
  | Ok n =>
      match AddressBook_find n book with
      | None => (raise_ValueError (not_found n), book)
      | Some record =>
          let phones_str := PyStr.join (lit ", ") (map value (phones record)) in
          (Ok match phones_str with
              | _ :: _ => lit "Contact " ++ n ++ lit "'s phones: " ++ phones_str
              | [] => lit "Contact " ++ n ++ lit " has no phones."
              end,
           book)
      end
  end.

Definition show_phones := input_error show_phones_func.

Definition nl : pystr := [10%N].

Definition show_all_func (_ : unit) (book : AddressBook) : outcome :=
  match book with
  | [] => (Ok (lit "AddressBook is empty."), book)
  | _ :: _ =>
      (Ok (PyStr.strip
             (fold_left
                (fun res record =>
                   res ++ (Record_str record ++ nl ++ repeat 45%N 20 ++ nl))
                (dict_values book)
                (lit "All contacts:" ++ nl))),
       book)
  end.

Definition show_all (book : AddressBook) : outcome := input_error show_all_func tt book.

Definition add_birthday_func (args : list pystr) (book : AddressBook) : outcome :=
  match unpack2_star args with
  | Raise e => (Raise e, book)
  | Ok (n, b) =>
      match AddressBook_find n book with
      | None => (raise_ValueError (not_found n), book)
      | Some record =>
          match Record_add_birthday record b with
          | Raise e => (Raise e, book)
          | Ok record' =>
              (Ok (lit "Birthday " ++ b ++ lit " added for contact " ++ n ++ lit "."),
               store_record n record' book)
          end
      end
  end.

Definition add_birthday := input_error add_birthday_func.

(** The lines of [birthdays]; a record without a birthday would have no
    [value] to read. *)
Fixpoint birthday_lines (recs : list Record_) (res : pystr) : result pystr :=
  match recs with
  | [] => Ok res
  | record :: recs' =>
      match birthday record with
      | Some b =>
          birthday_lines recs'
            (res ++ (value (name record) ++ lit ": "
                       ++ DateTime.strftime_dmY (value b) ++ nl))
      | None =>
          Raise (mkExn OtherException
                       (lit "'NoneType' object has no attribute 'value'"))
      end
  end.

Definition birthdays_func (today : DateTime.datetime) (args : list pystr)
    (book : AddressBook) : outcome :=
  (bind (match args with
         | a0 :: _ => PyInt.int a0
         | [] => Ok 7%Z
         end) (fun days =>
   bind (AddressBook_get_upcoming_birthdays today days book) (fun upcoming =>
   match upcoming with
   | [] => Ok (lit "No upcoming birthdays in the next week.")
   | _ :: _ =>
       bind (birthday_lines upcoming (lit "Upcoming birthdays:" ++ nl))
            (fun res => Ok (PyStr.strip res))
   end)),
   book).

Definition birthdays (today : DateTime.datetime) := input_error (birthdays_func today).

(** [parse_input]; [parts[0]] would raise on an empty list. *)
Definition parse_input (user_input : pystr) : result (pystr * list pystr) :=
  match PyStr.strip user_input with
  | [] => Ok ([], [])
  | _ :: _ =>
      match PyStr.split 32 (PyStr.strip user_input) with
      | command :: args => Ok (command, args)
      | [] => Raise (mkExn IndexError (lit "list index out of range"))
      end
  end.

(** One turn of the loop of [main]. *)
Inductive turn : Type :=
| Printed (out : pystr) (book : AddressBook)    (* printed, loop goes on *)
| Stopped (out : pystr) (book : AddressBook)    (* printed, book saved, loop left *)
| Escaped (e : exn) (book : AddressBook).       (* an exception left the loop *)

Definition printed (o : outcome) : turn :=
  match fst o with
  | Ok out => Printed out (snd o)
  | Raise e => Escaped e (snd o)
  end.

Definition main_turn (today : DateTime.datetime) (user_input : pystr)
    (book : AddressBook) : turn :=
  match parse_input user_input with
  | Raise e => Escaped e book
  | Ok (command, args) =>
      match command with
      | [] => Printed (lit "Please enter a valid command.") book
      | _ :: _ =>
          if PyStr.eqb command (lit "close") || PyStr.eqb command (lit "exit")
          then Stopped (lit "Good bye!") book
          else if PyStr.eqb command (lit "hello")
          then Printed (lit "How can I help you?") book
          else if PyStr.eqb command (lit "add") then printed (add_contact args book)
          else if PyStr.eqb command (lit "change") then printed (change_phone args book)
          else if PyStr.eqb command (lit "phone") then printed (show_phones args book)
          else if PyStr.eqb command (lit "all") then printed (show_all book)
          else if PyStr.eqb command (lit "add-birthday")
          then printed (add_birthday args book)
          else if PyStr.eqb command (lit "birthdays")
          then printed (birthdays today args book)
          else Printed (lit "Invalid command.") book
      end
  end.

(** The book after the loop has read the given lines, each with the clock
    reading of its turn; nothing is read after the loop is left. *)
Fixpoint main_loop (inputs : list (DateTime.datetime * pystr)) (book : AddressBook)
  : AddressBook :=
  match inputs with
  | [] => book
  | (today, user_input) :: inputs' =>
      match main_turn today user_input book with
      | Printed _ book' => main_loop inputs' book'
      | Stopped _ book' => book'
      | Escaped _ book' => book'
      end
  end.

(** ** Definitions of the statements *)

(** *** Classes of results *)

(** A result that is a value or a [ValueError]. *)
Definition value_error_only {A : Type} (r : result A) : Prop :=
  match r with
  | Ok _ => True
  | Raise e => exn_cls e = ValueError
  end.

(** A result the wrapper turns into a string. *)
Definition catchable {A : Type} (r : result A) : Prop :=
  match r with
  | Ok _ => True
  | Raise e => exn_cls e <> BaseExceptionOnly
  end.

(** *** Phones *)

Definition alice_record : Record_ :=
  mkRecord (new_Name (lit "Alice")) [mkField (lit "0501234567")] None.

Definition phone_error : pystr := lit "Phone must have exactly 10 digits.".

(** Ten Arabic-Indic digits, U+0660 to U+0669. *)
Definition arabic_indic_phone : pystr :=
  [0x660; 0x665; 0x660; 0x661; 0x662; 0x663; 0x664; 0x665; 0x666; 0x667]%N.

(** *** Splitting a line *)

(** The claim's reading of the split: the pieces are the maximal runs of
    characters that are not whitespace, as [str.split()] gives them. *)
Fixpoint spec_words (s : pystr) : list pystr :=
  match s with
  | [] => []
  | c :: s' =>
      if Unicode.isspace c then spec_words s'
      else
        match s' with
        | [] => [[c]]
        | c' :: _ =>
            if Unicode.isspace c' then [c] :: spec_words s'
            else match spec_words s' with
                 | w :: ws => (c :: w) :: ws
                 | [] => [[c]]
                 end
        end
  end.

Definition spec_parse_input (user_input : pystr) : pystr * list pystr :=
  match spec_words user_input with
  | [] => ([], [])
  | command :: args => (command, args)
  end.

(** The tokens of [s] have one space character between them and no
    other whitespace, and [s] begins and ends with a token. *)
Fixpoint single_spaced (s : pystr) : bool :=
  match s with
  | [] => false
  | c :: s' =>
      negb (Unicode.isspace c)
      && match s' with
         | [] => true
         | c' :: s'' =>
             if Unicode.isspace c' then (c' =? 32)%N && single_spaced s''
             else single_spaced s'
         end
  end.

(** *** Keys and turns of the loop *)

Definition key_is_name (kv : pystr * Record_) : Prop :=
  fst kv = value (name (snd kv)).

(** The first argument of a line whose command is [add]. *)
Definition added_name (user_input : pystr) : option pystr :=
  match parse_input user_input with
  | Ok (command, n :: _) =>
      if PyStr.eqb command (lit "add") then Some n else None
  | _ => None
  end.

Definition turn_book (t : turn) : AddressBook :=
  match t with
  | Printed _ book => book
  | Stopped _ book => book
  | Escaped _ book => book
  end.

(** *** Birthdays on calendar dates *)

(** A clock reading at noon: 4 November 2026, 12:00:00. *)
Definition noon : DateTime.datetime := DateTime.mkDatetime 2026 11 4 12 0 0 0.

(** The claims' reading, on calendar dates: the occurrence of the
    birthday's month and day in the year of [today], or in the next year
    when that date is before today's date. *)
Definition spec_next_occurrence (today b : DateTime.datetime) : Z :=
  let this_year :=
    DateTime.ymd_to_ord (DateTime.year today) (DateTime.month b) (DateTime.day b) in
  if (this_year <? DateTime.toordinal today)%Z
  then DateTime.ymd_to_ord (DateTime.year today + 1) (DateTime.month b) (DateTime.day b)
  else this_year.

Definition spec_days_to_birthday (today : DateTime.datetime) (r : Record_)
  : option Z :=
  match birthday r with
  | Some b => Some (spec_next_occurrence today (value b) - DateTime.toordinal today)%Z
  | None => None
  end.

Definition spec_upcoming_birthdays (today : DateTime.datetime) (days : Z)
    (book : AddressBook) : list Record_ :=
  filter (fun r =>
            match spec_days_to_birthday today r with
            | Some d => ((0 <=? d) && (d <=? days))%Z
            | None => false
            end)
         (dict_values book).

Definition born (n : pystr) (y m d : Z) : Record_ :=
  mkRecord (new_Name n) [] (Some (mkField (DateTime.mkDatetime y m d 0 0 0 0))).

(** Born on 4 November, 5 November and 29 February. *)
Definition ann : Record_ := born (lit "Ann") 1990 11 4.
Definition ben : Record_ := born (lit "Ben") 1990 11 5.
Definition leo : Record_ := born (lit "Leo") 2000 2 29.

Definition book_ann_ben : AddressBook := [(lit "Ann", ann); (lit "Ben", ben)].
Definition book_leo : AddressBook := [(lit "Leo", leo)].

(** *** Dates and their spelling *)

Definition valid_date (y m d : Z) : Prop :=
  (1 <= y <= 9999 /\ 1 <= m <= 12 /\ 1 <= d <= DateTime.days_in_month y m)%Z.

Definition midnight (y m d : Z) : DateTime.datetime :=
  DateTime.mkDatetime y m d 0 0 0 0.

(** The ASCII digit of value [z]. *)
Definition dg (z : Z) : N := Z.to_N (48 + z).

Definition two_digits (n : Z) : pystr := [dg (n / 10); dg (n mod 10)]%Z.

Definition four_digits (n : Z) : pystr :=
  [dg (n / 1000); dg ((n / 100) mod 10); dg ((n / 10) mod 10); dg (n mod 10)]%Z.

(** The zero-padded spelling DD.MM.YYYY of a date. *)
Definition padded (y m d : Z) : pystr :=
  two_digits d ++ 46%N :: two_digits m ++ 46%N :: four_digits y.

(** [tok] is matched as a whole by one alternative of the group, and the
    alternatives before that one fail inside [tok]. *)
Fixpoint group_selects (alts : list (list DateTime.cls)) (tok : pystr) : bool :=
  match alts with
  | [] => false
  | p :: alts' =>
      match DateTime.match_seq p tok with
      | Some (_, []) => true
      | Some (_, _ :: _) => false
      | None => Nat.leb (length p) (length tok) && group_selects alts' tok
      end
  end.

Definition int_is (s : pystr) (z : Z) : bool :=
  match PyInt.int s with
  | Ok v => (v =? z)%Z
  | Raise _ => false
  end.

Definition zrange (lo n : Z) : list Z :=
  map (fun k => (lo + Z.of_nat k)%Z) (seq 0 (Z.to_nat n)).

(** What the round trip needs of a two-digit token under a group. *)
Definition two_digits_ok (alts : list (list DateTime.cls)) (n : Z) : bool :=
  PyStr.eqb (PyStr.zfill 2 (PyStr.of_Z n)) (two_digits n)
  && group_selects alts (two_digits n)
  && int_is (two_digits n) n.

Definition is_digit_value (z : Z) : Prop := (0 <= z <= 9)%Z.

(** The value of a string of digits, most significant first. *)
Definition digits_value (zs : list Z) : Z :=
  fold_left (fun acc z => (10 * acc + z)%Z) zs 0%Z.

Definition date_error : pystr := lit "Invalid date format. Use DD.MM.YYYY".

(** *** The strings that spell a date *)

(** The text is as long as the sequence of classes, each character in
    its class. *)
Fixpoint in_classes (p : list DateTime.cls) (tok : pystr) : bool :=
  match p, tok with
  | [], [] => true
  | k :: p', c :: tok' => DateTime.cls_match k c && in_classes p' tok'
  | _, _ => false
  end.

(** The text is in the language of one alternative of the group. *)
Definition token_of (alts : list (list DateTime.cls)) (tok : pystr) : bool :=
  existsb (fun p => in_classes p tok) alts.

(** The value of a decimal digit of any script. *)
Definition decimal_value (c : N) : Z :=
  match Unicode.todecimal c with
  | Some d => Z.of_N d
  | None => 0%Z
  end.

(** The number the decimal digits of a token spell, most significant
    first; a character that is no decimal digit (the space before a
    one-digit day) counts for nothing. *)
Definition token_value (tok : pystr) : Z :=
  fold_left (fun acc c =>
               match Unicode.todecimal c with
               | Some d => (10 * acc + Z.of_N d)%Z
               | None => acc
               end) tok 0%Z.

(** [s] spells the day [d] of the month [m] of the year [y]: a day
    token, a month token and a year token with a dot between them, and
    nothing else. *)
Definition spells (s : pystr) (y m d : Z) : Prop :=
  exists dd mm yy,
    s = dd ++ 46%N :: mm ++ 46%N :: yy
    /\ token_of DateTime.re_d dd = true
    /\ token_of DateTime.re_m mm = true
    /\ token_of DateTime.re_Y yy = true
    /\ token_value dd = d /\ token_value mm = m /\ token_value yy = y.

(** No class of the sequence has the dot. *)
Definition no_dot (p : list DateTime.cls) : bool :=
  forallb (fun k => negb (DateTime.cls_match k 46%N)) p.

(** The class has decimal digits only. *)
Definition cls_decimal (k : DateTime.cls) : bool :=
  match k with
  | DateTime.Chr c => Unicode.isdecimal c
  | DateTime.Rng lo hi => ((48 <=? lo) && (hi <=? 57))%N
  | DateTime.Dec => true
  end.

(** Checks on the tables: the decimal digits below 127 are the ASCII
    ones, and no decimal digit is whitespace. *)
Definition decimals_above_ascii : bool :=
  forallb (fun z => (z =? 48) || (127 <=? z))%N Unicode.decimal_zeros.

Definition decimals_are_not_spaces : bool :=
  forallb (fun z =>
             forallb (fun r => (z + 9 <? fst r) || (snd r <? z))%N
                     Unicode.whitespace_ranges)
          Unicode.decimal_zeros.

(** *** Entries left in their order *)

(** [l] is [l'] with some entries left out, the others in their order
    and as often as they are kept. *)
Inductive subsequence {A : Type} : list A -> list A -> Prop :=
| subsequence_nil : subsequence [] []
| subsequence_skip (x : A) (l l' : list A) :
    subsequence l l' -> subsequence l (x :: l')
| subsequence_keep (x : A) (l l' : list A) :
    subsequence l l' -> subsequence (x :: l) (x :: l').

(** *** The clock at midnight *)

(** No time of day: the value [strptime] gives a birthday, and what the
    clock reads at the stroke of midnight. *)
Definition at_midnight (t : DateTime.datetime) : Prop :=
  DateTime.hour t = 0%Z /\ DateTime.minute t = 0%Z
  /\ DateTime.second t = 0%Z /\ DateTime.microsecond t = 0%Z.

Definition valid_day (t : DateTime.datetime) : Prop :=
  valid_date (DateTime.year t) (DateTime.month t) (DateTime.day t).

(** The month and day of [b] exist in the year [y]. *)
Definition occurs_in (y : Z) (b : DateTime.datetime) : Prop :=
  (DateTime.day b <= DateTime.days_in_month y (DateTime.month b))%Z.

(** The conditions under which the code meets the claims' reading. *)
Definition plain_birthday (today : DateTime.datetime) (r : Record_) : Prop :=
  match birthday r with
  | Some b =>
      at_midnight (value b) /\ valid_day (value b)
      /\ occurs_in (DateTime.year today) (value b)
      /\ occurs_in (DateTime.year today + 1) (value b)
  | None => True
  end.

(** The calendar of a year depends on the year through [is_leap] only. *)
Definition days_in_month_of (leap : bool) (m : Z) : Z :=
  (if m =? 2 then (if leap then 29 else 28)
   else if (m =? 4) || (m =? 6) || (m =? 9) || (m =? 11) then 30
   else 31)%Z.

Definition days_before_month_of (leap : bool) (m : Z) : Z :=
  fold_left (fun acc k => (acc + days_in_month_of leap (Z.of_nat k))%Z)
            (seq 1 (Z.to_nat (m - 1))) 0%Z.

(** A month ends before any later month begins. *)
Definition months_in_order (leap : bool) : bool :=
  forallb (fun m =>
    forallb (fun m' =>
      negb (m <? m')%Z
      || (days_before_month_of leap m + days_in_month_of leap m
          <=? days_before_month_of leap m')%Z)
      (zrange 1 12))
    (zrange 1 12).

(** *** Records after a command *)

(** The record with one more phone at the end of its list. *)
Definition with_phone (r : Record_) (phone : pystr) : Record_ :=
  mkRecord (name r) (phones r ++ [mkField phone]) (birthday r).

(** The record [add] works on: the one found, or a fresh one. *)
Definition found_or_new (n : pystr) (book : AddressBook) : Record_ :=
  match AddressBook_find n book with
  | Some r => r
  | None => new_Record n
  end.

(** The book after [add n p] for each [p] of a list, in turn. *)
Fixpoint add_all (n : pystr) (ps : list pystr) (book : AddressBook) : AddressBook :=
  match ps with
  | [] => book
  | p :: ps' => add_all n ps' (snd (add_contact [n; p] book))
  end.

(** What [Phone] accepts. *)
Definition phone_ok (phone : pystr) : Prop :=
  length phone = 10 /\ forallb Unicode.isdigit phone = true.

(** The first token of a line is not the given command word. *)
Definition not_command (word : string) (user_input : pystr) : Prop :=
  match parse_input user_input with
  | Ok (command, _) => command <> lit word
  | Raise _ => True
  end.

(** Every stored birthday is a date of the calendar with no time of day. *)
Definition birthdays_valid (book : AddressBook) : Prop :=
  Forall (fun kv =>
            match birthday (snd kv) with
            | Some b => at_midnight (value b) /\ valid_day (value b)
            | None => True
            end) book.

(** Every stored phone is one [Phone] accepts. *)
Definition phones_valid (book : AddressBook) : Prop :=
  Forall (fun kv => Forall (fun p => phone_ok (value p)) (phones (snd kv))) book.

(** The keys of the second book are those of the first, in their order,
    and then new ones; distinct keys stay distinct. *)
Definition grows (book book' : AddressBook) : Prop :=
  (exists added, dict_keys book' = dict_keys book ++ added)
  /\ (NoDup (dict_keys book) -> NoDup (dict_keys book')).

(** A property of records that every record of the book has. *)
Definition all_records (Q : Record_ -> Prop) (book : AddressBook) : Prop :=
  Forall (fun kv => Q (snd kv)) book.

(** A [change] line, if the line is one, gives a new phone that [Phone]
    accepts. *)
Definition change_gives_valid_phone (user_input : pystr) : Prop :=
  match parse_input user_input with
  | Ok (command, [_; _; new_phone]) => command = lit "change" -> phone_ok new_phone
  | _ => True
  end.

(** *** Any clock reading *)

(** Microseconds since midnight. *)
Definition time_of_day (t : DateTime.datetime) : Z :=
  (DateTime.seconds_of_day t * 1000000 + DateTime.microsecond t)%Z.

Definition valid_time (t : DateTime.datetime) : Prop :=
  (0 <= DateTime.hour t < 24 /\ 0 <= DateTime.minute t < 60
   /\ 0 <= DateTime.second t < 60 /\ 0 <= DateTime.microsecond t < 1000000)%Z.

(** What [datetime.today()] can return. *)
Definition valid_datetime (t : DateTime.datetime) : Prop :=
  valid_day t /\ valid_time t.

(** The test of [get_upcoming_birthdays], on what [days_to_birthday]
    returns. *)
Definition within (today : DateTime.datetime) (days : Z) (r : Record_) : bool :=
  match Record_days_to_birthday today r with
  | Ok (Some d) => ((0 <=? d) && (d <=? days))%Z
  | _ => false
  end.

Definition has_birthday (r : Record_) : bool :=
  match birthday r with
  | Some _ => true
  | None => false
  end.

(** One more day for a leap year. *)
Definition leap_day (y : Z) : Z := if DateTime.is_leap y then 1%Z else 0%Z.

(** Checks on the calendar of a leap or common year. *)
Definition months_fill_the_year (leap : bool) : bool :=
  forallb (fun m =>
             (0 <=? days_before_month_of leap m)%Z
             && (days_before_month_of leap m + days_in_month_of leap m
                 <=? 365 + (if leap then 1 else 0))%Z)
          (zrange 1 12).

Definition leap_day_shifts_later_months : bool :=
  forallb (fun m =>
             (days_before_month_of true m
              =? days_before_month_of false m + (if 2 <? m then 1 else 0))%Z)
          (zrange 1 12).

(** The midnight of month [m], day [d] of the clock's year is before the
    clock. *)
Definition passed (today : DateTime.datetime) (m d : Z) : bool :=
  ((DateTime.ymd_to_ord (DateTime.year today) m d <? DateTime.toordinal today)
   || ((DateTime.ymd_to_ord (DateTime.year today) m d =? DateTime.toordinal today)
       && (0 <? time_of_day today)))%Z.

Definition day_error : pystr := lit "day is out of range for month".

(** The rule of twenty hyphens of [all]. *)
Definition rule : pystr := repeat 45%N 20.

(** The two lines [all] prints for a record. *)
Definition record_block (r : Record_) : pystr := Record_str r ++ nl ++ rule.

(** The line [birthdays] prints for a record. *)
Definition birthday_line (r : Record_) : pystr :=
  value (name r) ++ lit ": "
    ++ match birthday r with
       | Some b => DateTime.strftime_dmY (value b)
       | None => []
       end.

(** The number of days [birthdays] asks for. *)
Definition days_argument (args : list pystr) : result Z :=
  match args with
  | a0 :: _ => PyInt.int a0
  | [] => Ok 7%Z
  end.

(** The string ends with a character that is not whitespace. *)
Definition ends_unspaced (s : pystr) : Prop :=
  exists t c, s = t ++ [c] /\ Unicode.isspace c = false.

(** ** Proof automation *)

Ltac break_match :=
  repeat match goal with
         | |- context [match ?x with _ => _ end] => destruct x eqn:?
         | |- context [if ?b then _ else _] => destruct b eqn:?
         end.

Ltac same_book :=
  split; [intros ? ?; first [assumption | left; assumption] | intros ?; assumption].

Ltac div_lia := zify; Z.to_euclidean_division_equations; lia.

(** * Properties *)

(** ** Strings and dictionaries *)

Lemma eqb_eq (a b : pystr) : PyStr.eqb a b = true <-> a = b.
Proof.
  revert b; induction a as [|x a IH]; intros [|y b]; simpl; split;
    try discriminate; try reflexivity.
  - intros H. apply andb_true_iff in H as [Hx Hab].
    apply N.eqb_eq in Hx. apply IH in Hab. congruence.
  - intros H. injection H as -> ->.
    rewrite N.eqb_refl. apply IH. reflexivity.
Qed.

Lemma eqb_refl (a : pystr) : PyStr.eqb a a = true.
Proof. apply eqb_eq. reflexivity. Qed.

Lemma eqb_neq (a b : pystr) : PyStr.eqb a b = false <-> a <> b.
Proof.
  split.
  - intros H E. apply eqb_eq in E. congruence.
  - intros H. destruct (PyStr.eqb a b) eqn:E; [|reflexivity].
    apply eqb_eq in E. contradiction.
Qed.

Lemma dict_set_absent (k : pystr) (v : Record_) (d : AddressBook) :
  dict_get k d = None -> dict_set k v d = d ++ [(k, v)].
Proof.
  induction d as [|[k' v'] d IH]; simpl; [reflexivity|].
  destruct (PyStr.eqb k' k); [discriminate|].
  intros H. rewrite (IH H). reflexivity.
Qed.

Lemma dict_set_same (k : pystr) (v : Record_) (d : AddressBook) :
  dict_get k d = Some v -> dict_set k v d = d.
Proof.
  induction d as [|[k' v'] d IH]; simpl; [discriminate|].
  destruct (PyStr.eqb k' k).
  - intros H. injection H as ->. reflexivity.
  - intros H. rewrite (IH H). reflexivity.
Qed.

Lemma dict_get_set (k : pystr) (v : Record_) (d : AddressBook) :
  dict_get k (dict_set k v d) = Some v.
Proof.
  induction d as [|[k' v'] d IH]; simpl.
  - rewrite eqb_refl. reflexivity.
  - destruct (PyStr.eqb k' k) eqn:E; simpl; rewrite E; [reflexivity|exact IH].
Qed.

(** ** [edit_phone] and [change] on a number the record does not have *)

Lemma edit_first_absent (ps : list Phone) (old_phone new_phone : pystr) :
  (forall p, In p ps -> value p <> old_phone) ->
  edit_first ps old_phone new_phone = ps.
Proof.
  induction ps as [|p ps IH]; simpl; intros H; [reflexivity|].
  destruct (PyStr.eqb (value p) old_phone) eqn:E.
  - apply eqb_eq in E. exfalso. apply (H p); [left; reflexivity|exact E].
  - rewrite IH; [reflexivity|]. intros q Hq. apply H. right. exact Hq.
Qed.

(** C7: when no entry of the record's phone list has the value
    [old_phone], [edit_phone] leaves the record as it is, and the [change]
    handler, which has nothing else to report, answers with its usual
    success message and leaves the book as it is. *)
Theorem edit_phone_absent_is_silent
    (book : AddressBook) (n : pystr) (record : Record_)
    (old_phone new_phone : pystr) :
  (forall p, In p (phones record) -> value p <> old_phone) ->
  Record_edit_phone record old_phone new_phone = record
  /\ (AddressBook_find n book = Some record ->
      change_phone [n; old_phone; new_phone] book
      = (Ok (lit "Phone number " ++ old_phone ++ lit " changed to " ++ new_phone
               ++ lit " for contact " ++ n ++ lit "."),
         book)).
Proof.
  intros Habsent.
  assert (Hedit : Record_edit_phone record old_phone new_phone = record).
  { unfold Record_edit_phone. rewrite (edit_first_absent _ _ _ Habsent).
    destruct record; reflexivity. }
  split; [exact Hedit|].
  intros Hfind.
  unfold change_phone, input_error, change_phone_func.
  cbn [unpack3]. rewrite Hfind, Hedit.
  unfold store_record, AddressBook_find in *.
  rewrite (dict_set_same _ _ _ Hfind). reflexivity.
Qed.

Lemma edit_phone_absent_is_silent_witness :
  Record_edit_phone alice_record (lit "0000000000") (lit "0509876543") = alice_record
  /\ change_phone [lit "Alice"; lit "0000000000"; lit "0509876543"]
                  [(lit "Alice", alice_record)]
     = (Ok (lit "Phone number 0000000000 changed to 0509876543 for contact Alice."),
        [(lit "Alice", alice_record)]).
Proof.
  destruct (edit_phone_absent_is_silent [(lit "Alice", alice_record)] (lit "Alice")
              alice_record (lit "0000000000") (lit "0509876543")) as [H1 H2].
  - intros p [<-|[]]. simpl. discriminate.
  - split; [exact H1|]. apply H2. reflexivity.
Defined.

(** ** A failed [add] still creates the record *)

Lemma new_Phone_wrong_length (phone : pystr) :
  length phone <> 10 ->
  new_Phone phone = raise_ValueError (lit "Phone must have exactly 10 digits.").
Proof.
  intros H. unfold new_Phone.
  destruct (Nat.eqb (length phone) 10) eqn:E.
  - apply Nat.eqb_eq in E. contradiction.
  - rewrite orb_true_r. reflexivity.
Qed.

(** C5: [add] with a name the book does not have and a phone argument
    made of digits only (at least one) but not ten of them answers with
    the error message of [Phone], and the book has gained, at its end, a
    record of that name with no phone and no birthday. *)
Theorem add_contact_failed_add_keeps_new_record
    (book : AddressBook) (n phone : pystr) (more : list pystr) :
  AddressBook_find n book = None ->
  PyStr.isdigit phone = true ->
  length phone <> 10 ->
  add_contact (n :: phone :: more) book
  = (Ok (lit "Error: Phone must have exactly 10 digits."),
     book ++ [(n, new_Record n)])
  /\ AddressBook_find n (snd (add_contact (n :: phone :: more) book))
     = Some (mkRecord (new_Name n) [] None).
Proof.
  intros Hfind Hdigit Hlen.
  assert (E : add_contact (n :: phone :: more) book
              = (Ok (lit "Error: Phone must have exactly 10 digits."),
                 book ++ [(n, new_Record n)])).
  { unfold add_contact, input_error, add_contact_func.
    cbn [length Nat.ltb Nat.leb nth orb unpack2_star].
    rewrite Hdigit. cbn [negb]. rewrite Hfind.
    unfold Record_add_phone. rewrite (new_Phone_wrong_length _ Hlen).
    unfold AddressBook_add_record, AddressBook_find in *.
    cbn [bind raise_ValueError fst snd new_Record name new_Name value].
    rewrite (dict_set_absent _ _ _ Hfind). reflexivity. }
  split; [exact E|].
  rewrite E. cbn [snd]. unfold AddressBook_find in *.
  rewrite <- (dict_set_absent _ (new_Record n) _ Hfind).
  apply dict_get_set.
Qed.

Lemma add_contact_failed_add_keeps_new_record_witness :
  add_contact [lit "Bob"; lit "12345"] []
  = (Ok (lit "Error: Phone must have exactly 10 digits."),
     [(lit "Bob", new_Record (lit "Bob"))])
  /\ AddressBook_find (lit "Bob") (snd (add_contact [lit "Bob"; lit "12345"] []))
     = Some (mkRecord (new_Name (lit "Bob")) [] None).
Proof.
  apply (add_contact_failed_add_keeps_new_record [] (lit "Bob") (lit "12345") []).
  - reflexivity.
  - reflexivity.
  - simpl. discriminate.
Defined.

(** ** [change] with too few arguments *)

Lemma unpack3_short (args : list pystr) :
  length args < 3 ->
  unpack3 args
  = raise_ValueError (lit "not enough values to unpack (expected 3, got "
                        ++ PyStr.of_nat (length args) ++ lit ")").
Proof.
  intros H. destruct args as [|a [|b [|c [|d args]]]]; simpl in H; try lia;
    reflexivity.
Qed.

(** C8: with fewer than three arguments the unpacking in [change_phone]
    raises a [ValueError], so the handler answers through the
    [ValueError] branch of the wrapper, with the text of the unpacking
    error, and not with the "Missing arguments." message of the
    [IndexError] branch; the book is untouched. *)
Theorem change_phone_too_few_arguments (args : list pystr) (book : AddressBook) :
  length args < 3 ->
  change_phone args book
  = (Ok (lit "Error: not enough values to unpack (expected 3, got "
           ++ PyStr.of_nat (length args) ++ lit ")"),
     book)
  /\ fst (change_phone args book) <> Ok (lit "Error: Missing arguments.").
Proof.
  intros H.
  assert (E : change_phone args book
              = (Ok (lit "Error: not enough values to unpack (expected 3, got "
                       ++ PyStr.of_nat (length args) ++ lit ")"),
                 book)).
  { unfold change_phone, input_error, change_phone_func.
    rewrite (unpack3_short _ H). reflexivity. }
  split; [exact E|].
  rewrite E. cbn [fst]. intros C.
  apply (f_equal (fun r => match r with Ok l => nth 7 l 0%N | Raise _ => 0%N end)) in C.
  cbn in C. discriminate C.
Qed.

Lemma change_phone_too_few_arguments_witness :
  change_phone [lit "Alice"] []
  = (Ok (lit "Error: not enough values to unpack (expected 3, got "
           ++ PyStr.of_nat (length [lit "Alice"]) ++ lit ")"),
     [])
  /\ fst (change_phone [lit "Alice"] []) <> Ok (lit "Error: Missing arguments.").
Proof.
  apply (change_phone_too_few_arguments [lit "Alice"] []). simpl. lia.
Defined.

(** ** Which exceptions the handlers can raise *)

Lemma value_error_catchable {A : Type} (r : result A) :
  value_error_only r -> catchable r.
Proof. destruct r as [a|e]; simpl; [trivial|]. intros ->. discriminate. Qed.

Lemma bind_value_error {A B : Type} (m : result A) (k : A -> result B) :
  value_error_only m -> (forall a, value_error_only (k a)) ->
  value_error_only (bind m k).
Proof. destruct m as [a|e]; simpl; auto. Qed.

Lemma int_value_error (s : pystr) : value_error_only (PyInt.int s).
Proof. unfold PyInt.int. break_match; simpl; trivial. Qed.

Lemma check_date_fields_value_error (y m d : Z) :
  value_error_only (DateTime.check_date_fields y m d).
Proof. unfold DateTime.check_date_fields. break_match; simpl; trivial. Qed.

Lemma replace_year_value_error (t : DateTime.datetime) (y : Z) :
  value_error_only (DateTime.replace_year t y).
Proof.
  unfold DateTime.replace_year. apply bind_value_error.
  - apply check_date_fields_value_error.
  - intros _. exact I.
Qed.

Lemma next_birthday_value_error (today : DateTime.datetime) (b : Birthday) :
  value_error_only (next_birthday today b).
Proof.
  unfold next_birthday. apply bind_value_error.
  - apply replace_year_value_error.
  - intros nb. destruct (DateTime.ltb nb today);
      [apply replace_year_value_error|exact I].
Qed.

Lemma upcoming_loop_value_error (today : DateTime.datetime) (days : Z)
    (recs acc : list Record_) :
  value_error_only (upcoming_loop today days recs acc).
Proof.
  revert acc; induction recs as [|r recs IH]; intros acc; simpl; [exact I|].
  destruct (birthday r) as [b|]; [|apply IH].
  apply bind_value_error; [apply next_birthday_value_error|].
  intros nb. break_match; apply IH.
Qed.

Lemma strptime_value_error (s : pystr) :
  value_error_only (DateTime.strptime_dmY s).
Proof.
  unfold DateTime.strptime_dmY.
  destruct (DateTime.match_dmY s) as [[[[d m] Y] rest]|]; [|reflexivity].
  destruct rest; [|reflexivity].
  repeat (apply bind_value_error; [apply int_value_error|intros ?]).
  apply bind_value_error; [apply check_date_fields_value_error|intros _; exact I].
Qed.

Lemma new_Birthday_value_error (s : pystr) : value_error_only (new_Birthday s).
Proof.
  unfold new_Birthday.
  pose proof (strptime_value_error s) as H.
  destruct (DateTime.strptime_dmY s) as [t|e]; simpl in *; [exact I|].
  rewrite H. reflexivity.
Qed.

Lemma new_Phone_value_error (s : pystr) : value_error_only (new_Phone s).
Proof. unfold new_Phone. break_match; simpl; trivial. Qed.

Lemma birthday_lines_catchable (recs : list Record_) (res : pystr) :
  catchable (birthday_lines recs res).
Proof.
  revert res; induction recs as [|r recs IH]; intros res; simpl; [exact I|].
  destruct (birthday r); [apply IH|discriminate].
Qed.

Lemma catch_errors_total (r : result pystr) :
  catchable r -> exists s, catch_errors r = Ok s.
Proof.
  destruct r as [s|e]; simpl; [eauto|].
  destruct (exn_cls e); eauto. intros H. contradiction H. reflexivity.
Qed.

Lemma add_contact_func_catchable (args : list pystr) (book : AddressBook) :
  catchable (fst (add_contact_func args book)).
Proof.
  unfold add_contact_func.
  destruct (Nat.ltb (length args) 2 || negb (PyStr.isdigit (nth 1 args [])));
    [discriminate|].
  destruct args as [|n [|phone more]]; simpl; try discriminate.
  destruct (AddressBook_find n book) as [record|].
  - pose proof (new_Phone_value_error phone) as H.
    unfold Record_add_phone. destruct (new_Phone phone) as [p|e]; simpl in *.
    + exact I.
    + rewrite H. discriminate.
  - pose proof (new_Phone_value_error phone) as H.
    unfold Record_add_phone. destruct (new_Phone phone) as [p|e]; simpl in *.
    + exact I.
    + rewrite H. discriminate.
Qed.

Lemma change_phone_func_catchable (args : list pystr) (book : AddressBook) :
  catchable (fst (change_phone_func args book)).
Proof.
  unfold change_phone_func.
  destruct args as [|a [|b [|c [|d args]]]]; simpl; try discriminate;
    destruct (AddressBook_find a book); simpl; try exact I; discriminate.
Qed.

Lemma show_phones_func_catchable (args : list pystr) (book : AddressBook) :
  catchable (fst (show_phones_func args book)).
Proof.
  unfold show_phones_func.
  destruct args as [|a args]; simpl; try discriminate.
  destruct (AddressBook_find a book); simpl; [exact I|discriminate].
Qed.

Lemma show_all_func_catchable (book : AddressBook) :
  catchable (fst (show_all_func tt book)).
Proof. destruct book; exact I. Qed.

Lemma add_birthday_func_catchable (args : list pystr) (book : AddressBook) :
  catchable (fst (add_birthday_func args book)).
Proof.
  unfold add_birthday_func.
  destruct args as [|n [|b more]]; simpl; try discriminate.
  destruct (AddressBook_find n book) as [record|]; simpl; [|discriminate].
  pose proof (new_Birthday_value_error b) as H.
  unfold Record_add_birthday. destruct (new_Birthday b) as [bd|e]; simpl in *.
  - exact I.
  - rewrite H. discriminate.
Qed.

Lemma birthdays_func_catchable (today : DateTime.datetime) (args : list pystr)
    (book : AddressBook) :
  catchable (fst (birthdays_func today args book)).
Proof.
  unfold birthdays_func. cbn [fst].
  assert (Hdays : value_error_only
                    (match args with a0 :: _ => PyInt.int a0 | [] => Ok 7%Z end)).
  { destruct args; [exact I|apply int_value_error]. }
  destruct (match args with a0 :: _ => PyInt.int a0 | [] => Ok 7%Z end)
    as [days|e]; cbn [bind value_error_only catchable] in *;
    [|rewrite Hdays; discriminate].
  unfold AddressBook_get_upcoming_birthdays.
  generalize (upcoming_loop_value_error today days (dict_values book) []).
  destruct (upcoming_loop today days (dict_values book) []) as [up|e];
    cbn [bind value_error_only catchable]; [intros _|intros ->; discriminate].
  destruct up as [|r up]; [exact I|].
  generalize (birthday_lines_catchable (r :: up) (lit "Upcoming birthdays:" ++ nl)).
  destruct (birthday_lines (r :: up) (lit "Upcoming birthdays:" ++ nl));
    cbn [bind catchable]; trivial.
Qed.

(** C3: each of the six wrapped handlers, on every argument list, book
    and clock reading, returns a string: no exception leaves it. *)
Theorem handlers_return_a_string
    (today : DateTime.datetime) (args : list pystr) (book : AddressBook) :
  (exists s, fst (add_contact args book) = Ok s)
  /\ (exists s, fst (change_phone args book) = Ok s)
  /\ (exists s, fst (show_phones args book) = Ok s)
  /\ (exists s, fst (show_all book) = Ok s)
  /\ (exists s, fst (add_birthday args book) = Ok s)
  /\ (exists s, fst (birthdays today args book) = Ok s).
Proof.
  unfold add_contact, change_phone, show_phones, show_all, add_birthday,
    birthdays, input_error; cbn [fst].
  repeat split; apply catch_errors_total.
  - apply add_contact_func_catchable.
  - apply change_phone_func_catchable.
  - apply show_phones_func_catchable.
  - apply show_all_func_catchable.
  - apply add_birthday_func_catchable.
  - apply birthdays_func_catchable.
Qed.

(** ** Which strings [Phone] accepts *)

Lemma ascii_digit_isdigit (c : N) :
  Unicode.is_ascii_digit c = true -> Unicode.isdigit c = true.
Proof.
  unfold Unicode.is_ascii_digit, Unicode.isdigit, Unicode.in_ranges,
    Unicode.digit_ranges.
  intros H. cbn [existsb fst snd]. rewrite H. reflexivity.
Qed.

Lemma forallb_ascii_digit_isdigit (s : pystr) :
  forallb Unicode.is_ascii_digit s = true -> forallb Unicode.isdigit s = true.
Proof.
  induction s as [|c s IH]; simpl; [reflexivity|].
  intros H. apply andb_true_iff in H as [Hc Hs].
  rewrite (ascii_digit_isdigit c Hc), (IH Hs). reflexivity.
Qed.

Lemma isdigit_ten (s : pystr) :
  length s = 10 -> PyStr.isdigit s = forallb Unicode.isdigit s.
Proof. destruct s; [discriminate|reflexivity]. Qed.

(** C2, as the code has it: [Phone(s)] succeeds exactly when [s] has ten
    characters, each of them a digit for [str.isdigit]; it then wraps [s]
    itself.  Every other string fails with the [ValueError] of the
    class.  Ten ASCII digits are among the accepted strings. *)
Theorem Phone_accepts_ten_unicode_digits (s : pystr) :
  ((exists p, new_Phone s = Ok p)
   <-> (length s = 10 /\ forallb Unicode.isdigit s = true))
  /\ (new_Phone s = Ok (mkField s) \/ new_Phone s = raise_ValueError phone_error)
  /\ (length s = 10 /\ forallb Unicode.is_ascii_digit s = true ->
      new_Phone s = Ok (mkField s)).
Proof.
  assert (Hok : length s = 10 -> forallb Unicode.isdigit s = true ->
                new_Phone s = Ok (mkField s)).
  { intros Hlen Hd. unfold new_Phone.
    rewrite (isdigit_ten s Hlen), Hd, Hlen. reflexivity. }
  repeat split.
  - destruct H as [p Hp]. unfold new_Phone in Hp.
    destruct (Nat.eqb (length s) 10) eqn:E; [apply Nat.eqb_eq; exact E|].
    rewrite orb_true_r in Hp. discriminate.
  - destruct H as [p Hp]. unfold new_Phone in Hp.
    destruct (Nat.eqb (length s) 10) eqn:E;
      [|rewrite orb_true_r in Hp; discriminate].
    apply Nat.eqb_eq in E. rewrite (isdigit_ten s E) in Hp.
    destruct (forallb Unicode.isdigit s); [reflexivity|discriminate].
  - intros [Hlen Hd]. exists (mkField s). apply Hok; assumption.
  - unfold new_Phone.
    destruct (negb (PyStr.isdigit s) || negb (Nat.eqb (length s) 10));
      [right|left]; reflexivity.
  - intros [Hlen Hd]. apply Hok; [exact Hlen|].
    apply forallb_ascii_digit_isdigit. exact Hd.
Qed.

Lemma Phone_accepts_ten_unicode_digits_witness :
  new_Phone (lit "0501234567") = Ok (mkField (lit "0501234567")).
Proof.
  apply (Phone_accepts_ten_unicode_digits (lit "0501234567")).
  split; reflexivity.
Defined.

(** C2 as stated fails at [arabic_indic_phone]: the construction
    succeeds on a string that has no ASCII digit at all. *)
Lemma Phone_accepts_non_ascii_digits :
  ~ ((exists p, new_Phone arabic_indic_phone = Ok p)
     <-> (forallb Unicode.is_ascii_digit arabic_indic_phone = true
          /\ length arabic_indic_phone = 10)).
Proof.
  intros [H _].
  destruct H as [H _]; [eexists; reflexivity|].
  vm_compute in H. discriminate H.
Qed.

(** ** [parse_input] *)

Lemma split_not_nil (sep : N) (s : pystr) : PyStr.split sep s <> [].
Proof.
  destruct s as [|c s]; simpl; [discriminate|].
  destruct (c =? sep)%N; [discriminate|].
  destruct (PyStr.split sep s); discriminate.
Qed.

Lemma join_cons (sep w : pystr) (ws : list pystr) :
  ws <> [] -> PyStr.join sep (w :: ws) = w ++ sep ++ PyStr.join sep ws.
Proof. destruct ws; [contradiction|reflexivity]. Qed.

Lemma join_split (sep : N) (s : pystr) :
  PyStr.join [sep] (PyStr.split sep s) = s.
Proof.
  induction s as [|c s IH]; [reflexivity|].
  cbn [PyStr.split].
  destruct (c =? sep)%N eqn:E.
  - apply N.eqb_eq in E. subst c.
    rewrite join_cons by apply split_not_nil. rewrite IH. reflexivity.
  - pose proof (split_not_nil sep s) as Hne.
    destruct (PyStr.split sep s) as [|w ws]; [contradiction|].
    destruct ws as [|w' ws].
    + simpl in *. congruence.
    + rewrite join_cons in IH by discriminate.
      rewrite join_cons by discriminate.
      rewrite <- IH. reflexivity.
Qed.

Lemma split_pieces_have_no_sep (sep : N) (s : pystr) :
  Forall (fun w => ~ In sep w) (PyStr.split sep s).
Proof.
  induction s as [|c s IH]; simpl.
  - constructor; [intros []|constructor].
  - destruct (c =? sep)%N eqn:E.
    + constructor; [intros []|exact IH].
    + destruct (PyStr.split sep s) as [|w ws].
      * constructor; [|constructor].
        intros [->|[]]. rewrite N.eqb_refl in E. discriminate.
      * inversion IH as [|? ? Hw Hws]; subst.
        constructor; [|exact Hws].
        intros [->|Hin]; [rewrite N.eqb_refl in E; discriminate|].
        exact (Hw Hin).
Qed.

Lemma dropwhile_nil (p : N -> bool) (s : pystr) :
  PyStr.dropwhile p s = [] <-> forallb p s = true.
Proof.
  induction s as [|c s IH]; simpl; [tauto|].
  destruct (p c); simpl; [exact IH|].
  split; discriminate.
Qed.

Lemma dropwhile_head (p : N -> bool) (s : pystr) (c : N) (t : pystr) :
  PyStr.dropwhile p s = c :: t -> p c = false.
Proof.
  induction s as [|x s IH]; simpl; [discriminate|].
  destruct (p x) eqn:E; [exact IH|].
  intros H. injection H as -> _. exact E.
Qed.

Lemma forallb_rev (p : N -> bool) (s : pystr) :
  forallb p (rev s) = forallb p s.
Proof.
  induction s as [|c s IH]; [reflexivity|].
  simpl. rewrite forallb_app, IH. simpl.
  rewrite andb_true_r. apply andb_comm.
Qed.

(** A line is blank when [strip] leaves nothing of it. *)
Lemma strip_nil (s : pystr) :
  PyStr.strip s = [] <-> forallb Unicode.isspace s = true.
Proof.
  unfold PyStr.strip, PyStr.rstrip, PyStr.lstrip.
  split.
  - intros H.
    apply (f_equal (@rev N)) in H. rewrite rev_involutive in H. simpl in H.
    apply dropwhile_nil in H. rewrite forallb_rev in H.
    destruct (PyStr.dropwhile Unicode.isspace s) as [|c t] eqn:E.
    + apply dropwhile_nil. exact E.
    + apply dropwhile_head in E. simpl in H. rewrite E in H. discriminate.
  - intros H. apply dropwhile_nil in H. rewrite H. reflexivity.
Qed.

Lemma single_spaced_split (n : nat) (t : pystr) :
  length t <= n -> single_spaced t = true -> PyStr.split 32 t = spec_words t.
Proof.
  revert t. induction n as [|n IH]; intros t Hlen Hs.
  - destruct t; [discriminate|simpl in Hlen; lia].
  - destruct t as [|c s']; [discriminate|].
    cbn [single_spaced] in Hs. apply andb_true_iff in Hs as [Hc Hs].
    apply negb_true_iff in Hc.
    assert (Hc32 : (c =? 32)%N = false).
    { destruct (c =? 32)%N eqn:E; [|reflexivity].
      apply N.eqb_eq in E. subst c. vm_compute in Hc. discriminate. }
    cbn [PyStr.split spec_words]. rewrite Hc32, Hc.
    destruct s' as [|c' s'']; [reflexivity|].
    destruct (Unicode.isspace c') eqn:Hc'.
    + apply andb_true_iff in Hs as [E Hs]. apply N.eqb_eq in E. subst c'.
      cbn [PyStr.split spec_words]. rewrite Hc'.
      change (32 =? 32)%N with true. cbn iota.
      rewrite (IH s''); [reflexivity| simpl in Hlen; lia | exact Hs].
    + rewrite (IH (c' :: s'')); [reflexivity| simpl in *; lia | exact Hs].
Qed.

Lemma spec_words_blank (s : pystr) :
  forallb Unicode.isspace s = true -> spec_words s = [].
Proof.
  induction s as [|c s IH]; [reflexivity|].
  cbn [forallb spec_words]. intros H. apply andb_true_iff in H as [-> H].
  apply IH. exact H.
Qed.

Lemma spec_words_lstrip (s : pystr) :
  spec_words (PyStr.lstrip s) = spec_words s.
Proof.
  unfold PyStr.lstrip. induction s as [|c s IH]; [reflexivity|].
  cbn [PyStr.dropwhile]. destruct (Unicode.isspace c) eqn:E; [|reflexivity].
  rewrite IH. cbn [spec_words]. rewrite E. reflexivity.
Qed.

Lemma spec_words_trailing (t w : pystr) :
  forallb Unicode.isspace w = true -> spec_words (t ++ w) = spec_words t.
Proof.
  intros Hw. induction t as [|c t IH].
  - simpl. apply spec_words_blank. exact Hw.
  - cbn [app spec_words]. rewrite IH.
    destruct (Unicode.isspace c); [reflexivity|].
    destruct t as [|c' t']; [|reflexivity].
    cbn [app]. destruct w as [|c' w']; [reflexivity|].
    cbn [forallb] in Hw. apply andb_true_iff in Hw as [Hc' Hw'].
    rewrite Hc'. reflexivity.
Qed.

Lemma dropwhile_split (p : N -> bool) (s : pystr) :
  exists w, forallb p w = true /\ s = w ++ PyStr.dropwhile p s.
Proof.
  induction s as [|c s [w [Hw Hs]]].
  - exists []. split; reflexivity.
  - cbn [PyStr.dropwhile]. destruct (p c) eqn:E.
    + exists (c :: w). split; [simpl; rewrite E; exact Hw|].
      simpl. congruence.
    + exists []. split; reflexivity.
Qed.

Lemma spec_words_strip (s : pystr) :
  spec_words (PyStr.strip s) = spec_words s.
Proof.
  unfold PyStr.strip, PyStr.rstrip.
  rewrite <- (spec_words_lstrip s).
  set (t := PyStr.lstrip s).
  destruct (dropwhile_split Unicode.isspace (rev t)) as [w [Hw Ht]].
  apply (f_equal (@rev N)) in Ht. rewrite rev_involutive, rev_app_distr in Ht.
  rewrite Ht at 2. unfold PyStr.lstrip.
  rewrite spec_words_trailing; [reflexivity|].
  rewrite forallb_rev. exact Hw.
Qed.

(** Where the code and the whitespace split agree: on blank lines and on
    lines whose tokens are separated by single spaces. *)
Lemma parse_input_single_spaced (user_input : pystr) :
  PyStr.strip user_input = [] \/ single_spaced (PyStr.strip user_input) = true ->
  parse_input user_input = Ok (spec_parse_input user_input).
Proof.
  unfold parse_input, spec_parse_input.
  rewrite <- (spec_words_strip user_input).
  intros [H|H].
  - rewrite H. reflexivity.
  - rewrite <- (single_spaced_split (length (PyStr.strip user_input)) _ (le_n _) H).
    destruct (PyStr.strip user_input) as [|c t] eqn:E; [discriminate|].
    pose proof (split_not_nil 32 (c :: t)) as Hne.
    destruct (PyStr.split 32 (c :: t)); [contradiction|reflexivity].
Qed.

(** C10, as the code has it: [parse_input] always returns; the command
    and the arguments are the pieces of the stripped line between single
    space characters, so that joined by single spaces they give the
    stripped line back and none of them has a space in it; a blank line
    (only whitespace), and no other, gives the empty command and no
    argument.  On blank lines and on lines whose tokens have single
    spaces between them this is the whitespace split. *)
Theorem parse_input_splits_at_single_spaces (user_input : pystr) :
  (exists command args,
     parse_input user_input = Ok (command, args)
     /\ command :: args = PyStr.split 32 (PyStr.strip user_input)
     /\ PyStr.join [32%N] (command :: args) = PyStr.strip user_input
     /\ Forall (fun w => ~ In 32%N w) (command :: args)
     /\ (forallb Unicode.isspace user_input = true <-> command = [] /\ args = []))
  /\ (PyStr.strip user_input = [] \/ single_spaced (PyStr.strip user_input) = true ->
      parse_input user_input = Ok (spec_parse_input user_input)).
Proof.
  split; [|apply parse_input_single_spaced].
  unfold parse_input.
  destruct (PyStr.strip user_input) as [|c t] eqn:E.
  - exists [], []. split; [reflexivity|]. split; [reflexivity|].
    split; [reflexivity|]. split.
    + constructor; [intros []|constructor].
    + split; [intros _; split; reflexivity|].
      intros _. apply strip_nil. exact E.
  - pose proof (split_not_nil 32 (c :: t)) as Hne.
    pose proof (join_split 32 (c :: t)) as Hjoin.
    pose proof (split_pieces_have_no_sep 32 (c :: t)) as Hsep.
    destruct (PyStr.split 32 (c :: t)) as [|command args]; [contradiction|].
    exists command, args. split; [reflexivity|]. split; [reflexivity|].
    split; [exact Hjoin|]. split; [exact Hsep|].
    split.
    + intros H. apply strip_nil in H. congruence.
    + intros [-> ->]. simpl in Hjoin. discriminate.
Qed.

Lemma parse_input_splits_at_single_spaces_witness :
  parse_input (lit "add Bob 0501234567")
  = Ok (spec_parse_input (lit "add Bob 0501234567")).
Proof.
  apply (parse_input_splits_at_single_spaces (lit "add Bob 0501234567")).
  right. reflexivity.
Defined.

(** C10 as stated fails on a line with two spaces in a row: the code
    yields an empty argument where the whitespace split has none. *)
Lemma parse_input_is_not_a_whitespace_split :
  parse_input (lit "add  Bob") = Ok (lit "add", [[]; lit "Bob"])
  /\ spec_parse_input (lit "add  Bob") = (lit "add", [lit "Bob"])
  /\ parse_input (lit "add  Bob") <> Ok (spec_parse_input (lit "add  Bob")).
Proof.
  repeat split. vm_compute. discriminate.
Qed.

(** ** The keys of the book *)

Lemma dict_set_keys (k : pystr) (v : Record_) (d : AddressBook) (k' : pystr) :
  In k' (dict_keys (dict_set k v d)) -> In k' (dict_keys d) \/ k' = k.
Proof.
  unfold dict_keys. induction d as [|[k0 v0] d IH]; simpl.
  - intros [<-|[]]. right. reflexivity.
  - destruct (PyStr.eqb k0 k); simpl.
    + intros H. left. exact H.
    + intros [H|H]; [left; left; exact H|].
      destruct (IH H) as [H'|H']; [left; right; exact H'|right; exact H'].
Qed.

Lemma dict_set_key_is_name (k : pystr) (v : Record_) (d : AddressBook) :
  Forall key_is_name d -> value (name v) = k ->
  Forall key_is_name (dict_set k v d).
Proof.
  intros Hd Hv. induction d as [|[k0 v0] d IH]; simpl.
  - constructor; [|constructor]. unfold key_is_name. simpl. congruence.
  - inversion Hd as [|? ? H0 Hd']; subst.
    destruct (PyStr.eqb k0 (value (name v))) eqn:E.
    + apply eqb_eq in E. constructor; [exact E|exact Hd'].
    + constructor; [exact H0|apply IH; exact Hd'].
Qed.

Lemma dict_get_key_is_name (k : pystr) (r : Record_) (d : AddressBook) :
  Forall key_is_name d -> dict_get k d = Some r -> value (name r) = k.
Proof.
  intros Hd. induction d as [|[k0 v0] d IH]; simpl; [discriminate|].
  inversion Hd as [|? ? H0 Hd']; subst.
  destruct (PyStr.eqb k0 k) eqn:E.
  - intros H. injection H as <-. apply eqb_eq in E.
    unfold key_is_name in H0. simpl in H0. congruence.
  - apply IH. exact Hd'.
Qed.

Lemma Record_add_phone_name (r r' : Record_) (phone : pystr) :
  Record_add_phone r phone = Ok r' -> name r' = name r.
Proof.
  unfold Record_add_phone. destruct (new_Phone phone); simpl; [|discriminate].
  intros H. injection H as <-. reflexivity.
Qed.

Lemma Record_add_birthday_name (r r' : Record_) (b : pystr) :
  Record_add_birthday r b = Ok r' -> name r' = name r.
Proof.
  unfold Record_add_birthday. destruct (new_Birthday b); simpl; [|discriminate].
  intros H. injection H as <-. reflexivity.
Qed.

Lemma add_contact_book (args : list pystr) (book : AddressBook) :
  (forall k, In k (dict_keys (snd (add_contact args book))) ->
             In k (dict_keys book) \/ exists more, args = k :: more)
  /\ (Forall key_is_name book -> Forall key_is_name (snd (add_contact args book))).
Proof.
  unfold add_contact, input_error. cbn [snd]. unfold add_contact_func.
  destruct (Nat.ltb (length args) 2 || negb (PyStr.isdigit (nth 1 args [])));
    [cbn [snd]; same_book|].
  destruct args as [|n [|phone more]];
    try (cbn [snd unpack2_star raise_ValueError]; same_book).
  cbn [unpack2_star]. unfold AddressBook_find, AddressBook_add_record, store_record.
  destruct (dict_get n book) as [record|] eqn:Hget.
  - destruct (Record_add_phone record phone) as [record'|e] eqn:Hadd; cbn [snd].
    + split.
      * intros k Hk. apply dict_set_keys in Hk as [Hk| ->]; [left; exact Hk|].
        right. eexists. reflexivity.
      * intros Hinv. apply dict_set_key_is_name; [exact Hinv|].
        rewrite (Record_add_phone_name _ _ _ Hadd).
        apply (dict_get_key_is_name _ _ _ Hinv Hget).
    + same_book.
  - cbn [new_Record name new_Name value].
    destruct (Record_add_phone (new_Record n) phone) as [record'|e] eqn:Hadd;
      cbn [snd].
    + split.
      * intros k Hk. apply dict_set_keys in Hk as [Hk| ->].
        -- apply dict_set_keys in Hk as [Hk| ->]; [left; exact Hk|].
           right. eexists. reflexivity.
        -- right. eexists. reflexivity.
      * intros Hinv. apply dict_set_key_is_name.
        -- apply dict_set_key_is_name; [exact Hinv|reflexivity].
        -- rewrite (Record_add_phone_name _ _ _ Hadd). reflexivity.
    + split.
      * intros k Hk. apply dict_set_keys in Hk as [Hk| ->]; [left; exact Hk|].
        right. eexists. reflexivity.
      * intros Hinv. apply dict_set_key_is_name; [exact Hinv|reflexivity].
Qed.

Lemma change_phone_book (args : list pystr) (book : AddressBook) :
  (forall k, In k (dict_keys (snd (change_phone args book))) -> In k (dict_keys book))
  /\ (Forall key_is_name book -> Forall key_is_name (snd (change_phone args book))).
Proof.
  unfold change_phone, input_error. cbn [snd]. unfold change_phone_func.
  destruct (unpack3 args) as [[[n old_phone] new_phone]|e];
    [|cbn [snd]; same_book].
  unfold AddressBook_find, store_record.
  destruct (dict_get n book) as [record|] eqn:Hget; cbn [snd];
    [|same_book].
  split.
  - intros k Hk. apply dict_set_keys in Hk as [Hk| ->]; [exact Hk|].
    unfold dict_keys. clear -Hget.
    induction book as [|[k0 v0] d IH]; simpl in *; [discriminate|].
    destruct (PyStr.eqb k0 n) eqn:E.
    + left. apply eqb_eq. exact E.
    + right. apply IH. exact Hget.
  - intros Hinv. apply dict_set_key_is_name; [exact Hinv|].
    apply (dict_get_key_is_name _ _ _ Hinv Hget).
Qed.

Lemma dict_get_in_keys (k : pystr) (r : Record_) (d : AddressBook) :
  dict_get k d = Some r -> In k (dict_keys d).
Proof.
  unfold dict_keys. induction d as [|[k0 v0] d IH]; simpl; [discriminate|].
  destruct (PyStr.eqb k0 k) eqn:E.
  - intros _. left. apply eqb_eq. exact E.
  - intros H. right. apply IH. exact H.
Qed.

Lemma add_birthday_book (args : list pystr) (book : AddressBook) :
  (forall k, In k (dict_keys (snd (add_birthday args book))) -> In k (dict_keys book))
  /\ (Forall key_is_name book -> Forall key_is_name (snd (add_birthday args book))).
Proof.
  unfold add_birthday, input_error. cbn [snd]. unfold add_birthday_func.
  destruct (unpack2_star args) as [[n b]|e];
    [|cbn [snd]; same_book].
  unfold AddressBook_find, store_record.
  destruct (dict_get n book) as [record|] eqn:Hget; cbn [snd];
    [|same_book].
  destruct (Record_add_birthday record b) as [record'|e] eqn:Hadd; cbn [snd];
    [|same_book].
  split.
  - intros k Hk. apply dict_set_keys in Hk as [Hk| ->]; [exact Hk|].
    apply (dict_get_in_keys _ _ _ Hget).
  - intros Hinv. apply dict_set_key_is_name; [exact Hinv|].
    rewrite (Record_add_birthday_name _ _ _ Hadd).
    apply (dict_get_key_is_name _ _ _ Hinv Hget).
Qed.

Lemma show_phones_book (args : list pystr) (book : AddressBook) :
  snd (show_phones args book) = book.
Proof.
  unfold show_phones, input_error, show_phones_func. cbn [snd].
  destruct (unpack1_star args); [|reflexivity].
  destruct (AddressBook_find a book); reflexivity.
Qed.

Lemma show_all_book (book : AddressBook) : snd (show_all book) = book.
Proof. destruct book; reflexivity. Qed.

Lemma birthdays_book (today : DateTime.datetime) (args : list pystr)
    (book : AddressBook) :
  snd (birthdays today args book) = book.
Proof. reflexivity. Qed.

Lemma turn_book_printed (o : outcome) : turn_book (printed o) = snd o.
Proof. unfold printed. destruct (fst o); reflexivity. Qed.

Lemma main_turn_book (today : DateTime.datetime) (user_input : pystr)
    (book : AddressBook) :
  (forall k, In k (dict_keys (turn_book (main_turn today user_input book))) ->
             In k (dict_keys book) \/ added_name user_input = Some k)
  /\ (Forall key_is_name book ->
      Forall key_is_name (turn_book (main_turn today user_input book))).
Proof.
  unfold main_turn, added_name.
  destruct (parse_input user_input) as [[command args]|e];
    [|same_book].
  destruct command as [|c0 command]; [same_book|].
  destruct (PyStr.eqb (c0 :: command) (lit "close") || PyStr.eqb (c0 :: command) (lit "exit"));
    [same_book|].
  destruct (PyStr.eqb (c0 :: command) (lit "hello"));
    [same_book|].
  destruct (PyStr.eqb (c0 :: command) (lit "add")) eqn:Eadd.
  { rewrite turn_book_printed.
    destruct (add_contact_book args book) as [Hk Hinv].
    split; [|exact Hinv].
    intros k H. destruct (Hk k H) as [H'|[more ->]]; [left; exact H'|].
    right. reflexivity. }
  destruct (PyStr.eqb (c0 :: command) (lit "change")).
  { rewrite turn_book_printed.
    destruct (change_phone_book args book) as [Hk Hinv].
    split; [|exact Hinv]. intros k H. left. apply Hk. exact H. }
  destruct (PyStr.eqb (c0 :: command) (lit "phone"));
    [rewrite turn_book_printed, show_phones_book; same_book|].
  destruct (PyStr.eqb (c0 :: command) (lit "all"));
    [rewrite turn_book_printed, show_all_book; same_book|].
  destruct (PyStr.eqb (c0 :: command) (lit "add-birthday")).
  { rewrite turn_book_printed.
    destruct (add_birthday_book args book) as [Hk Hinv].
    split; [|exact Hinv]. intros k H. left. apply Hk. exact H. }
  destruct (PyStr.eqb (c0 :: command) (lit "birthdays"));
    [rewrite turn_book_printed, birthdays_book; same_book|].
  same_book.
Qed.

Lemma main_loop_cons (today : DateTime.datetime) (user_input : pystr)
    (inputs : list (DateTime.datetime * pystr)) (book : AddressBook) :
  main_loop ((today, user_input) :: inputs) book
  = main_loop inputs (turn_book (main_turn today user_input book))
  \/ main_loop ((today, user_input) :: inputs) book
     = turn_book (main_turn today user_input book).
Proof.
  simpl. destruct (main_turn today user_input book); simpl; auto.
Qed.

(** C9, as the code has it: [Name] keeps whatever string it is given.
    After the loop has read any lines, starting from a book whose keys are
    the names of their records, every key is still the name of its record,
    and every key was a key at the start or is the first argument of an
    [add] line among those read; so the keys are non-empty as far as
    those were. *)
Theorem book_keys_are_added_names
    (inputs : list (DateTime.datetime * pystr)) (book : AddressBook) :
  Forall key_is_name book ->
  (forall n, new_Name n = mkField n)
  /\ Forall key_is_name (main_loop inputs book)
  /\ (forall k, In k (dict_keys (main_loop inputs book)) ->
        In k (dict_keys book)
        \/ exists today user_input,
             In (today, user_input) inputs /\ added_name user_input = Some k)
  /\ ((forall k, In k (dict_keys book) -> k <> []) ->
      (forall today user_input,
         In (today, user_input) inputs -> added_name user_input <> Some []) ->
      forall k, In k (dict_keys (main_loop inputs book)) -> k <> []).
Proof.
  intros Hinv.
  assert (H : Forall key_is_name (main_loop inputs book)
              /\ (forall k, In k (dict_keys (main_loop inputs book)) ->
                    In k (dict_keys book)
                    \/ exists today user_input,
                         In (today, user_input) inputs
                         /\ added_name user_input = Some k)).
  { revert book Hinv. induction inputs as [|[today user_input] inputs IH];
      intros book Hinv.
    - simpl. split; [exact Hinv|]. intros k Hk. left. exact Hk.
    - destruct (main_turn_book today user_input book) as [Hkeys Hturn].
      specialize (Hturn Hinv).
      assert (Hstep : forall k,
                 In k (dict_keys (turn_book (main_turn today user_input book))) ->
                 In k (dict_keys book)
                 \/ exists t u, In (t, u) ((today, user_input) :: inputs)
                                /\ added_name u = Some k).
      { intros k Hk. destruct (Hkeys k Hk) as [H|H]; [left; exact H|].
        right. exists today, user_input. split; [left; reflexivity|exact H]. }
      destruct (main_loop_cons today user_input inputs book) as [E|E]; rewrite E.
      + destruct (IH _ Hturn) as [IH1 IH2]. split; [exact IH1|].
        intros k Hk. destruct (IH2 k Hk) as [H|[t [u [Hin Hu]]]].
        * apply Hstep. exact H.
        * right. exists t, u. split; [right; exact Hin|exact Hu].
      + split; [exact Hturn|exact Hstep]. }
  destruct H as [H1 H2].
  split; [reflexivity|]. split; [exact H1|]. split; [exact H2|].
  intros Hbook Hadd k Hk E. subst k.
  destruct (H2 [] Hk) as [H|[t [u [Hin Hu]]]].
  - exact (Hbook [] H eq_refl).
  - exact (Hadd t u Hin Hu).
Qed.

Lemma book_keys_are_added_names_witness :
  Forall key_is_name (main_loop [(noon, lit "add Bob 0501234567")] [])
  /\ Forall (fun k => k <> [])
            (dict_keys (main_loop [(noon, lit "add Bob 0501234567")] [])).
Proof.
  destruct (book_keys_are_added_names [(noon, lit "add Bob 0501234567")] []
              (Forall_nil _)) as [_ [Hnames [_ H]]].
  split; [exact Hnames|].
  apply Forall_forall. apply H.
  - intros k [].
  - intros today user_input [E|[]]. injection E as <- <-.
    vm_compute. discriminate.
Defined.

(** C9 as stated fails on the line [add  1234567890], with two spaces
    after the command: the first argument is the empty string, and the
    book gets a record under the empty name. *)
Lemma empty_name_becomes_a_key :
  ~ (forall k,
       In k (dict_keys (main_loop [(noon, lit "add  1234567890")] [])) -> k <> []).
Proof.
  intros H. apply (H []); [|reflexivity].
  vm_compute. left. reflexivity.
Qed.

(** ** Birthdays seen from a clock that is not at midnight *)

(** C1 on the code: at noon of 4 November, with [days = 0], the book of
    Ann (birthday today) and Ben (birthday tomorrow) gives Ben and not
    Ann, where the claim gives Ann and not Ben; the [birthdays 0] command
    prints Ben's line; with a record born on 29 February the call raises
    in a year that is not a leap year. *)
Theorem get_upcoming_birthdays_at_noon :
  AddressBook_get_upcoming_birthdays noon 0 book_ann_ben = Ok [ben]
  /\ spec_upcoming_birthdays noon 0 book_ann_ben = [ann]
  /\ fst (birthdays noon [lit "0"] book_ann_ben)
     = Ok (lit "Upcoming birthdays:" ++ nl ++ lit "Ben: 05.11.1990")
  /\ AddressBook_get_upcoming_birthdays noon 0 book_leo
     = raise_ValueError (lit "day is out of range for month").
Proof. repeat split. Qed.

(** C6 on the code: at noon of 4 November, [days_to_birthday] is 364 for
    a birthday of that very day and 0 for a birthday of the next day,
    where the count of days from today to the next occurrence is 0 and 1;
    for a birthday of 29 February it raises instead of returning; without
    a birthday it returns nothing. *)
Theorem days_to_birthday_at_noon :
  Record_days_to_birthday noon ann = Ok (Some 364%Z)
  /\ spec_days_to_birthday noon ann = Some 0%Z
  /\ Record_days_to_birthday noon ben = Ok (Some 0%Z)
  /\ spec_days_to_birthday noon ben = Some 1%Z
  /\ Record_days_to_birthday noon leo
     = raise_ValueError (lit "day is out of range for month")
  /\ Record_days_to_birthday noon (new_Record (lit "Ann")) = Ok None.
Proof. repeat split. Qed.

(** ** [Birthday]: parsing and formatting back *)

Lemma zrange_forall (P : Z -> bool) (lo n : Z) :
  forallb P (zrange lo n) = true ->
  forall z, (lo <= z < lo + n)%Z -> P z = true.
Proof.
  intros H z Hz. rewrite forallb_forall in H. apply H.
  unfold zrange. apply in_map_iff. exists (Z.to_nat (z - lo)). split.
  - lia.
  - apply in_seq. lia.
Qed.

Lemma days_ok (d : Z) : (1 <= d <= 31)%Z -> two_digits_ok DateTime.re_d d = true.
Proof.
  intros H. apply (zrange_forall (two_digits_ok DateTime.re_d) 1 31).
  - vm_compute. reflexivity.
  - lia.
Qed.

Lemma months_ok (m : Z) : (1 <= m <= 12)%Z -> two_digits_ok DateTime.re_m m = true.
Proof.
  intros H. apply (zrange_forall (two_digits_ok DateTime.re_m) 1 12).
  - vm_compute. reflexivity.
  - lia.
Qed.

Lemma dg_facts (z : Z) :
  is_digit_value z ->
  (dg z <? 127)%N = true
  /\ Unicode.c_isspace (dg z) = false
  /\ (dg z =? 43)%N = false
  /\ (dg z =? 45)%N = false
  /\ (dg z =? 95)%N = false
  /\ Unicode.is_ascii_digit (dg z) = true
  /\ Z.of_N (dg z - 48) = z
  /\ Unicode.isdecimal (dg z) = true.
Proof.
  unfold is_digit_value. intros H.
  assert (E : (z = 0 \/ z = 1 \/ z = 2 \/ z = 3 \/ z = 4 \/ z = 5 \/ z = 6
               \/ z = 7 \/ z = 8 \/ z = 9)%Z) by lia.
  repeat (destruct E as [->|E]; [vm_compute; repeat split|]).
  subst z. vm_compute. repeat split.
Qed.

Lemma to_ascii_decimal_digits (zs : list Z) :
  Forall is_digit_value zs ->
  PyInt.to_ascii_decimal (map dg zs) = map dg zs.
Proof.
  induction 1 as [|z zs Hz _ IH]; simpl; [reflexivity|].
  destruct (dg_facts z Hz) as [-> _]. rewrite IH. reflexivity.
Qed.

Lemma scan_digits_digits (zs : list Z) (n : nat) (acc : Z) :
  Forall is_digit_value zs ->
  PyInt.scan_digits (map dg zs) false n acc
  = Some (fold_left (fun a z => (10 * a + z)%Z) zs acc, n + length zs, []).
Proof.
  intros H. revert n acc. induction H as [|z zs Hz _ IH]; intros n acc; simpl.
  - rewrite Nat.add_0_r. reflexivity.
  - destruct (dg_facts z Hz) as [_ [_ [_ [_ [-> [-> [-> _]]]]]]].
    rewrite IH. rewrite Nat.add_succ_r. reflexivity.
Qed.

(** [int] on a string of ASCII digits. *)
Lemma int_digits (z : Z) (zs : list Z) :
  Forall is_digit_value (z :: zs) ->
  length (z :: zs) <= PyInt.max_str_digits ->
  PyInt.int (map dg (z :: zs)) = Ok (digits_value (z :: zs)).
Proof.
  intros H Hlen. unfold PyInt.int.
  rewrite (to_ascii_decimal_digits _ H).
  assert (Hz : is_digit_value z) by (inversion H; assumption).
  destruct (dg_facts z Hz) as [_ [Hsp [Hplus [Hminus [Hus _]]]]].
  assert (Hsign : PyInt.split_sign
                    (PyStr.dropwhile Unicode.c_isspace (map dg (z :: zs)))
                  = (false, map dg (z :: zs))).
  { cbn [map PyStr.dropwhile]. rewrite Hsp.
    unfold PyInt.split_sign. rewrite Hplus, Hminus. reflexivity. }
  rewrite Hsign. cbn [fst snd].
  assert (Hstart : PyInt.starts_with 95 (map dg (z :: zs)) = false)
    by (cbn [map PyInt.starts_with]; exact Hus).
  rewrite Hstart, (scan_digits_digits _ 0 0%Z H).
  destruct (Nat.ltb_spec PyInt.max_str_digits (0 + length (z :: zs))) as [Hlt|_];
    [simpl in Hlt, Hlen; lia|].
  reflexivity.
Qed.

Lemma of_N_four_digits (n : N) :
  (1000 <= n <= 9999)%N ->
  PyStr.of_N n
  = [48 + n / 10 / 10 / 10 mod 10; 48 + n / 10 / 10 mod 10;
     48 + n / 10 mod 10; 48 + n mod 10]%N.
Proof.
  intros H. unfold PyStr.of_N.
  assert (Hlog : (9 <= N.log2 n)%N).
  { change 9%N with (N.log2 512). apply N.log2_le_mono. lia. }
  destruct (N.to_nat (N.log2 n)) as [|[|[|f]]] eqn:E; try lia.
  cbn [PyStr.digits_fuel].
  assert (H1 : (n <? 10)%N = false) by (apply N.ltb_ge; lia).
  assert (H2 : (n / 10 <? 10)%N = false) by (apply N.ltb_ge; div_lia).
  assert (H3 : (n / 10 / 10 <? 10)%N = false) by (apply N.ltb_ge; div_lia).
  assert (H4 : (n / 10 / 10 / 10 <? 10)%N = true) by (apply N.ltb_lt; div_lia).
  rewrite H1, H2, H3, H4. reflexivity.
Qed.

Lemma four_digits_map (y : Z) :
  four_digits y
  = map dg [y / 1000; (y / 100) mod 10; (y / 10) mod 10; y mod 10]%Z.
Proof. reflexivity. Qed.

(** What the round trip needs of the year. *)
Lemma years_ok (y : Z) :
  (1000 <= y <= 9999)%Z ->
  PyStr.of_Z y = four_digits y
  /\ group_selects DateTime.re_Y (four_digits y) = true
  /\ PyInt.int (four_digits y) = Ok y.
Proof.
  intros H.
  assert (Hdigits : Forall is_digit_value
                      [y / 1000; (y / 100) mod 10; (y / 10) mod 10; y mod 10]%Z).
  { unfold is_digit_value. repeat constructor; div_lia. }
  split; [|split].
  - unfold PyStr.of_Z. replace (y <? 0)%Z with false by (symmetry; apply Z.ltb_ge; lia).
    rewrite of_N_four_digits by lia.
    unfold four_digits, dg. repeat f_equal; div_lia.
  - inversion Hdigits as [|? ? Ha H1]; subst.
    inversion H1 as [|? ? Hb H2]; subst.
    inversion H2 as [|? ? Hc H3]; subst.
    inversion H3 as [|? ? He _]; subst.
    unfold four_digits.
    cbn [group_selects DateTime.re_Y DateTime.match_seq DateTime.cls_match].
    rewrite (proj2 (proj2 (proj2 (proj2 (proj2 (proj2 (proj2 (dg_facts _ Ha)))))))).
    rewrite (proj2 (proj2 (proj2 (proj2 (proj2 (proj2 (proj2 (dg_facts _ Hb)))))))).
    rewrite (proj2 (proj2 (proj2 (proj2 (proj2 (proj2 (proj2 (dg_facts _ Hc)))))))).
    rewrite (proj2 (proj2 (proj2 (proj2 (proj2 (proj2 (proj2 (dg_facts _ He)))))))).
    reflexivity.
  - rewrite four_digits_map, (int_digits _ _ Hdigits) by (simpl; unfold PyInt.max_str_digits; lia).
    f_equal. unfold digits_value. cbn [fold_left]. div_lia.
Qed.

Lemma int_is_eq (s : pystr) (z : Z) : int_is s z = true -> PyInt.int s = Ok z.
Proof.
  unfold int_is. destruct (PyInt.int s) as [v|e]; [|discriminate].
  intros H. apply Z.eqb_eq in H. congruence.
Qed.

Lemma match_seq_app (p : list DateTime.cls) (s t r rest : pystr) :
  DateTime.match_seq p s = Some (t, r) ->
  DateTime.match_seq p (s ++ rest) = Some (t, r ++ rest) /\ s = t ++ r.
Proof.
  revert s t r. induction p as [|k p IH]; intros s t r; simpl.
  - intros H. injection H as <- <-. split; reflexivity.
  - destruct s as [|c s]; [discriminate|]. simpl.
    destruct (DateTime.cls_match k c); [|discriminate].
    destruct (DateTime.match_seq p s) as [[t' r']|] eqn:E; [|discriminate].
    intros H. injection H as <- <-.
    destruct (IH s t' r' E) as [-> ->]. split; reflexivity.
Qed.

Lemma match_seq_none_app (p : list DateTime.cls) (s rest : pystr) :
  DateTime.match_seq p s = None -> length p <= length s ->
  DateTime.match_seq p (s ++ rest) = None.
Proof.
  revert s. induction p as [|k p IH]; intros s; simpl; [discriminate|].
  destruct s as [|c s]; simpl; [lia|].
  destruct (DateTime.cls_match k c); [|reflexivity].
  destruct (DateTime.match_seq p s) as [[t' r']|] eqn:E; [discriminate|].
  intros _ Hlen. rewrite (IH s E); [reflexivity|lia].
Qed.

(** A selected token commits the group when the continuation succeeds. *)
Lemma alt_group_commit {R : Type} (alts : list (list DateTime.cls))
    (tok rest : pystr) (k : pystr -> pystr -> option R) (r : R) :
  group_selects alts tok = true ->
  k tok rest = Some r ->
  DateTime.alt_group alts (tok ++ rest) k = Some r.
Proof.
  intros Hsel Hk. induction alts as [|p alts IH]; simpl in *; [discriminate|].
  destruct (DateTime.match_seq p tok) as [[t [|c rem]]|] eqn:E.
  - destruct (match_seq_app p tok t [] rest E) as [E' Htok].
    rewrite app_nil_r in Htok. subst t.
    rewrite E'. simpl. rewrite Hk. reflexivity.
  - discriminate.
  - apply andb_true_iff in Hsel as [Hlen Hsel].
    apply Nat.leb_le in Hlen.
    rewrite (match_seq_none_app p tok rest E Hlen). apply IH. exact Hsel.
Qed.

Lemma match_dmY_tokens (dd mm yy : pystr) :
  group_selects DateTime.re_d dd = true ->
  group_selects DateTime.re_m mm = true ->
  group_selects DateTime.re_Y yy = true ->
  DateTime.match_dmY (dd ++ 46%N :: mm ++ 46%N :: yy) = Some (dd, mm, yy, []).
Proof.
  intros Hd Hm Hy. unfold DateTime.match_dmY.
  apply alt_group_commit; [exact Hd|].
  cbn [DateTime.match_seq DateTime.dot DateTime.cls_match].
  rewrite N.eqb_refl.
  apply alt_group_commit; [exact Hm|].
  cbn [DateTime.match_seq DateTime.dot DateTime.cls_match].
  rewrite N.eqb_refl.
  rewrite <- (app_nil_r yy) at 1.
  apply alt_group_commit; [exact Hy|reflexivity].
Qed.

Lemma check_date_fields_valid (y m d : Z) :
  DateTime.check_date_fields y m d = Ok tt <-> valid_date y m d.
Proof.
  unfold DateTime.check_date_fields, valid_date, DateTime.MINYEAR, DateTime.MAXYEAR.
  destruct (y <? 1)%Z eqn:E1; destruct (9999 <? y)%Z eqn:E2;
    destruct (m <? 1)%Z eqn:E3; destruct (12 <? m)%Z eqn:E4;
    destruct (d <? 1)%Z eqn:E5;
    destruct (DateTime.days_in_month y m <? d)%Z eqn:E6;
    cbn [orb]; unfold raise_ValueError;
    (split; [intros H; try discriminate H|intros H]); lia || (try reflexivity).
Qed.

Lemma new_Birthday_padded (y m d : Z) :
  valid_date y m d -> (1000 <= y)%Z ->
  new_Birthday (padded y m d) = Ok (mkField (midnight y m d))
  /\ DateTime.strftime_dmY (midnight y m d) = padded y m d.
Proof.
  intros Hvalid Hy.
  assert (Hvalid' := Hvalid). destruct Hvalid' as [Hy' [Hm Hd]].
  assert (Hd31 : (1 <= d <= 31)%Z).
  { split; [lia|]. unfold DateTime.days_in_month in Hd.
    repeat match type of Hd with
           | context [if ?b then _ else _] => destruct b
           end; lia. }
  pose proof (days_ok d Hd31) as Hdd.
  pose proof (months_ok m Hm) as Hmm.
  destruct (years_ok y (conj Hy (proj2 Hy'))) as [Hyf [Hys Hyi]].
  unfold two_digits_ok in Hdd, Hmm.
  apply andb_true_iff in Hdd as [Hdd Hdi]. apply andb_true_iff in Hdd as [Hdf Hds].
  apply andb_true_iff in Hmm as [Hmm Hmi]. apply andb_true_iff in Hmm as [Hmf Hms].
  apply eqb_eq in Hdf, Hmf.
  apply int_is_eq in Hdi, Hmi.
  split.
  - unfold new_Birthday, DateTime.strptime_dmY, padded.
    rewrite (match_dmY_tokens _ _ _ Hds Hms Hys).
    rewrite Hdi, Hmi, Hyi. cbn [bind].
    apply check_date_fields_valid in Hvalid. rewrite Hvalid. reflexivity.
  - unfold DateTime.strftime_dmY, midnight, padded.
    cbn [DateTime.day DateTime.month DateTime.year].
    rewrite Hdf, Hmf, Hyf. reflexivity.
Qed.

Lemma new_Birthday_ok (s : pystr) (b : Birthday) :
  new_Birthday s = Ok b ->
  exists y m d, valid_date y m d /\ value b = midnight y m d.
Proof.
  unfold new_Birthday, DateTime.strptime_dmY.
  destruct (DateTime.match_dmY s) as [[[[dd mm] yy] rest]|]; [|discriminate].
  destruct rest; [|discriminate].
  destruct (PyInt.int dd) as [d|e]; cbn [bind];
    [|destruct (exn_cls e); discriminate].
  destruct (PyInt.int mm) as [m|e]; cbn [bind];
    [|destruct (exn_cls e); discriminate].
  destruct (PyInt.int yy) as [y|e]; cbn [bind];
    [|destruct (exn_cls e); discriminate].
  destruct (DateTime.check_date_fields y m d) as [[]|e] eqn:E; cbn [bind];
    [|destruct (exn_cls e); discriminate].
  intros H. injection H as <-. exists y, m, d.
  split; [apply check_date_fields_valid; exact E|reflexivity].
Qed.

Lemma new_Birthday_fails_with_date_error (s : pystr) :
  (exists b, new_Birthday s = Ok b) \/ new_Birthday s = raise_ValueError date_error.
Proof.
  unfold new_Birthday.
  pose proof (strptime_value_error s) as H.
  destruct (DateTime.strptime_dmY s) as [t|e]; cbn [value_error_only] in H.
  - left. eexists. reflexivity.
  - right. rewrite H. reflexivity.
Qed.

(** ** [Birthday]: the strings it accepts *)

Lemma match_seq_in_classes (p : list DateTime.cls) (s tok rest : pystr) :
  DateTime.match_seq p s = Some (tok, rest)
  <-> s = tok ++ rest /\ in_classes p tok = true.
Proof.
  revert s tok rest. induction p as [|k p IH]; intros s tok rest;
    cbn [DateTime.match_seq].
  - split.
    + intros H. injection H as <- <-. split; reflexivity.
    + intros [-> H]. destruct tok; [reflexivity|discriminate].
  - destruct s as [|c s].
    + split; [discriminate|]. intros [H Htok].
      destruct tok; [discriminate|discriminate].
    + destruct (DateTime.cls_match k c) eqn:Ek.
      * destruct (DateTime.match_seq p s) as [[t r]|] eqn:E.
        -- apply IH in E as [-> Ht]. split.
           ++ intros H. injection H as <- <-. cbn [in_classes app].
              rewrite Ek, Ht. split; reflexivity.
           ++ intros [H Htok]. destruct tok as [|c' tok]; [discriminate|].
              cbn [in_classes app] in *. injection H as <- H.
              apply andb_true_iff in Htok as [_ Htok].
              assert (E : DateTime.match_seq p (t ++ r) = Some (tok, rest))
                by (apply IH; split; assumption).
              assert (E' : DateTime.match_seq p (t ++ r) = Some (t, r))
                by (apply IH; split; [reflexivity|assumption]).
              rewrite E in E'. injection E' as -> ->. reflexivity.
        -- split; [discriminate|]. intros [H Htok].
           destruct tok as [|c' tok]; [discriminate|].
           cbn [in_classes app] in *. injection H as <- H.
           apply andb_true_iff in Htok as [_ Htok].
           assert (E' : DateTime.match_seq p s = Some (tok, rest))
             by (apply IH; split; assumption).
           congruence.
      * split; [discriminate|]. intros [H Htok].
        destruct tok as [|c' tok]; [discriminate|].
        cbn [in_classes app] in *. injection H as <- H.
        rewrite Ek in Htok. discriminate.
Qed.

(** What a group returns is what its continuation returns on the text
    matched by one of its alternatives. *)
Lemma alt_group_sound {R : Type} (alts : list (list DateTime.cls)) (s : pystr)
    (k : pystr -> pystr -> option R) (r : R) :
  DateTime.alt_group alts s k = Some r ->
  exists p tok rest,
    In p alts /\ DateTime.match_seq p s = Some (tok, rest) /\ k tok rest = Some r.
Proof.
  induction alts as [|p alts IH]; cbn [DateTime.alt_group]; [discriminate|].
  destruct (DateTime.match_seq p s) as [[tok rest]|] eqn:E.
  - destruct (k tok rest) as [r'|] eqn:Ek.
    + intros H. injection H as <-. exists p, tok, rest.
      split; [left; reflexivity|]. split; [exact E|exact Ek].
    + intros H. destruct (IH H) as [p' [tok' [rest' [Hin H']]]].
      exists p', tok', rest'. split; [right; exact Hin|exact H'].
  - intros H. destruct (IH H) as [p' [tok' [rest' [Hin H']]]].
    exists p', tok', rest'. split; [right; exact Hin|exact H'].
Qed.

(** A group finds the match of an alternative when no alternative can
    succeed on another text. *)
Lemma alt_group_complete {R : Type} (alts : list (list DateTime.cls)) (s : pystr)
    (k : pystr -> pystr -> option R) (p : list DateTime.cls)
    (tok rest : pystr) (r : R) :
  In p alts ->
  DateTime.match_seq p s = Some (tok, rest) ->
  k tok rest = Some r ->
  (forall p' tok' rest',
     In p' alts -> DateTime.match_seq p' s = Some (tok', rest') ->
     k tok' rest' <> None -> tok' = tok /\ rest' = rest) ->
  DateTime.alt_group alts s k = Some r.
Proof.
  intros Hin Hm Hk Huniq.
  induction alts as [|p0 alts IH]; [contradiction|].
  cbn [DateTime.alt_group].
  destruct (DateTime.match_seq p0 s) as [[tok0 rest0]|] eqn:E0.
  - destruct (k tok0 rest0) as [r0|] eqn:Ek0.
    + destruct (Huniq p0 tok0 rest0 (or_introl eq_refl) E0) as [-> ->];
        [congruence|]. congruence.
    + destruct Hin as [->|Hin]; [congruence|].
      apply IH; [exact Hin|].
      intros p' tok' rest' Hin'. apply Huniq. right. exact Hin'.
  - destruct Hin as [->|Hin]; [congruence|].
    apply IH; [exact Hin|].
    intros p' tok' rest' Hin'. apply Huniq. right. exact Hin'.
Qed.

Lemma in_classes_no_dot (p : list DateTime.cls) (tok : pystr) :
  in_classes p tok = true -> no_dot p = true -> ~ In 46%N tok.
Proof.
  revert tok. induction p as [|k p IH]; intros [|c tok]; cbn [in_classes];
    try discriminate; [intros _ _ []|].
  intros H Hp. apply andb_true_iff in H as [Hc Htok].
  unfold no_dot in Hp. cbn [forallb] in Hp. apply andb_true_iff in Hp as [Hk Hp].
  intros [->|Hin].
  - rewrite Hc in Hk. discriminate.
  - exact (IH tok Htok Hp Hin).
Qed.

(** A text is cut at its first dot in one way only. *)
Lemma first_dot_unique (t t' r r' : pystr) :
  t ++ 46%N :: r = t' ++ 46%N :: r' ->
  ~ In 46%N t -> ~ In 46%N t' -> t = t' /\ r = r'.
Proof.
  revert t'. induction t as [|c t IH]; intros [|c' t']; cbn [app].
  - intros H _ _. injection H as <-. split; reflexivity.
  - intros H _ Hn. injection H as <- _. exfalso. apply Hn. left. reflexivity.
  - intros H Hn _. injection H as -> _. exfalso. apply Hn. left. reflexivity.
  - intros H Hn Hn'. injection H as <- H.
    destruct (IH t' H) as [<- <-].
    + intros Hin. apply Hn. right. exact Hin.
    + intros Hin. apply Hn'. right. exact Hin.
    + split; reflexivity.
Qed.

(** A group followed by a dot: the token before the first dot, when it
    is in the language of the group. *)
Lemma alt_group_before_dot {R : Type} (alts : list (list DateTime.cls))
    (tok rest : pystr) (k : pystr -> pystr -> option R) (r : R) :
  forallb no_dot alts = true ->
  token_of alts tok = true ->
  k tok rest = Some r ->
  DateTime.alt_group alts (tok ++ 46%N :: rest)
    (fun t r1 =>
       match DateTime.match_seq DateTime.dot r1 with
       | None => None
       | Some (_, r2) => k t r2
       end)
  = Some r.
Proof.
  intros Hdots Htok Hk.
  unfold token_of in Htok. apply existsb_exists in Htok as [p [Hin Hp]].
  rewrite forallb_forall in Hdots.
  apply (alt_group_complete alts _ _ p tok (46%N :: rest) r Hin).
  - apply match_seq_in_classes. split; [reflexivity|exact Hp].
  - cbn [DateTime.match_seq DateTime.dot DateTime.cls_match].
    rewrite N.eqb_refl. exact Hk.
  - intros p' tok' rest' Hin' Hm' Hk'.
    apply match_seq_in_classes in Hm' as [Hs Hp'].
    destruct rest' as [|c rest'];
      [cbn [DateTime.match_seq DateTime.dot] in Hk'; congruence|].
    cbn [DateTime.match_seq DateTime.dot DateTime.cls_match] in Hk'.
    destruct (N.eqb_spec c 46) as [->|Hc]; [|congruence].
    destruct (first_dot_unique tok tok' rest rest' Hs) as [<- <-].
    + apply (in_classes_no_dot p tok Hp). apply Hdots. exact Hin.
    + apply (in_classes_no_dot p' tok' Hp'). apply Hdots. exact Hin'.
    + split; reflexivity.
Qed.

(** The three tokens with their dots are found as they are. *)
Lemma match_dmY_spelling (dd mm yy : pystr) :
  token_of DateTime.re_d dd = true ->
  token_of DateTime.re_m mm = true ->
  token_of DateTime.re_Y yy = true ->
  DateTime.match_dmY (dd ++ 46%N :: mm ++ 46%N :: yy) = Some (dd, mm, yy, []).
Proof.
  intros Hd Hm Hy. unfold DateTime.match_dmY.
  apply (alt_group_before_dot DateTime.re_d dd (mm ++ 46%N :: yy)
           (fun d r2 =>
              DateTime.alt_group DateTime.re_m r2 (fun m r3 =>
              match DateTime.match_seq DateTime.dot r3 with
              | None => None
              | Some (_, r4) =>
                  DateTime.alt_group DateTime.re_Y r4
                    (fun Y r5 => Some (d, m, Y, r5))
              end))); [reflexivity|exact Hd|].
  apply (alt_group_before_dot DateTime.re_m mm yy
           (fun m r4 =>
              DateTime.alt_group DateTime.re_Y r4
                (fun Y r5 => Some (dd, m, Y, r5)))); [reflexivity|exact Hm|].
  unfold token_of, DateTime.re_Y in *. cbn [existsb] in Hy.
  rewrite orb_false_r in Hy.
  cbn [DateTime.alt_group].
  assert (E : DateTime.match_seq [DateTime.Dec; DateTime.Dec; DateTime.Dec; DateTime.Dec] yy
              = Some (yy, []))
    by (apply match_seq_in_classes; split; [symmetry; apply app_nil_r|exact Hy]).
  rewrite E. reflexivity.
Qed.

(** What is found is three tokens with their dots, and the rest. *)
Lemma match_dmY_sound (s dd mm yy rest : pystr) :
  DateTime.match_dmY s = Some (dd, mm, yy, rest) ->
  s = dd ++ 46%N :: mm ++ 46%N :: yy ++ rest
  /\ token_of DateTime.re_d dd = true
  /\ token_of DateTime.re_m mm = true
  /\ token_of DateTime.re_Y yy = true.
Proof.
  unfold DateTime.match_dmY. intros H.
  apply alt_group_sound in H as [p1 [t1 [r1 [Hin1 [Hm1 H]]]]].
  apply match_seq_in_classes in Hm1 as [-> Hp1].
  destruct r1 as [|c1 r1]; [discriminate H|].
  cbn [DateTime.match_seq DateTime.dot DateTime.cls_match] in H.
  destruct (N.eqb_spec c1 46) as [->|_]; [|discriminate H].
  apply alt_group_sound in H as [p2 [t2 [r2 [Hin2 [Hm2 H]]]]].
  apply match_seq_in_classes in Hm2 as [-> Hp2].
  destruct r2 as [|c2 r2]; [discriminate H|].
  cbn [DateTime.match_seq DateTime.dot DateTime.cls_match] in H.
  destruct (N.eqb_spec c2 46) as [->|_]; [|discriminate H].
  apply alt_group_sound in H as [p3 [t3 [r3 [Hin3 [Hm3 H]]]]].
  apply match_seq_in_classes in Hm3 as [-> Hp3].
  injection H as <- <- <- <-.
  split; [reflexivity|]. unfold token_of.
  split; [apply existsb_exists; exists p1; split; assumption|].
  split; apply existsb_exists; [exists p2|exists p3]; split; assumption.
Qed.

(** *** The numbers of the tokens *)

Lemma todecimal_some (c d : N) :
  Unicode.todecimal c = Some d ->
  (d <= 9)%N
  /\ ((c <? 127)%N = true -> c = (48 + d)%N)
  /\ Unicode.isspace c = false.
Proof.
  unfold Unicode.todecimal.
  destruct (find (fun z => (z <=? c)%N && (c <=? z + 9)%N) Unicode.decimal_zeros)
    as [z|] eqn:E; [|discriminate].
  intros H. injection H as <-.
  apply find_some in E as [Hin Hrange].
  apply andb_true_iff in Hrange as [Hlo Hhi].
  apply N.leb_le in Hlo, Hhi.
  split; [lia|]. split.
  - intros Hc. apply N.ltb_lt in Hc.
    assert (Hall : decimals_above_ascii = true) by (vm_compute; reflexivity).
    unfold decimals_above_ascii in Hall. rewrite forallb_forall in Hall.
    specialize (Hall z Hin). apply orb_true_iff in Hall as [Hz|Hz].
    + apply N.eqb_eq in Hz. lia.
    + apply N.leb_le in Hz. lia.
  - assert (Hall : decimals_are_not_spaces = true) by (vm_compute; reflexivity).
    unfold decimals_are_not_spaces in Hall. rewrite forallb_forall in Hall.
    specialize (Hall z Hin). rewrite forallb_forall in Hall.
    unfold Unicode.isspace, Unicode.in_ranges.
    destruct (existsb (fun r => (fst r <=? c)%N && (c <=? snd r)%N)
                      Unicode.whitespace_ranges) eqn:Ex; [|reflexivity].
    apply existsb_exists in Ex as [r [Hr Hc]].
    apply andb_true_iff in Hc as [Hc1 Hc2]. apply N.leb_le in Hc1, Hc2.
    specialize (Hall r Hr). apply orb_true_iff in Hall as [Hz|Hz];
      apply N.ltb_lt in Hz; lia.
Qed.

Lemma to_ascii_decimal_decimals (ds : pystr) :
  forallb Unicode.isdecimal ds = true ->
  PyInt.to_ascii_decimal ds = map dg (map decimal_value ds)
  /\ Forall is_digit_value (map decimal_value ds).
Proof.
  induction ds as [|c ds IH]; cbn [forallb map PyInt.to_ascii_decimal].
  - intros _. split; [reflexivity|constructor].
  - intros H. apply andb_true_iff in H as [Hc Hds].
    destruct (IH Hds) as [IH1 IH2]. clear IH.
    unfold Unicode.isdecimal in Hc.
    destruct (Unicode.todecimal c) as [d|] eqn:E; [|discriminate].
    assert (Hv : decimal_value c = Z.of_N d)
      by (unfold decimal_value; rewrite E; reflexivity).
    rewrite Hv.
    destruct (todecimal_some c d E) as [Hd [Hascii Hsp]].
    assert (Hdg : dg (Z.of_N d) = (48 + d)%N) by (unfold dg; lia).
    split.
    + rewrite Hdg, IH1. destruct (c <? 127)%N.
      * rewrite (Hascii eq_refl). reflexivity.
      * rewrite Hsp. reflexivity.
    + constructor; [unfold is_digit_value; lia|exact IH2].
Qed.

Lemma token_value_decimals (ds : pystr) (acc : Z) :
  forallb Unicode.isdecimal ds = true ->
  fold_left (fun a c =>
               match Unicode.todecimal c with
               | Some d => (10 * a + Z.of_N d)%Z
               | None => a
               end) ds acc
  = fold_left (fun a z => (10 * a + z)%Z) (map decimal_value ds) acc.
Proof.
  revert acc. induction ds as [|c ds IH]; intros acc; cbn [forallb map fold_left].
  - reflexivity.
  - intros H. apply andb_true_iff in H as [Hc Hds].
    unfold Unicode.isdecimal in Hc.
    destruct (Unicode.todecimal c) as [d|] eqn:E; [|discriminate].
    assert (Hv : decimal_value c = Z.of_N d)
      by (unfold decimal_value; rewrite E; reflexivity).
    rewrite Hv. apply IH. exact Hds.
Qed.

(** [int] on a string that comes to ASCII digits once its decimal
    digits are transformed and the whitespace before them is passed. *)
Lemma int_of_digits (s : pystr) (z : Z) (zs : list Z) :
  Forall is_digit_value (z :: zs) ->
  length (z :: zs) <= PyInt.max_str_digits ->
  PyStr.dropwhile Unicode.c_isspace (PyInt.to_ascii_decimal s) = map dg (z :: zs) ->
  PyInt.int s = Ok (digits_value (z :: zs)).
Proof.
  intros H Hlen Hs. unfold PyInt.int. rewrite Hs.
  assert (Hz : is_digit_value z) by (inversion H; assumption).
  destruct (dg_facts z Hz) as [_ [Hsp [Hplus [Hminus [Hus _]]]]].
  assert (Hsign : PyInt.split_sign (map dg (z :: zs)) = (false, map dg (z :: zs))).
  { cbn [map]. unfold PyInt.split_sign. rewrite Hplus, Hminus. reflexivity. }
  rewrite Hsign. cbn [fst snd].
  assert (Hstart : PyInt.starts_with 95 (map dg (z :: zs)) = false)
    by (cbn [map PyInt.starts_with]; exact Hus).
  rewrite Hstart, (scan_digits_digits _ 0 0%Z H).
  destruct (Nat.ltb_spec PyInt.max_str_digits (0 + length (z :: zs))) as [Hlt|_];
    [simpl in Hlt, Hlen; lia|].
  reflexivity.
Qed.

(** [int] reads the number a token of decimal digits spells, with or
    without a space before it. *)
Lemma int_decimals (lead : bool) (ds : pystr) :
  forallb Unicode.isdecimal ds = true -> ds <> [] ->
  length ds <= PyInt.max_str_digits ->
  PyInt.int ((if lead then [32%N] else []) ++ ds)
  = Ok (token_value ((if lead then [32%N] else []) ++ ds)).
Proof.
  intros Hds Hne Hlen.
  destruct (to_ascii_decimal_decimals ds Hds) as [Hascii Hdigits].
  assert (Hval : token_value ((if lead then [32%N] else []) ++ ds)
                 = digits_value (map decimal_value ds)).
  { unfold token_value, digits_value.
    destruct lead; cbn [app fold_left];
      [change (Unicode.todecimal 32) with (@None N); cbv iota|];
      apply token_value_decimals; exact Hds. }
  rewrite Hval.
  destruct ds as [|c ds]; [contradiction|]. cbn [map] in *.
  apply int_of_digits;
    [exact Hdigits|cbn [length] in *; rewrite length_map; exact Hlen|].
  assert (Hfirst : Unicode.c_isspace (dg (decimal_value c)) = false).
  { inversion Hdigits as [|? ? Hz _]; subst. apply (dg_facts _ Hz). }
  destruct lead; cbn [app PyInt.to_ascii_decimal].
  - change (32 <? 127)%N with true. cbv iota.
    cbn [PyInt.to_ascii_decimal] in Hascii. rewrite Hascii.
    cbn [PyStr.dropwhile]. change (Unicode.c_isspace 32) with true. cbv iota.
    cbn [PyStr.dropwhile]. rewrite Hfirst. reflexivity.
  - cbn [PyInt.to_ascii_decimal] in Hascii. rewrite Hascii.
    cbn [PyStr.dropwhile]. rewrite Hfirst. reflexivity.
Qed.

Lemma cls_decimal_isdecimal (k : DateTime.cls) (c : N) :
  DateTime.cls_match k c = true -> cls_decimal k = true ->
  Unicode.isdecimal c = true.
Proof.
  destruct k as [x|lo hi|]; cbn [DateTime.cls_match cls_decimal].
  - intros H. apply N.eqb_eq in H. subst x. exact (fun H => H).
  - intros H Hk. apply andb_true_iff in H as [H1 H2].
    apply andb_true_iff in Hk as [H3 H4].
    apply N.leb_le in H1, H2, H3, H4.
    assert (Hz : is_digit_value (Z.of_N c - 48)) by (unfold is_digit_value; lia).
    replace c with (dg (Z.of_N c - 48)) by (unfold dg; lia).
    apply (dg_facts _ Hz).
  - intros H _. exact H.
Qed.

Lemma in_classes_decimals (p : list DateTime.cls) (tok : pystr) :
  in_classes p tok = true -> forallb cls_decimal p = true ->
  forallb Unicode.isdecimal tok = true /\ length tok = length p.
Proof.
  revert tok. induction p as [|k p IH]; intros [|c tok]; cbn [in_classes forallb];
    try discriminate; [intros _ _; split; reflexivity|].
  intros H Hp. apply andb_true_iff in H as [Hc Htok].
  apply andb_true_iff in Hp as [Hk Hp].
  destruct (IH tok Htok Hp) as [IH1 IH2].
  rewrite (cls_decimal_isdecimal k c Hc Hk), IH1. cbn [length]. rewrite IH2.
  split; reflexivity.
Qed.

Lemma in_classes_int (p : list DateTime.cls) (tok : pystr) :
  in_classes p tok = true ->
  p <> [] -> length p <= PyInt.max_str_digits ->
  forallb cls_decimal p = true ->
  PyInt.int tok = Ok (token_value tok).
Proof.
  intros Htok Hne Hlen Hp.
  destruct (in_classes_decimals p tok Htok Hp) as [Hds Hl].
  apply (int_decimals false tok Hds).
  - destruct tok; [destruct p; [contradiction|discriminate]|discriminate].
  - rewrite Hl. exact Hlen.
Qed.

(** [int] reads the number of every token of the three groups. *)
Lemma token_int (tok : pystr) :
  token_of DateTime.re_d tok = true \/ token_of DateTime.re_m tok = true
  \/ token_of DateTime.re_Y tok = true ->
  PyInt.int tok = Ok (token_value tok).
Proof.
  assert (Hlen : forall p : list DateTime.cls, length p <= 4 ->
                   length p <= PyInt.max_str_digits)
    by (unfold PyInt.max_str_digits; lia).
  unfold token_of, DateTime.re_d, DateTime.re_m, DateTime.re_Y.
  cbn [existsb]. rewrite !orb_false_r.
  intros [H|[H|H]].
  - repeat (apply orb_true_iff in H as [H|H]);
      try (apply (in_classes_int _ tok H);
           [discriminate|apply Hlen; simpl; lia|reflexivity]).
    destruct tok as [|a tok]; [discriminate|].
    cbn [in_classes DateTime.cls_match] in H.
    apply andb_true_iff in H as [Ha H]. apply N.eqb_eq in Ha. subst a.
    destruct (in_classes_decimals [DateTime.Rng 49 57] tok H eq_refl) as [Hds Hl].
    apply (int_decimals true tok Hds).
    + destruct tok; discriminate.
    + rewrite Hl. apply Hlen. simpl. lia.
  - repeat (apply orb_true_iff in H as [H|H]);
      apply (in_classes_int _ tok H);
      [discriminate|apply Hlen; simpl; lia|reflexivity
      |discriminate|apply Hlen; simpl; lia|reflexivity
      |discriminate|apply Hlen; simpl; lia|reflexivity].
  - apply (in_classes_int _ tok H);
      [discriminate|apply Hlen; simpl; lia|reflexivity].
Qed.

(** [Birthday] accepts exactly the strings that spell a date of the
    calendar, and stores that date. *)
Lemma new_Birthday_spells (s : pystr) (b : Birthday) :
  new_Birthday s = Ok b
  <-> exists y m d,
        spells s y m d /\ valid_date y m d /\ b = mkField (midnight y m d).
Proof.
  split.
  - unfold new_Birthday, DateTime.strptime_dmY.
    destruct (DateTime.match_dmY s) as [[[[dd mm] yy] rest]|] eqn:Em;
      [|discriminate].
    destruct rest; [|discriminate].
    apply match_dmY_sound in Em as [Hs [Hd [Hm Hy]]].
    rewrite app_nil_r in Hs.
    rewrite (token_int dd (or_introl Hd)).
    rewrite (token_int mm (or_intror (or_introl Hm))).
    rewrite (token_int yy (or_intror (or_intror Hy))). cbn [bind].
    destruct (DateTime.check_date_fields (token_value yy) (token_value mm)
                                         (token_value dd)) as [[]|e] eqn:E;
      cbn [bind]; [|destruct (exn_cls e); discriminate].
    intros H. injection H as <-.
    exists (token_value yy), (token_value mm), (token_value dd).
    split; [exists dd, mm, yy; repeat split; assumption|].
    split; [apply check_date_fields_valid; exact E|reflexivity].
  - intros [y [m [d [[dd [mm [yy [-> [Hd [Hm [Hy [<- [<- <-]]]]]]]]] [Hv ->]]]]].
    unfold new_Birthday, DateTime.strptime_dmY.
    rewrite (match_dmY_spelling dd mm yy Hd Hm Hy).
    rewrite (token_int dd (or_introl Hd)).
    rewrite (token_int mm (or_intror (or_introl Hm))).
    rewrite (token_int yy (or_intror (or_intror Hy))). cbn [bind].
    apply check_date_fields_valid in Hv. rewrite Hv. reflexivity.
Qed.

(** C4, as the code has it: the zero-padded spelling DD.MM.YYYY of a
    valid date with a year from 1000 on is accepted and is formatted back
    to itself; whatever string is accepted denotes a valid date and is
    formatted back to the zero-padded spelling of that date (for a year
    from 1000 on), which is accepted in turn; the strings accepted are
    exactly those that spell a date of the calendar, a day token, a month
    token and a year token with dots between, and what is stored is that
    date; every other string fails with the [ValueError] of the class. *)
Theorem Birthday_round_trip (s : pystr) :
  (forall y m d,
     valid_date y m d -> (1000 <= y)%Z -> s = padded y m d ->
     new_Birthday s = Ok (mkField (midnight y m d))
     /\ DateTime.strftime_dmY (midnight y m d) = s)
  /\ (forall b,
        new_Birthday s = Ok b ->
        exists y m d,
          valid_date y m d /\ value b = midnight y m d
          /\ ((1000 <= y)%Z ->
              DateTime.strftime_dmY (value b) = padded y m d
              /\ new_Birthday (padded y m d) = Ok b))
  /\ ((exists b, new_Birthday s = Ok b)
      \/ new_Birthday s = raise_ValueError date_error)
  /\ (forall b,
        new_Birthday s = Ok b
        <-> exists y m d,
              spells s y m d /\ valid_date y m d
              /\ b = mkField (midnight y m d))
  /\ (~ (exists y m d, spells s y m d /\ valid_date y m d) ->
      new_Birthday s = raise_ValueError date_error).
Proof.
  split; [|split; [|split; [|split]]].
  - intros y m d Hvalid Hy ->. apply new_Birthday_padded; assumption.
  - intros b Hb. destruct (new_Birthday_ok s b Hb) as [y [m [d [Hvalid Hval]]]].
    exists y, m, d. split; [exact Hvalid|]. split; [exact Hval|].
    intros Hy. destruct (new_Birthday_padded y m d Hvalid Hy) as [H1 H2].
    rewrite Hval. split; [exact H2|]. rewrite H1.
    destruct b as [t]. simpl in Hval. subst t. reflexivity.
  - apply new_Birthday_fails_with_date_error.
  - intros b. apply new_Birthday_spells.
  - intros Hno.
    destruct (new_Birthday_fails_with_date_error s) as [[b Hb]|H]; [|exact H].
    exfalso. apply Hno.
    apply new_Birthday_spells in Hb as [y [m [d [Hs [Hv _]]]]].
    exists y, m, d. split; assumption.
Qed.

Lemma Birthday_round_trip_witness :
  new_Birthday (lit "25.12.1990") = Ok (mkField (midnight 1990 12 25))
  /\ DateTime.strftime_dmY (midnight 1990 12 25) = lit "25.12.1990".
Proof.
  apply (Birthday_round_trip (lit "25.12.1990")).
  - unfold valid_date. vm_compute. intuition discriminate.
  - lia.
  - reflexivity.
Defined.

(** C4 as stated fails on a date spelt without the leading zeros: it is
    accepted, and comes back as [01.01.2000]; and a string of the
    day.month.year shape is not accepted when the month has no such
    day. *)
Lemma Birthday_unpadded_comes_back_padded :
  new_Birthday (lit "1.1.2000") = Ok (mkField (midnight 2000 1 1))
  /\ DateTime.strftime_dmY (midnight 2000 1 1) <> lit "1.1.2000"
  /\ new_Birthday (lit "31.02.2000") = raise_ValueError date_error.
Proof.
  split; [reflexivity|]. split; [|reflexivity].
  vm_compute. discriminate.
Qed.

(** ** Birthdays seen from a clock at midnight *)

Lemma days_before_month_mono (y m m' : Z) :
  (1 <= m < m')%Z -> (m' <= 12)%Z ->
  (DateTime.days_before_month y m + DateTime.days_in_month y m
   <= DateTime.days_before_month y m')%Z.
Proof.
  intros H H'.
  change (days_before_month_of (DateTime.is_leap y) m
          + days_in_month_of (DateTime.is_leap y) m
          <= days_before_month_of (DateTime.is_leap y) m')%Z.
  assert (Hall : months_in_order (DateTime.is_leap y) = true)
    by (destruct (DateTime.is_leap y); vm_compute; reflexivity).
  unfold months_in_order in Hall.
  pose proof (zrange_forall _ 1 12 Hall m ltac:(lia)) as Hm. cbv beta in Hm.
  pose proof (zrange_forall _ 1 12 Hm m' ltac:(lia)) as Hmm'. cbv beta in Hmm'.
  replace (m <? m')%Z with true in Hmm' by (symmetry; apply Z.ltb_lt; lia).
  apply Z.leb_le. exact Hmm'.
Qed.

(** Two midnights of the same year compare as their day numbers. *)
Lemma ltb_same_year (y m d m' d' : Z) :
  valid_date y m d -> valid_date y m' d' ->
  DateTime.ltb (midnight y m d) (midnight y m' d')
  = (DateTime.ymd_to_ord y m d <? DateTime.ymd_to_ord y m' d')%Z.
Proof.
  intros [_ [Hm Hd]] [_ [Hm' Hd']].
  unfold DateTime.ltb, DateTime.fields, midnight, DateTime.ymd_to_ord.
  cbn [DateTime.lex_ltb DateTime.year DateTime.month DateTime.day DateTime.hour
       DateTime.minute DateTime.second DateTime.microsecond].
  rewrite Z.ltb_irrefl, Z.eqb_refl. cbn [orb andb].
  change (0 <? 0)%Z with false. change (0 =? 0)%Z with true. cbn [orb andb].
  rewrite !andb_false_r, !orb_false_r.
  destruct (Z.lt_trichotomy m m') as [Hlt|[Heq|Hgt]].
  - pose proof (days_before_month_mono y m m' (conj (proj1 Hm) Hlt) (proj2 Hm')).
    replace (m <? m')%Z with true by (symmetry; apply Z.ltb_lt; lia).
    symmetry. apply Z.ltb_lt. lia.
  - subst m'.
    rewrite Z.ltb_irrefl, Z.eqb_refl. cbn [orb andb].
    destruct (d <? d')%Z eqn:E.
    + apply Z.ltb_lt in E. symmetry. apply Z.ltb_lt. lia.
    + apply Z.ltb_ge in E. symmetry. apply Z.ltb_ge. lia.
  - pose proof (days_before_month_mono y m' m (conj (proj1 Hm') Hgt) (proj2 Hm)).
    replace (m <? m')%Z with false by (symmetry; apply Z.ltb_ge; lia).
    replace (m =? m')%Z with false by (symmetry; apply Z.eqb_neq; lia).
    symmetry. apply Z.ltb_ge. lia.
Qed.

Lemma replace_year_midnight (y m d y' : Z) :
  valid_date y' m d ->
  DateTime.replace_year (midnight y m d) y' = Ok (midnight y' m d).
Proof.
  intros H. unfold DateTime.replace_year, midnight.
  cbn [DateTime.year DateTime.month DateTime.day DateTime.hour DateTime.minute
       DateTime.second DateTime.microsecond].
  apply check_date_fields_valid in H. rewrite H. reflexivity.
Qed.

Lemma sub_midnights (y m d y' m' d' : Z) :
  DateTime.days (DateTime.sub (midnight y m d) (midnight y' m' d'))
  = (DateTime.ymd_to_ord y m d - DateTime.ymd_to_ord y' m' d')%Z.
Proof.
  unfold DateTime.sub, DateTime.new_delta, DateTime.seconds_of_day,
    DateTime.toordinal, midnight.
  cbn [DateTime.days DateTime.year DateTime.month DateTime.day DateTime.hour
       DateTime.minute DateTime.second DateTime.microsecond].
  change (0 * 3600 + 0 * 60 + 0 - (0 * 3600 + 0 * 60 + 0))%Z with 0%Z.
  change ((0 + (0 - 0) / 1000000) / 86400)%Z with 0%Z.
  lia.
Qed.

Lemma midnight_eta (t : DateTime.datetime) :
  at_midnight t ->
  t = midnight (DateTime.year t) (DateTime.month t) (DateTime.day t).
Proof.
  destruct t as [y m d h mi s us]. unfold at_midnight, midnight. simpl.
  intros [-> [-> [-> ->]]]. reflexivity.
Qed.

(** At midnight the next occurrence the code computes is the one of the
    claims' reading, and the days are counted between the two dates. *)
Lemma next_birthday_at_midnight (today : DateTime.datetime) (b : Birthday) :
  at_midnight today -> valid_day today -> (DateTime.year today < 9999)%Z ->
  at_midnight (value b) -> valid_day (value b) ->
  occurs_in (DateTime.year today) (value b) ->
  occurs_in (DateTime.year today + 1) (value b) ->
  exists nb,
    next_birthday today b = Ok nb
    /\ DateTime.days (DateTime.sub nb today)
       = (spec_next_occurrence today (value b) - DateTime.toordinal today)%Z.
Proof.
  intros Ht Hvt Hy Hb Hvb Ho Ho'.
  rewrite (midnight_eta today Ht).
  destruct b as [t]. cbn [value] in *.
  rewrite (midnight_eta t Hb) in *.
  unfold valid_day, occurs_in, midnight in Hvt, Hvb, Ho, Ho'.
  cbn [DateTime.year DateTime.month DateTime.day] in Hvt, Hvb, Ho, Ho'.
  set (y := DateTime.year today) in *. set (m := DateTime.month today) in *.
  set (d := DateTime.day today) in *.
  set (bm := DateTime.month t) in *. set (bd := DateTime.day t) in *.
  assert (Hthis : valid_date y bm bd) by (unfold valid_date in *; lia).
  assert (Hnext : valid_date (y + 1) bm bd) by (unfold valid_date in *; lia).
  unfold next_birthday, spec_next_occurrence, DateTime.toordinal.
  cbn [value midnight DateTime.year DateTime.month DateTime.day].
  fold (midnight (DateTime.year t) bm bd). fold (midnight y m d).
  rewrite (replace_year_midnight _ _ _ _ Hthis). cbn [bind].
  rewrite (ltb_same_year y bm bd m d Hthis Hvt).
  destruct (DateTime.ymd_to_ord y bm bd <? DateTime.ymd_to_ord y m d)%Z.
  - change (DateTime.year (midnight y m d)) with y.
    rewrite (replace_year_midnight _ _ _ _ Hnext).
    eexists. split; [reflexivity|]. apply sub_midnights.
  - eexists. split; [reflexivity|]. apply sub_midnights.
Qed.

(** At midnight [days_to_birthday] counts as the claim of C6 says. *)
Lemma days_to_birthday_at_midnight (today : DateTime.datetime) (r : Record_) :
  at_midnight today -> valid_day today -> (DateTime.year today < 9999)%Z ->
  plain_birthday today r ->
  Record_days_to_birthday today r = Ok (spec_days_to_birthday today r).
Proof.
  intros Ht Hvt Hy Hr.
  unfold Record_days_to_birthday, spec_days_to_birthday, plain_birthday in *.
  destruct (birthday r) as [b|]; [|reflexivity].
  destruct Hr as [Hb [Hvb [Ho Ho']]].
  destruct (next_birthday_at_midnight today b Ht Hvt Hy Hb Hvb Ho Ho')
    as [nb [-> Hdays]].
  cbn [bind]. rewrite Hdays. reflexivity.
Qed.

Lemma upcoming_loop_at_midnight (today : DateTime.datetime) (days : Z)
    (recs acc : list Record_) :
  at_midnight today -> valid_day today -> (DateTime.year today < 9999)%Z ->
  Forall (plain_birthday today) recs ->
  upcoming_loop today days recs acc
  = Ok (acc ++ filter (fun r =>
                         match spec_days_to_birthday today r with
                         | Some d => ((0 <=? d) && (d <=? days))%Z
                         | None => false
                         end) recs).
Proof.
  intros Ht Hvt Hy Hrecs. revert acc.
  induction Hrecs as [|r recs Hr _ IH]; intros acc.
  - simpl. rewrite app_nil_r. reflexivity.
  - cbn [upcoming_loop filter]. unfold spec_days_to_birthday at 1.
    unfold plain_birthday in Hr.
    destruct (birthday r) as [b|]; [|apply IH].
    destruct Hr as [Hb [Hvb [Ho Ho']]].
    destruct (next_birthday_at_midnight today b Ht Hvt Hy Hb Hvb Ho Ho')
      as [nb [-> Hdays]].
    cbn [bind]. rewrite Hdays.
    destruct ((0 <=? spec_next_occurrence today (value b) - DateTime.toordinal today)
              && (spec_next_occurrence today (value b) - DateTime.toordinal today
                  <=? days))%Z.
    + rewrite IH, <- app_assoc. reflexivity.
    + apply IH.
Qed.

(** At midnight [get_upcoming_birthdays] returns what the claim of C1
    says, in the order of the book. *)
Lemma get_upcoming_birthdays_at_midnight (today : DateTime.datetime) (days : Z)
    (book : AddressBook) :
  at_midnight today -> valid_day today -> (DateTime.year today < 9999)%Z ->
  Forall (plain_birthday today) (dict_values book) ->
  AddressBook_get_upcoming_birthdays today days book
  = Ok (spec_upcoming_birthdays today days book).
Proof.
  intros Ht Hvt Hy Hbook. unfold AddressBook_get_upcoming_birthdays.
  rewrite (upcoming_loop_at_midnight today days _ [] Ht Hvt Hy Hbook).
  reflexivity.
Qed.

(** * Further properties of the code *)

(** ** The dictionary of the book: insertion, lookup, deletion *)

Lemma dict_get_set_other (k k' : pystr) (v : Record_) (d : AddressBook) :
  k' <> k -> dict_get k' (dict_set k v d) = dict_get k' d.
Proof.
  intros Hne. induction d as [|[k0 v0] d IH]; simpl.
  - destruct (PyStr.eqb k k') eqn:E; [|reflexivity].
    apply eqb_eq in E. congruence.
  - destruct (PyStr.eqb k0 k) eqn:E; simpl.
    + apply eqb_eq in E. subst k0.
      destruct (PyStr.eqb k k') eqn:E'; [|reflexivity].
      apply eqb_eq in E'. congruence.
    + rewrite IH. reflexivity.
Qed.

Lemma dict_get_none (k : pystr) (d : AddressBook) :
  dict_get k d = None <-> ~ In k (dict_keys d).
Proof.
  unfold dict_keys. induction d as [|[k0 v0] d IH]; simpl.
  - tauto.
  - destruct (PyStr.eqb k0 k) eqn:E.
    + apply eqb_eq in E. split; [discriminate|]. intros H. exfalso. apply H.
      left. exact E.
    + apply eqb_neq in E. rewrite IH. tauto.
Qed.

Lemma dict_set_keys_present (k : pystr) (v r : Record_) (d : AddressBook) :
  dict_get k d = Some r -> dict_keys (dict_set k v d) = dict_keys d.
Proof.
  unfold dict_keys. induction d as [|[k0 v0] d IH]; simpl; [discriminate|].
  destruct (PyStr.eqb k0 k); simpl; [reflexivity|].
  intros H. rewrite (IH H). reflexivity.
Qed.

Lemma dict_set_keys_absent (k : pystr) (v : Record_) (d : AddressBook) :
  dict_get k d = None -> dict_keys (dict_set k v d) = dict_keys d ++ [k].
Proof.
  intros H. rewrite (dict_set_absent _ _ _ H). unfold dict_keys.
  rewrite map_app. reflexivity.
Qed.

Lemma dict_set_NoDup (k : pystr) (v : Record_) (d : AddressBook) :
  NoDup (dict_keys d) -> NoDup (dict_keys (dict_set k v d)).
Proof.
  intros H. destruct (dict_get k d) as [r|] eqn:E.
  - rewrite (dict_set_keys_present _ v _ _ E). exact H.
  - rewrite (dict_set_keys_absent _ v _ E).
    apply dict_get_none in E.
    apply NoDup_rev in H. rewrite <- (rev_involutive (dict_keys d ++ [k])).
    apply NoDup_rev. rewrite rev_app_distr. simpl.
    constructor; [|exact H]. rewrite <- in_rev. exact E.
Qed.

Lemma dict_del_keys_subset (k k' : pystr) (d : AddressBook) :
  In k' (dict_keys (dict_del k d)) -> In k' (dict_keys d).
Proof.
  unfold dict_keys. induction d as [|[k0 v0] d IH]; simpl; [tauto|].
  destruct (PyStr.eqb k0 k); simpl; [tauto|].
  intros [H|H]; [left; exact H|right; apply IH; exact H].
Qed.

Lemma dict_del_NoDup (k : pystr) (d : AddressBook) :
  NoDup (dict_keys d) -> NoDup (dict_keys (dict_del k d)).
Proof.
  unfold dict_keys. induction d as [|[k0 v0] d IH]; simpl; [trivial|].
  intros H. inversion H as [|? ? Hnin Hd]; subst.
  destruct (PyStr.eqb k0 k); simpl; [exact Hd|].
  constructor; [|apply IH; exact Hd].
  intros Hin. apply Hnin. apply (dict_del_keys_subset k). exact Hin.
Qed.

Lemma dict_get_del_other (k k' : pystr) (d : AddressBook) :
  k' <> k -> dict_get k' (dict_del k d) = dict_get k' d.
Proof.
  intros Hne. induction d as [|[k0 v0] d IH]; simpl; [reflexivity|].
  destruct (PyStr.eqb k0 k) eqn:E; simpl.
  - apply eqb_eq in E. subst k0.
    destruct (PyStr.eqb k k') eqn:E'; [|reflexivity].
    apply eqb_eq in E'. congruence.
  - rewrite IH. reflexivity.
Qed.

Lemma dict_get_del_same (k : pystr) (d : AddressBook) :
  NoDup (dict_keys d) -> dict_get k (dict_del k d) = None.
Proof.
  unfold dict_keys. induction d as [|[k0 v0] d IH]; simpl; [reflexivity|].
  intros H. inversion H as [|? ? Hnin Hd]; subst.
  destruct (PyStr.eqb k0 k) eqn:E; simpl.
  - apply eqb_eq in E. subst k0. apply dict_get_none. exact Hnin.
  - rewrite E. apply IH. exact Hd.
Qed.

Lemma dict_del_absent (k : pystr) (d : AddressBook) :
  dict_get k d = None -> dict_del k d = d.
Proof.
  induction d as [|[k0 v0] d IH]; simpl; [reflexivity|].
  destruct (PyStr.eqb k0 k); [discriminate|].
  intros H. rewrite (IH H). reflexivity.
Qed.

(** X1: after [add_record] the record is found under its own name, every
    other name is found as before, a name already in the book keeps its
    place and a new one goes last, and the keys stay distinct. *)
Theorem add_record_then_find (record : Record_) (book : AddressBook) :
  AddressBook_find (value (name record)) (AddressBook_add_record record book)
  = Some record
  /\ (forall k, k <> value (name record) ->
        AddressBook_find k (AddressBook_add_record record book)
        = AddressBook_find k book)
  /\ dict_keys (AddressBook_add_record record book)
     = match AddressBook_find (value (name record)) book with
       | Some _ => dict_keys book
       | None => dict_keys book ++ [value (name record)]
       end
  /\ (NoDup (dict_keys book) ->
      NoDup (dict_keys (AddressBook_add_record record book))).
Proof.
  unfold AddressBook_find, AddressBook_add_record.
  split; [apply dict_get_set|].
  split; [intros k Hk; apply dict_get_set_other; exact Hk|].
  split; [|apply dict_set_NoDup].
  destruct (dict_get (value (name record)) book) as [r|] eqn:E.
  - apply (dict_set_keys_present _ _ _ _ E).
  - apply (dict_set_keys_absent _ _ _ E).
Qed.

(** X2: in a book with distinct keys, after [delete] the name is not
    found, every other name is found as before and the keys stay
    distinct; deleting a name the book does not have changes nothing. *)
Theorem delete_then_find (n : pystr) (book : AddressBook) :
  NoDup (dict_keys book) ->
  AddressBook_find n (AddressBook_delete n book) = None
  /\ (forall k, k <> n ->
        AddressBook_find k (AddressBook_delete n book) = AddressBook_find k book)
  /\ NoDup (dict_keys (AddressBook_delete n book))
  /\ (AddressBook_find n book = None -> AddressBook_delete n book = book).
Proof.
  intros H. unfold AddressBook_find, AddressBook_delete.
  split; [apply dict_get_del_same; exact H|].
  split; [intros k Hk; apply dict_get_del_other; exact Hk|].
  split; [apply dict_del_NoDup; exact H|apply dict_del_absent].
Qed.

Lemma delete_then_find_witness :
  AddressBook_find (lit "Ann") (AddressBook_delete (lit "Ann") book_ann_ben) = None
  /\ AddressBook_find (lit "Ben") (AddressBook_delete (lit "Ann") book_ann_ben)
     = Some ben.
Proof.
  destruct (delete_then_find (lit "Ann") book_ann_ben) as [H1 [H2 _]].
  - repeat constructor; simpl; intuition discriminate.
  - split; [exact H1|]. rewrite H2; [reflexivity|discriminate].
Defined.

(** ** [add], and [phone] after it *)

Lemma dict_set_set (k : pystr) (v v' : Record_) (d : AddressBook) :
  dict_set k v' (dict_set k v d) = dict_set k v' d.
Proof.
  induction d as [|[k0 v0] d IH]; simpl.
  - rewrite eqb_refl. reflexivity.
  - destruct (PyStr.eqb k0 k) eqn:E; simpl; rewrite E; [reflexivity|].
    rewrite IH. reflexivity.
Qed.

Lemma new_Phone_ok (phone : pystr) :
  phone_ok phone -> new_Phone phone = Ok (mkField phone).
Proof.
  intros [Hlen Hd]. unfold new_Phone.
  rewrite (isdigit_ten phone Hlen), Hd, Hlen. reflexivity.
Qed.

Lemma phone_ok_isdigit (phone : pystr) :
  phone_ok phone -> PyStr.isdigit phone = true.
Proof. intros [Hlen Hd]. rewrite (isdigit_ten phone Hlen). exact Hd. Qed.

Lemma add_contact_valid_phone
    (book : AddressBook) (n phone : pystr) (more : list pystr) :
  phone_ok phone ->
  add_contact (n :: phone :: more) book
  = (Ok (match AddressBook_find n book with
         | Some _ => lit "Contact updated."
         | None => lit "Contact added."
         end),
     dict_set n (with_phone (found_or_new n book) phone) book).
Proof.
  intros Hok.
  unfold add_contact, input_error, add_contact_func, found_or_new.
  cbn [length Nat.ltb Nat.leb nth orb unpack2_star].
  rewrite (phone_ok_isdigit phone Hok). cbn [negb].
  unfold Record_add_phone, store_record, AddressBook_add_record.
  rewrite (new_Phone_ok phone Hok). cbn [bind].
  destruct (AddressBook_find n book) as [r|]; cbn [fst snd catch_errors].
  - reflexivity.
  - cbn [new_Record name new_Name value]. rewrite dict_set_set. reflexivity.
Qed.

(** X3: [add] with a phone that [Phone] accepts answers "Contact added."
    for a new name and "Contact updated." for a name of the book; the
    record of that name, new or found, gets the phone at the end of its
    list and keeps the rest; every other name is found as before. *)
Theorem add_contact_appends_phone
    (book : AddressBook) (n phone : pystr) (more : list pystr) :
  phone_ok phone ->
  add_contact (n :: phone :: more) book
  = (Ok (match AddressBook_find n book with
         | Some _ => lit "Contact updated."
         | None => lit "Contact added."
         end),
     dict_set n (with_phone (found_or_new n book) phone) book)
  /\ AddressBook_find n (snd (add_contact (n :: phone :: more) book))
     = Some (with_phone (found_or_new n book) phone)
  /\ (forall k, k <> n ->
        AddressBook_find k (snd (add_contact (n :: phone :: more) book))
        = AddressBook_find k book).
Proof.
  intros Hok. rewrite (add_contact_valid_phone book n phone more Hok).
  cbn [snd]. unfold AddressBook_find.
  split; [reflexivity|]. split; [apply dict_get_set|].
  intros k Hk. apply dict_get_set_other. exact Hk.
Qed.

Lemma add_contact_appends_phone_witness :
  add_contact [lit "Bob"; lit "0501234567"] []
  = (Ok (lit "Contact added."),
     [(lit "Bob", mkRecord (new_Name (lit "Bob")) [mkField (lit "0501234567")] None)]).
Proof.
  apply (add_contact_appends_phone [] (lit "Bob") (lit "0501234567") []).
  split; reflexivity.
Defined.

Lemma join_last_not_nil (sep p : pystr) (l : list pystr) :
  p <> [] -> PyStr.join sep (l ++ [p]) <> [].
Proof.
  intros Hp. induction l as [|w l IH]; simpl; [exact Hp|].
  destruct (l ++ [p]) eqn:E; [destruct l; discriminate|].
  intros H. apply app_eq_nil in H as [_ H]. apply app_eq_nil in H as [_ H].
  exact (IH H).
Qed.

Lemma add_all_found (n : pystr) (ps : list pystr) (book : AddressBook) (r : Record_) :
  Forall phone_ok ps ->
  AddressBook_find n book = Some r ->
  AddressBook_find n (add_all n ps book)
  = Some (mkRecord (name r) (phones r ++ map mkField ps) (birthday r)).
Proof.
  intros Hps. revert book r. induction Hps as [|p ps Hp _ IH]; intros book r Hr.
  - simpl. rewrite app_nil_r. rewrite Hr. destruct r; reflexivity.
  - cbn [add_all].
    assert (Hfind : AddressBook_find n (snd (add_contact [n; p] book))
                    = Some (with_phone (found_or_new n book) p))
      by (rewrite (add_contact_valid_phone book n p [] Hp); apply dict_get_set).
    unfold found_or_new in Hfind. rewrite Hr in Hfind.
    rewrite (IH _ _ Hfind). unfold with_phone.
    cbn [name phones birthday map]. rewrite <- app_assoc. reflexivity.
Qed.

(** X4: after [add] of a name the book does not have with phones that
    [Phone] accepts, one after the other, [phone] of that name lists
    them all, in the order they were added. *)
Theorem add_all_then_phone
    (book : AddressBook) (n p : pystr) (ps more : list pystr) :
  Forall phone_ok (p :: ps) ->
  AddressBook_find n book = None ->
  show_phones (n :: more) (add_all n (p :: ps) book)
  = (Ok (lit "Contact " ++ n ++ lit "'s phones: "
           ++ PyStr.join (lit ", ") (p :: ps)),
     add_all n (p :: ps) book).
Proof.
  intros Hps Hnone. inversion Hps as [|? ? Hp Hps']; subst.
  assert (Hfind : AddressBook_find n (add_all n (p :: ps) book)
                  = Some (mkRecord (new_Name n) (map mkField (p :: ps)) None)).
  { cbn [add_all].
    assert (Hfind : AddressBook_find n (snd (add_contact [n; p] book))
                    = Some (with_phone (found_or_new n book) p))
      by (rewrite (add_contact_valid_phone book n p [] Hp); apply dict_get_set).
    unfold found_or_new in Hfind. rewrite Hnone in Hfind.
    rewrite (add_all_found n ps _ _ Hps' Hfind). reflexivity. }
  unfold show_phones, input_error, show_phones_func.
  cbn [unpack1_star]. rewrite Hfind. cbn [phones fst snd].
  rewrite map_map. cbn [value]. rewrite map_id.
  destruct (PyStr.join (lit ", ") (p :: ps)) as [|c t] eqn:E; [|reflexivity].
  exfalso.
  assert (Hne : p :: ps <> []) by discriminate.
  destruct (exists_last Hne) as [l [q Hl]].
  assert (Hq : phone_ok q).
  { rewrite Forall_forall in Hps. apply Hps. rewrite Hl.
    apply in_or_app. right. left. reflexivity. }
  rewrite Hl in E. apply (join_last_not_nil (lit ", ") q l); [|exact E].
  destruct Hq as [Hlen _]. destruct q; [discriminate|discriminate].
Qed.

Lemma add_all_then_phone_witness :
  show_phones [lit "Alice"]
    (add_all (lit "Alice") [lit "0501234567"; lit "0509876543"] [])
  = (Ok (lit "Contact Alice's phones: 0501234567, 0509876543"),
     add_all (lit "Alice") [lit "0501234567"; lit "0509876543"] []).
Proof.
  apply (add_all_then_phone [] (lit "Alice") (lit "0501234567")
           [lit "0509876543"] []).
  - repeat constructor.
  - reflexivity.
Defined.

(** ** [change], [remove_phone] and names the book does not have *)

Lemma edit_first_present (l1 l2 : list Phone) (p : Phone) (old_phone new_phone : pystr) :
  value p = old_phone ->
  (forall q, In q l1 -> value q <> old_phone) ->
  edit_first (l1 ++ p :: l2) old_phone new_phone = l1 ++ mkField new_phone :: l2.
Proof.
  intros Hp. induction l1 as [|q l1 IH]; intros Hl1; simpl.
  - rewrite Hp, eqb_refl. reflexivity.
  - destruct (PyStr.eqb (value q) old_phone) eqn:E.
    + apply eqb_eq in E. exfalso. apply (Hl1 q); [left; reflexivity|exact E].
    + rewrite IH; [reflexivity|]. intros q' Hq'. apply Hl1. right. exact Hq'.
Qed.

(** X5: [change] on a phone the record has puts the new value in the
    place of the first entry equal to the old one and leaves every other
    entry, the name and the birthday as they are; the new value is taken
    as it is, whatever string it is; every other name is found as
    before. *)
Theorem change_phone_replaces_first
    (book : AddressBook) (n old_phone new_phone : pystr) (r : Record_)
    (l1 l2 : list Phone) (p : Phone) :
  AddressBook_find n book = Some r ->
  phones r = l1 ++ p :: l2 ->
  value p = old_phone ->
  (forall q, In q l1 -> value q <> old_phone) ->
  change_phone [n; old_phone; new_phone] book
  = (Ok (lit "Phone number " ++ old_phone ++ lit " changed to " ++ new_phone
           ++ lit " for contact " ++ n ++ lit "."),
     dict_set n (mkRecord (name r) (l1 ++ mkField new_phone :: l2) (birthday r)) book)
  /\ AddressBook_find n (snd (change_phone [n; old_phone; new_phone] book))
     = Some (mkRecord (name r) (l1 ++ mkField new_phone :: l2) (birthday r))
  /\ (forall k, k <> n ->
        AddressBook_find k (snd (change_phone [n; old_phone; new_phone] book))
        = AddressBook_find k book).
Proof.
  intros Hfind Hphones Hp Hl1.
  assert (E : change_phone [n; old_phone; new_phone] book
              = (Ok (lit "Phone number " ++ old_phone ++ lit " changed to "
                       ++ new_phone ++ lit " for contact " ++ n ++ lit "."),
                 dict_set n (mkRecord (name r) (l1 ++ mkField new_phone :: l2)
                                      (birthday r)) book)).
  { unfold change_phone, input_error, change_phone_func. cbn [unpack3].
    rewrite Hfind. unfold Record_edit_phone, store_record.
    rewrite Hphones, (edit_first_present l1 l2 p old_phone new_phone Hp Hl1).
    reflexivity. }
  rewrite E. cbn [snd]. unfold AddressBook_find.
  split; [reflexivity|]. split; [apply dict_get_set|].
  intros k Hk. apply dict_get_set_other. exact Hk.
Qed.

Lemma change_phone_replaces_first_witness :
  change_phone [lit "Alice"; lit "0501234567"; lit "x"] [(lit "Alice", alice_record)]
  = (Ok (lit "Phone number 0501234567 changed to x for contact Alice."),
     [(lit "Alice", mkRecord (new_Name (lit "Alice")) [mkField (lit "x")] None)]).
Proof.
  apply (change_phone_replaces_first [(lit "Alice", alice_record)] (lit "Alice")
           (lit "0501234567") (lit "x") alice_record [] []
           (mkField (lit "0501234567"))).
  - reflexivity.
  - reflexivity.
  - reflexivity.
  - intros q [].
Defined.

Lemma filter_id {A : Type} (f : A -> bool) (l : list A) :
  (forall x, In x l -> f x = true) -> filter f l = l.
Proof.
  induction l as [|x l IH]; simpl; intros H; [reflexivity|].
  rewrite (H x (or_introl eq_refl)), IH; [reflexivity|].
  intros y Hy. apply H. right. exact Hy.
Qed.

Lemma filter_subsequence {A : Type} (f : A -> bool) (l : list A) :
  subsequence (filter f l) l.
Proof.
  induction l as [|x l IH]; cbn [filter]; [apply subsequence_nil|].
  destruct (f x); [apply subsequence_keep|apply subsequence_skip]; exact IH.
Qed.

(** Whatever is left of a list in its order, with entries of the kept
    kind only, is left of the filtered list too. *)
Lemma filter_subsequence_greatest {A : Type} (f : A -> bool) (l l' : list A) :
  subsequence l l' -> Forall (fun x => f x = true) l ->
  subsequence l (filter f l').
Proof.
  induction 1 as [|x l l' _ IH|x l l' _ IH]; intros Hall; cbn [filter].
  - apply subsequence_nil.
  - destruct (f x); [apply subsequence_skip|]; apply IH; exact Hall.
  - inversion Hall as [|? ? Hx Hl]; subst. rewrite Hx.
    apply subsequence_keep. apply IH. exact Hl.
Qed.

(** X6: [remove_phone] removes every entry equal to the phone, not only
    the first, and nothing else: the entries left are those not equal to
    the phone, in the order they had and as often as they were there,
    which is to say the longest part of the list, in its order, without
    the phone; a second removal changes nothing more; on a record that
    does not have the phone it changes nothing. *)
Theorem remove_phone_removes_all (r : Record_) (phone : pystr) :
  (forall q, In q (phones (Record_remove_phone r phone))
             <-> In q (phones r) /\ value q <> phone)
  /\ subsequence (phones (Record_remove_phone r phone)) (phones r)
  /\ (forall l,
        subsequence l (phones r) -> Forall (fun q => value q <> phone) l ->
        subsequence l (phones (Record_remove_phone r phone)))
  /\ name (Record_remove_phone r phone) = name r
  /\ birthday (Record_remove_phone r phone) = birthday r
  /\ Record_remove_phone (Record_remove_phone r phone) phone
     = Record_remove_phone r phone
  /\ ((forall q, In q (phones r) -> value q <> phone) ->
      Record_remove_phone r phone = r).
Proof.
  unfold Record_remove_phone. cbn [phones name birthday].
  split; [|split; [|split; [|split; [reflexivity|split; [reflexivity|split]]]]].
  - intros q. rewrite filter_In, negb_true_iff, eqb_neq. reflexivity.
  - apply filter_subsequence.
  - intros l Hsub Hall. apply filter_subsequence_greatest; [exact Hsub|].
    refine (Forall_impl _ _ Hall). intros q Hq.
    apply negb_true_iff, eqb_neq. exact Hq.
  - f_equal. apply filter_id. intros q Hq.
    apply filter_In in Hq as [_ Hq]. exact Hq.
  - intros H. destruct r as [nm ps bd]. cbn [phones name birthday] in *.
    f_equal. apply filter_id. intros q Hq.
    apply negb_true_iff, eqb_neq. apply H. exact Hq.
Qed.

(** X7: with a name the book does not have, [change], [phone] and
    [add-birthday] all answer that the contact is not found and leave the
    book as it is; [add-birthday] says so before it looks at the date. *)
Theorem handlers_on_a_missing_name
    (book : AddressBook) (n a b : pystr) (more : list pystr) :
  AddressBook_find n book = None ->
  change_phone [n; a; b] book
  = (Ok (lit "Error: Contact " ++ n ++ lit " not found in AddressBook."), book)
  /\ show_phones (n :: more) book
     = (Ok (lit "Error: Contact " ++ n ++ lit " not found in AddressBook."), book)
  /\ add_birthday (n :: b :: more) book
     = (Ok (lit "Error: Contact " ++ n ++ lit " not found in AddressBook."), book).
Proof.
  intros H.
  unfold change_phone, show_phones, add_birthday, input_error,
    change_phone_func, show_phones_func, add_birthday_func.
  cbn [unpack3 unpack2_star unpack1_star]. rewrite H.
  repeat split.
Qed.

Lemma handlers_on_a_missing_name_witness :
  change_phone [lit "Zed"; lit "1"; lit "2"] book_ann_ben
  = (Ok (lit "Error: Contact Zed not found in AddressBook."), book_ann_ben)
  /\ show_phones [lit "Zed"] book_ann_ben
     = (Ok (lit "Error: Contact Zed not found in AddressBook."), book_ann_ben)
  /\ add_birthday [lit "Zed"; lit "2"] book_ann_ben
     = (Ok (lit "Error: Contact Zed not found in AddressBook."), book_ann_ben).
Proof.
  apply (handlers_on_a_missing_name book_ann_ben (lit "Zed") (lit "1") (lit "2") []).
  reflexivity.
Defined.

(** ** [add-birthday] *)

(** X8: [add-birthday] for a name of the book either sets the record's
    birthday to the date [Birthday] makes of the string, in the place of
    any earlier one, and keeps the name and the phones, or, when
    [Birthday] rejects the string, answers with its error and leaves the
    book as it is. *)
Theorem add_birthday_sets_or_keeps
    (book : AddressBook) (n b : pystr) (more : list pystr) (r : Record_) :
  AddressBook_find n book = Some r ->
  match new_Birthday b with
  | Ok bd =>
      add_birthday (n :: b :: more) book
      = (Ok (lit "Birthday " ++ b ++ lit " added for contact " ++ n ++ lit "."),
         dict_set n (mkRecord (name r) (phones r) (Some bd)) book)
      /\ AddressBook_find n (snd (add_birthday (n :: b :: more) book))
         = Some (mkRecord (name r) (phones r) (Some bd))
  | Raise _ =>
      add_birthday (n :: b :: more) book
      = (Ok (lit "Error: Invalid date format. Use DD.MM.YYYY"), book)
  end.
Proof.
  intros Hfind.
  unfold add_birthday, input_error, add_birthday_func. cbn [unpack2_star].
  rewrite Hfind. unfold Record_add_birthday, store_record.
  destruct (new_Birthday_fails_with_date_error b) as [[bd Hb]|Hb]; rewrite Hb.
  - cbn [bind fst snd catch_errors]. split; [reflexivity|].
    apply dict_get_set.
  - reflexivity.
Qed.

Lemma add_birthday_sets_or_keeps_witness :
  add_birthday [lit "Ann"; lit "31.02.2000"] book_ann_ben
  = (Ok (lit "Error: Invalid date format. Use DD.MM.YYYY"), book_ann_ben).
Proof.
  apply (add_birthday_sets_or_keeps book_ann_ben (lit "Ann") (lit "31.02.2000") [] ann).
  reflexivity.
Defined.

(** ** The loop of [main] *)




(** X10: a line whose command is none of [add], [change] and
    [add-birthday] leaves the book as it is. *)
Theorem other_commands_keep_the_book
    (today : DateTime.datetime) (user_input : pystr) (book : AddressBook) :
  not_command "add" user_input ->
  not_command "change" user_input ->
  not_command "add-birthday" user_input ->
  turn_book (main_turn today user_input book) = book.
Proof.
  unfold not_command, main_turn.
  destruct (parse_input user_input) as [[command args]|e]; [|reflexivity].
  intros Hadd Hchange Hbd.
  destruct command as [|c0 command]; [reflexivity|].
  destruct (PyStr.eqb (c0 :: command) (lit "close")
            || PyStr.eqb (c0 :: command) (lit "exit")); [reflexivity|].
  destruct (PyStr.eqb (c0 :: command) (lit "hello")); [reflexivity|].
  destruct (PyStr.eqb (c0 :: command) (lit "add")) eqn:E1;
    [apply eqb_eq in E1; contradiction|].
  destruct (PyStr.eqb (c0 :: command) (lit "change")) eqn:E2;
    [apply eqb_eq in E2; contradiction|].
  destruct (PyStr.eqb (c0 :: command) (lit "phone"));
    [rewrite turn_book_printed; apply show_phones_book|].
  destruct (PyStr.eqb (c0 :: command) (lit "all"));
    [rewrite turn_book_printed; apply show_all_book|].
  destruct (PyStr.eqb (c0 :: command) (lit "add-birthday")) eqn:E3;
    [apply eqb_eq in E3; contradiction|].
  destruct (PyStr.eqb (c0 :: command) (lit "birthdays"));
    [rewrite turn_book_printed; apply birthdays_book|].
  reflexivity.
Qed.

Lemma other_commands_keep_the_book_witness :
  turn_book (main_turn noon (lit "phone Ann") book_ann_ben) = book_ann_ben.
Proof.
  apply (other_commands_keep_the_book noon (lit "phone Ann") book_ann_ben);
    vm_compute; discriminate.
Defined.

(** X11: a line whose first token is [close] or [exit] prints the
    farewell and ends the loop with the book as it is, whatever follows
    the token on the line and whatever lines come after. *)
Theorem close_and_exit_end_the_loop
    (today : DateTime.datetime) (user_input command : pystr) (args : list pystr)
    (inputs : list (DateTime.datetime * pystr)) (book : AddressBook) :
  parse_input user_input = Ok (command, args) ->
  command = lit "close" \/ command = lit "exit" ->
  main_turn today user_input book = Stopped (lit "Good bye!") book
  /\ main_loop ((today, user_input) :: inputs) book = book.
Proof.
  intros Hparse Hcmd.
  assert (E : main_turn today user_input book = Stopped (lit "Good bye!") book).
  { unfold main_turn. rewrite Hparse. destruct Hcmd as [-> | ->]; reflexivity. }
  split; [exact E|]. cbn [main_loop]. rewrite E. reflexivity.
Qed.

Lemma close_and_exit_end_the_loop_witness :
  main_turn noon (lit "  exit now ") book_ann_ben
  = Stopped (lit "Good bye!") book_ann_ben
  /\ main_loop [(noon, lit "  exit now "); (noon, lit "add Bob 0501234567")]
               book_ann_ben
     = book_ann_ben.
Proof.
  apply (close_and_exit_end_the_loop noon (lit "  exit now ") (lit "exit")
           [lit "now"] [(noon, lit "add Bob 0501234567")] book_ann_ben).
  - reflexivity.
  - right. reflexivity.
Defined.

Lemma grows_refl (book : AddressBook) : grows book book.
Proof.
  split; [exists []; rewrite app_nil_r; reflexivity|trivial].
Qed.

Lemma grows_trans (b1 b2 b3 : AddressBook) :
  grows b1 b2 -> grows b2 b3 -> grows b1 b3.
Proof.
  intros [[a1 H1] N1] [[a2 H2] N2]. split.
  - exists (a1 ++ a2). rewrite H2, H1, app_assoc. reflexivity.
  - intros H. apply N2, N1, H.
Qed.

Lemma grows_dict_set (k : pystr) (v : Record_) (book : AddressBook) :
  grows book (dict_set k v book).
Proof.
  split; [|apply dict_set_NoDup].
  destruct (dict_get k book) as [r|] eqn:E.
  - exists []. rewrite (dict_set_keys_present _ v _ _ E), app_nil_r. reflexivity.
  - exists [k]. apply dict_set_keys_absent. exact E.
Qed.

Lemma main_turn_grows (today : DateTime.datetime) (user_input : pystr)
    (book : AddressBook) :
  grows book (turn_book (main_turn today user_input book)).
Proof.
  unfold main_turn.
  destruct (parse_input user_input) as [[command args]|e]; [|apply grows_refl].
  destruct command as [|c0 command]; [apply grows_refl|].
  destruct (PyStr.eqb (c0 :: command) (lit "close")
            || PyStr.eqb (c0 :: command) (lit "exit")); [apply grows_refl|].
  destruct (PyStr.eqb (c0 :: command) (lit "hello")); [apply grows_refl|].
  destruct (PyStr.eqb (c0 :: command) (lit "add")).
  { rewrite turn_book_printed.
    unfold add_contact, input_error. cbn [snd]. unfold add_contact_func.
    destruct (Nat.ltb (length args) 2 || negb (PyStr.isdigit (nth 1 args [])));
      [apply grows_refl|].
    destruct (unpack2_star args) as [[n phone]|e]; [|apply grows_refl].
    unfold AddressBook_add_record, store_record.
    destruct (AddressBook_find n book) as [record|].
    - destruct (Record_add_phone record phone); cbn [snd];
        [apply grows_dict_set|apply grows_refl].
    - destruct (Record_add_phone (new_Record n) phone); cbn [snd].
      + eapply grows_trans; apply grows_dict_set.
      + apply grows_dict_set. }
  destruct (PyStr.eqb (c0 :: command) (lit "change")).
  { rewrite turn_book_printed.
    unfold change_phone, input_error. cbn [snd]. unfold change_phone_func.
    destruct (unpack3 args) as [[[n o] w]|e]; [|apply grows_refl].
    destruct (AddressBook_find n book); cbn [snd];
      [apply grows_dict_set|apply grows_refl]. }
  destruct (PyStr.eqb (c0 :: command) (lit "phone"));
    [rewrite turn_book_printed, show_phones_book; apply grows_refl|].
  destruct (PyStr.eqb (c0 :: command) (lit "all"));
    [rewrite turn_book_printed, show_all_book; apply grows_refl|].
  destruct (PyStr.eqb (c0 :: command) (lit "add-birthday")).
  { rewrite turn_book_printed.
    unfold add_birthday, input_error. cbn [snd]. unfold add_birthday_func.
    destruct (unpack2_star args) as [[n b]|e]; [|apply grows_refl].
    destruct (AddressBook_find n book) as [record|]; [|apply grows_refl].
    destruct (Record_add_birthday record b); cbn [snd];
      [apply grows_dict_set|apply grows_refl]. }
  destruct (PyStr.eqb (c0 :: command) (lit "birthdays"));
    [rewrite turn_book_printed, birthdays_book; apply grows_refl|].
  apply grows_refl.
Qed.

(** X12: no command removes or reorders a contact: after any lines, the
    keys of the book are its keys at the start, in the same order,
    followed by those added since; and distinct keys stay distinct. *)
Theorem main_loop_only_adds_contacts
    (inputs : list (DateTime.datetime * pystr)) (book : AddressBook) :
  (exists added, dict_keys (main_loop inputs book) = dict_keys book ++ added)
  /\ (NoDup (dict_keys book) -> NoDup (dict_keys (main_loop inputs book))).
Proof.
  change (grows book (main_loop inputs book)).
  revert book. induction inputs as [|[today user_input] inputs IH]; intros book.
  - apply grows_refl.
  - pose proof (main_turn_grows today user_input book) as Hturn.
    destruct (main_loop_cons today user_input inputs book) as [E|E]; rewrite E.
    + eapply grows_trans; [exact Hturn|apply IH].
    + exact Hturn.
Qed.

(** ** What the loop keeps true of every record *)

Section RecordInvariant.

Variable Q : Record_ -> Prop.
Hypothesis Q_new : forall n, Q (new_Record n).
Hypothesis Q_add_phone :
  forall r phone r', Q r -> Record_add_phone r phone = Ok r' -> Q r'.
Hypothesis Q_add_birthday :
  forall r b r', Q r -> Record_add_birthday r b = Ok r' -> Q r'.

Lemma all_records_set (k : pystr) (v : Record_) (book : AddressBook) :
  all_records Q book -> Q v -> all_records Q (dict_set k v book).
Proof.
  unfold all_records. intros Hbook Hv.
  induction book as [|[k0 v0] book IH]; simpl.
  - constructor; [exact Hv|constructor].
  - inversion Hbook as [|? ? H0 Hbook']; subst.
    destruct (PyStr.eqb k0 k); constructor; auto.
Qed.

Lemma all_records_get (k : pystr) (r : Record_) (book : AddressBook) :
  all_records Q book -> dict_get k book = Some r -> Q r.
Proof.
  unfold all_records. intros Hbook.
  induction book as [|[k0 v0] book IH]; simpl; [discriminate|].
  inversion Hbook as [|? ? H0 Hbook']; subst.
  destruct (PyStr.eqb k0 k).
  - intros H. injection H as <-. exact H0.
  - apply IH. exact Hbook'.
Qed.

Lemma main_turn_all_records (today : DateTime.datetime) (user_input : pystr)
    (book : AddressBook) :
  (forall args n o w r,
     parse_input user_input = Ok (lit "change", args) -> args = [n; o; w] ->
     Q r -> Q (Record_edit_phone r o w)) ->
  all_records Q book ->
  all_records Q (turn_book (main_turn today user_input book)).
Proof.
  intros Hchange Hbook. unfold main_turn.
  destruct (parse_input user_input) as [[command args]|e]; [|exact Hbook].
  destruct command as [|c0 command]; [exact Hbook|].
  destruct (PyStr.eqb (c0 :: command) (lit "close")
            || PyStr.eqb (c0 :: command) (lit "exit")); [exact Hbook|].
  destruct (PyStr.eqb (c0 :: command) (lit "hello")); [exact Hbook|].
  destruct (PyStr.eqb (c0 :: command) (lit "add")).
  { rewrite turn_book_printed.
    unfold add_contact, input_error. cbn [snd]. unfold add_contact_func.
    destruct (Nat.ltb (length args) 2 || negb (PyStr.isdigit (nth 1 args [])));
      [exact Hbook|].
    destruct (unpack2_star args) as [[n phone]|e]; [|exact Hbook].
    unfold AddressBook_add_record, store_record, AddressBook_find.
    destruct (dict_get n book) as [record|] eqn:Hget.
    - destruct (Record_add_phone record phone) as [record'|e] eqn:Hadd;
        cbn [snd]; [|exact Hbook].
      apply all_records_set; [exact Hbook|].
      apply (Q_add_phone _ _ _ (all_records_get _ _ _ Hbook Hget) Hadd).
    - destruct (Record_add_phone (new_Record n) phone) as [record'|e] eqn:Hadd;
        cbn [snd].
      + apply all_records_set; [apply all_records_set; auto|].
        apply (Q_add_phone _ _ _ (Q_new n) Hadd).
      + apply all_records_set; auto. }
  destruct (PyStr.eqb (c0 :: command) (lit "change")) eqn:Ech.
  { rewrite turn_book_printed. apply eqb_eq in Ech. rewrite Ech in Hchange.
    unfold change_phone, input_error. cbn [snd]. unfold change_phone_func.
    destruct args as [|n [|o [|w [|x args]]]]; cbn [unpack3]; try exact Hbook.
    unfold store_record, AddressBook_find.
    destruct (dict_get n book) as [record|] eqn:Hget; cbn [snd]; [|exact Hbook].
    apply all_records_set; [exact Hbook|].
    apply (Hchange [n; o; w] n o w record eq_refl eq_refl).
    apply (all_records_get _ _ _ Hbook Hget). }
  destruct (PyStr.eqb (c0 :: command) (lit "phone"));
    [rewrite turn_book_printed, show_phones_book; exact Hbook|].
  destruct (PyStr.eqb (c0 :: command) (lit "all"));
    [rewrite turn_book_printed, show_all_book; exact Hbook|].
  destruct (PyStr.eqb (c0 :: command) (lit "add-birthday")).
  { rewrite turn_book_printed.
    unfold add_birthday, input_error. cbn [snd]. unfold add_birthday_func.
    destruct (unpack2_star args) as [[n b]|e]; [|exact Hbook].
    unfold store_record, AddressBook_find.
    destruct (dict_get n book) as [record|] eqn:Hget; [|exact Hbook].
    destruct (Record_add_birthday record b) as [record'|e] eqn:Hadd;
      cbn [snd]; [|exact Hbook].
    apply all_records_set; [exact Hbook|].
    apply (Q_add_birthday _ _ _ (all_records_get _ _ _ Hbook Hget) Hadd). }
  destruct (PyStr.eqb (c0 :: command) (lit "birthdays"));
    [rewrite turn_book_printed, birthdays_book; exact Hbook|].
  exact Hbook.
Qed.

Lemma main_loop_all_records (inputs : list (DateTime.datetime * pystr))
    (book : AddressBook) :
  Forall (fun ti =>
            forall args n o w r,
              parse_input (snd ti) = Ok (lit "change", args) -> args = [n; o; w] ->
              Q r -> Q (Record_edit_phone r o w)) inputs ->
  all_records Q book ->
  all_records Q (main_loop inputs book).
Proof.
  intros Hin. revert book.
  induction Hin as [|[today user_input] inputs Hline _ IH]; intros book Hbook.
  - exact Hbook.
  - pose proof (main_turn_all_records today user_input book Hline Hbook) as Hturn.
    destruct (main_loop_cons today user_input inputs book) as [E|E]; rewrite E.
    + apply IH. exact Hturn.
    + exact Hturn.
Qed.

End RecordInvariant.

(** X13: every birthday the loop stores is a date of the calendar with
    no time of day: a book of which this is true stays so after any
    lines. *)
Theorem stored_birthdays_stay_valid
    (inputs : list (DateTime.datetime * pystr)) (book : AddressBook) :
  birthdays_valid book -> birthdays_valid (main_loop inputs book).
Proof.
  intros Hbook.
  apply (main_loop_all_records
           (fun r => match birthday r with
                     | Some b => at_midnight (value b) /\ valid_day (value b)
                     | None => True
                     end)).
  - intros n. exact I.
  - intros r phone r' Hr Hadd.
    unfold Record_add_phone in Hadd. destruct (new_Phone phone); [|discriminate].
    injection Hadd as <-. exact Hr.
  - intros r b r' _ Hadd.
    unfold Record_add_birthday in Hadd.
    destruct (new_Birthday b) as [bd|e] eqn:Hb; [|discriminate].
    injection Hadd as <-. cbn [birthday].
    destruct (new_Birthday_ok b bd Hb) as [y [m [d [Hvalid ->]]]].
    split; [repeat split|exact Hvalid].
  - apply Forall_forall. intros ti _ args n o w r _ _ Hr. exact Hr.
  - exact Hbook.
Qed.

Lemma stored_birthdays_stay_valid_witness :
  birthdays_valid
    (main_loop [(noon, lit "add Bob 0501234567");
                (noon, lit "add-birthday Bob 1.1.2000")] []).
Proof.
  apply (stored_birthdays_stay_valid
           [(noon, lit "add Bob 0501234567");
            (noon, lit "add-birthday Bob 1.1.2000")] []).
  constructor.
Defined.

Lemma new_Phone_inv (phone : pystr) (p : Phone) :
  new_Phone phone = Ok p -> phone_ok phone /\ p = mkField phone.
Proof.
  unfold new_Phone, phone_ok.
  destruct (Nat.eqb (length phone) 10) eqn:E;
    [|rewrite orb_true_r; discriminate].
  apply Nat.eqb_eq in E. rewrite (isdigit_ten phone E).
  destruct (forallb Unicode.isdigit phone); [|discriminate].
  intros H. injection H as <-. auto.
Qed.

Lemma edit_first_Forall (P : Phone -> Prop) (ps : list Phone) (o w : pystr) :
  Forall P ps -> P (mkField w) -> Forall P (edit_first ps o w).
Proof.
  intros Hps Hw. induction Hps as [|p ps Hp Hps IH]; simpl; [constructor|].
  destruct (PyStr.eqb (value p) o); constructor; auto.
Qed.

(** X14: every phone the loop stores is one [Phone] accepts, as long as
    the new phone of each [change] line is: a book of which this is true
    stays so after any such lines. *)
Theorem stored_phones_stay_valid
    (inputs : list (DateTime.datetime * pystr)) (book : AddressBook) :
  Forall (fun ti => change_gives_valid_phone (snd ti)) inputs ->
  phones_valid book -> phones_valid (main_loop inputs book).
Proof.
  intros Hin Hbook.
  apply (main_loop_all_records
           (fun r => Forall (fun p => phone_ok (value p)) (phones r))).
  - intros n. constructor.
  - intros r phone r' Hr Hadd.
    unfold Record_add_phone in Hadd.
    destruct (new_Phone phone) as [p|e] eqn:Hp; [|discriminate].
    injection Hadd as <-. cbn [phones].
    destruct (new_Phone_inv phone p Hp) as [Hok ->].
    apply Forall_app. split; [exact Hr|]. constructor; [exact Hok|constructor].
  - intros r b r' Hr Hadd.
    unfold Record_add_birthday in Hadd. destruct (new_Birthday b); [|discriminate].
    injection Hadd as <-. exact Hr.
  - refine (Forall_impl _ _ Hin). intros [today user_input] Hline.
    cbn [snd] in *. intros args n o w r Hparse -> Hr.
    unfold change_gives_valid_phone in Hline. rewrite Hparse in Hline.
    unfold Record_edit_phone. cbn [phones].
    apply edit_first_Forall; [exact Hr|]. apply Hline. reflexivity.
  - exact Hbook.
Qed.

Lemma stored_phones_stay_valid_witness :
  phones_valid
    (main_loop [(noon, lit "add Bob 0501234567");
                (noon, lit "change Bob 0501234567 0509876543")] []).
Proof.
  apply (stored_phones_stay_valid
           [(noon, lit "add Bob 0501234567");
            (noon, lit "change Bob 0501234567 0509876543")] []).
  - repeat constructor; vm_compute; try exact I; intros _; split; reflexivity.
  - constructor.
Defined.

(** ** [get_upcoming_birthdays] and [days_to_birthday] under any clock *)

Lemma upcoming_loop_within (today : DateTime.datetime) (days : Z)
    (recs acc : list Record_) :
  match upcoming_loop today days recs acc with
  | Ok l =>
      l = acc ++ filter (within today days) recs
      /\ Forall (fun r => exists o, Record_days_to_birthday today r = Ok o) recs
  | Raise e => exists r, In r recs /\ Record_days_to_birthday today r = Raise e
  end.
Proof.
  revert acc. induction recs as [|r recs IH]; intros acc.
  - simpl. rewrite app_nil_r. split; [reflexivity|constructor].
  - cbn [upcoming_loop filter]. unfold within at 1, Record_days_to_birthday at 1.
    assert (Hrest : forall acc',
              match upcoming_loop today days recs acc' with
              | Ok l =>
                  l = acc' ++ filter (within today days) recs
                  /\ Forall (fun r0 => exists o, Record_days_to_birthday today r0 = Ok o)
                            (r :: recs)
              | Raise e =>
                  exists r0, In r0 (r :: recs)
                             /\ Record_days_to_birthday today r0 = Raise e
              end
              \/ exists e, Record_days_to_birthday today r = Raise e).
    { intros acc'. destruct (Record_days_to_birthday today r) as [o|e] eqn:Hr.
      - left. specialize (IH acc').
        destruct (upcoming_loop today days recs acc') as [l|e].
        + destruct IH as [-> Hall]. split; [reflexivity|].
          constructor; [exists o; exact Hr|exact Hall].
        + destruct IH as [r0 [Hin Hr0]]. exists r0.
          split; [right; exact Hin|exact Hr0].
      - right. exists e. reflexivity. }
    unfold Record_days_to_birthday in Hrest at 3.
    destruct (birthday r) as [b|] eqn:Hb.
    + destruct (next_birthday today b) as [nb|e] eqn:Hnb; cbn [bind].
      * destruct ((0 <=? DateTime.days (DateTime.sub nb today))
                  && (DateTime.days (DateTime.sub nb today) <=? days))%Z.
        -- destruct (Hrest (acc ++ [r])) as [H|[e H]]; [|discriminate].
           destruct (upcoming_loop today days recs (acc ++ [r])); [|exact H].
           destruct H as [-> Hall]. rewrite <- app_assoc. split; [reflexivity|exact Hall].
        -- destruct (Hrest acc) as [H|[e H]]; [exact H|discriminate].
      * exists r. split; [left; reflexivity|].
        unfold Record_days_to_birthday. rewrite Hb, Hnb. reflexivity.
    + destruct (Hrest acc) as [H|[e H]]; [exact H|discriminate].
Qed.

(** X15: the two computations of the next birthday agree: when
    [get_upcoming_birthdays] returns, it returns, in the order of the
    book, exactly the records for which [days_to_birthday] gives a number
    from 0 to [days], and [days_to_birthday] raises for none of the
    records; when it raises, [days_to_birthday] raises the same exception
    for a record of the book. *)
Theorem get_upcoming_birthdays_by_days_to_birthday
    (today : DateTime.datetime) (days : Z) (book : AddressBook) :
  match AddressBook_get_upcoming_birthdays today days book with
  | Ok l =>
      l = filter (within today days) (dict_values book)
      /\ Forall (fun r => exists o, Record_days_to_birthday today r = Ok o)
                (dict_values book)
  | Raise e =>
      exists r, In r (dict_values book)
                /\ Record_days_to_birthday today r = Raise e
  end.
Proof.
  unfold AddressBook_get_upcoming_birthdays.
  apply (upcoming_loop_within today days (dict_values book) []).
Qed.

(** ** The calendar between one year and the next *)

Lemma days_before_month_bounds (y m : Z) :
  (1 <= m <= 12)%Z ->
  (0 <= DateTime.days_before_month y m
   /\ DateTime.days_before_month y m + DateTime.days_in_month y m
      <= 365 + leap_day y)%Z.
Proof.
  intros H.
  change (0 <= days_before_month_of (DateTime.is_leap y) m
          /\ days_before_month_of (DateTime.is_leap y) m
             + days_in_month_of (DateTime.is_leap y) m
             <= 365 + (if DateTime.is_leap y then 1 else 0))%Z.
  assert (Hall : months_fill_the_year (DateTime.is_leap y) = true)
    by (destruct (DateTime.is_leap y); vm_compute; reflexivity).
  unfold months_fill_the_year in Hall.
  pose proof (zrange_forall _ 1 12 Hall m ltac:(lia)) as Hm. cbv beta in Hm.
  apply andb_true_iff in Hm as [H1 H2].
  apply Z.leb_le in H1, H2. split; assumption.
Qed.

Lemma ord_in_year (y m d : Z) :
  valid_date y m d ->
  (DateTime.days_before_year y + 1 <= DateTime.ymd_to_ord y m d
   <= DateTime.days_before_year y + 365 + leap_day y)%Z.
Proof.
  intros [_ [Hm Hd]]. unfold DateTime.ymd_to_ord.
  pose proof (days_before_month_bounds y m Hm). lia.
Qed.

Lemma days_before_year_succ (y : Z) :
  (1 <= y)%Z ->
  DateTime.days_before_year (y + 1)
  = (DateTime.days_before_year y + 365 + leap_day y)%Z.
Proof.
  intros H. unfold DateTime.days_before_year, leap_day, DateTime.is_leap.
  replace (y + 1 - 1)%Z with y by lia. cbv zeta.
  destruct (Z.eqb_spec (y mod 4) 0); destruct (Z.eqb_spec (y mod 100) 0);
    destruct (Z.eqb_spec (y mod 400) 0); cbn [andb orb negb];
    Z.to_euclidean_division_equations; lia.
Qed.

Lemma leap_years_are_apart (y : Z) :
  DateTime.is_leap y = true -> DateTime.is_leap (y + 1) = false.
Proof.
  unfold DateTime.is_leap. intros H.
  apply andb_true_iff in H as [H4 _]. apply Z.eqb_eq in H4.
  replace ((y + 1) mod 4 =? 0)%Z with false; [reflexivity|].
  symmetry. apply Z.eqb_neq. Z.to_euclidean_division_equations. lia.
Qed.

Lemma days_before_month_leap_shift (y m : Z) :
  (1 <= m <= 12)%Z ->
  DateTime.days_before_month y m
  = (days_before_month_of false m
     + (if (2 <? m)%Z then leap_day y else 0))%Z.
Proof.
  intros H.
  change (DateTime.days_before_month y m)
    with (days_before_month_of (DateTime.is_leap y) m).
  unfold leap_day. destruct (DateTime.is_leap y).
  - assert (Hall : leap_day_shifts_later_months = true)
      by (vm_compute; reflexivity).
    unfold leap_day_shifts_later_months in Hall.
    pose proof (zrange_forall _ 1 12 Hall m ltac:(lia)) as Hm. cbv beta in Hm.
    apply Z.eqb_eq in Hm. exact Hm.
  - destruct (2 <? m)%Z; lia.
Qed.

(** The same month and day a year later is 365 or 366 days later. *)
Lemma ord_next_year (y m d : Z) :
  valid_date y m d -> valid_date (y + 1) m d ->
  (365 <= DateTime.ymd_to_ord (y + 1) m d - DateTime.ymd_to_ord y m d <= 366)%Z.
Proof.
  intros [Hy [Hm _]] _. unfold DateTime.ymd_to_ord.
  rewrite (days_before_year_succ y) by lia.
  rewrite (days_before_month_leap_shift y m Hm),
    (days_before_month_leap_shift (y + 1) m Hm).
  unfold leap_day.
  destruct (DateTime.is_leap y); destruct (DateTime.is_leap (y + 1));
    destruct (2 <? m)%Z; lia.
Qed.

(** ** A birthday at midnight against a clock with a time of day *)

Lemma time_of_day_range (t : DateTime.datetime) :
  valid_time t -> (0 <= time_of_day t < 86400000000)%Z.
Proof.
  unfold valid_time, time_of_day, DateTime.seconds_of_day. lia.
Qed.

Lemma time_of_day_positive (t : DateTime.datetime) :
  valid_time t ->
  DateTime.lex_ltb [0; 0; 0; 0]%Z
    [DateTime.hour t; DateTime.minute t; DateTime.second t; DateTime.microsecond t]
  = (0 <? time_of_day t)%Z.
Proof.
  unfold valid_time, time_of_day, DateTime.seconds_of_day.
  intros H. cbn [DateTime.lex_ltb]. rewrite andb_false_r, orb_false_r.
  destruct (Z.ltb_spec 0 (DateTime.hour t)); destruct (Z.eqb_spec 0 (DateTime.hour t));
    destruct (Z.ltb_spec 0 (DateTime.minute t));
    destruct (Z.eqb_spec 0 (DateTime.minute t));
    destruct (Z.ltb_spec 0 (DateTime.second t));
    destruct (Z.eqb_spec 0 (DateTime.second t));
    destruct (Z.ltb_spec 0 (DateTime.microsecond t));
    cbn [orb andb]; symmetry;
    first [apply Z.ltb_lt; lia | apply Z.ltb_ge; lia].
Qed.

(** A midnight of the clock's year is before the clock when its day is
    an earlier one, or the same one with some of the day gone. *)
Lemma ltb_midnight_clock (today : DateTime.datetime) (m d : Z) :
  valid_datetime today -> valid_date (DateTime.year today) m d ->
  DateTime.ltb (midnight (DateTime.year today) m d) today
  = ((DateTime.ymd_to_ord (DateTime.year today) m d <? DateTime.toordinal today)
     || ((DateTime.ymd_to_ord (DateTime.year today) m d =? DateTime.toordinal today)
         && (0 <? time_of_day today)))%Z.
Proof.
  intros [Hday Htime] Hb.
  rewrite <- (time_of_day_positive today Htime).
  unfold DateTime.ltb, DateTime.fields, midnight, DateTime.toordinal,
    DateTime.ymd_to_ord.
  cbn [DateTime.year DateTime.month DateTime.day DateTime.hour DateTime.minute
       DateTime.second DateTime.microsecond].
  set (rest := DateTime.lex_ltb [0; 0; 0; 0]%Z
                 [DateTime.hour today; DateTime.minute today;
                  DateTime.second today; DateTime.microsecond today]).
  cbn [DateTime.lex_ltb]. fold rest.
  rewrite Z.ltb_irrefl, Z.eqb_refl. cbn [orb andb].
  destruct Hday as [_ [Hm' Hd']]. destruct Hb as [_ [Hm Hd]].
  set (y := DateTime.year today) in *.
  set (m' := DateTime.month today) in *. set (d' := DateTime.day today) in *.
  destruct (Z.lt_trichotomy m m') as [Hlt|[Heq|Hgt]].
  - pose proof (days_before_month_mono y m m' (conj (proj1 Hm) Hlt) (proj2 Hm')).
    replace (m <? m')%Z with true by (symmetry; apply Z.ltb_lt; lia).
    cbn [orb].
    replace (DateTime.days_before_year y + DateTime.days_before_month y m + d
             <? DateTime.days_before_year y + DateTime.days_before_month y m' + d')%Z
      with true by (symmetry; apply Z.ltb_lt; lia).
    reflexivity.
  - rewrite <- Heq in *. clearbody m'. subst m'.
    rewrite Z.ltb_irrefl, Z.eqb_refl. cbn [orb andb].
    destruct (Z.lt_trichotomy d d') as [Hdlt|[Hdeq|Hdgt]].
    + replace (d <? d')%Z with true by (symmetry; apply Z.ltb_lt; lia).
      cbn [orb].
      replace (DateTime.days_before_year y + DateTime.days_before_month y m + d
               <? DateTime.days_before_year y + DateTime.days_before_month y m + d')%Z
        with true by (symmetry; apply Z.ltb_lt; lia).
      reflexivity.
    + rewrite <- Hdeq. rewrite !Z.ltb_irrefl, !Z.eqb_refl. reflexivity.
    + replace (d <? d')%Z with false by (symmetry; apply Z.ltb_ge; lia).
      replace (d =? d')%Z with false by (symmetry; apply Z.eqb_neq; lia).
      replace (DateTime.days_before_year y + DateTime.days_before_month y m + d
               <? DateTime.days_before_year y + DateTime.days_before_month y m + d')%Z
        with false by (symmetry; apply Z.ltb_ge; lia).
      replace (DateTime.days_before_year y + DateTime.days_before_month y m + d
               =? DateTime.days_before_year y + DateTime.days_before_month y m + d')%Z
        with false by (symmetry; apply Z.eqb_neq; lia).
      reflexivity.
  - pose proof (days_before_month_mono y m' m (conj (proj1 Hm') Hgt) (proj2 Hm)).
    replace (m <? m')%Z with false by (symmetry; apply Z.ltb_ge; lia).
    replace (m =? m')%Z with false by (symmetry; apply Z.eqb_neq; lia).
    replace (DateTime.days_before_year y + DateTime.days_before_month y m + d
             <? DateTime.days_before_year y + DateTime.days_before_month y m' + d')%Z
      with false by (symmetry; apply Z.ltb_ge; lia).
    replace (DateTime.days_before_year y + DateTime.days_before_month y m + d
             =? DateTime.days_before_year y + DateTime.days_before_month y m' + d')%Z
      with false by (symmetry; apply Z.eqb_neq; lia).
    reflexivity.
Qed.

(** From a clock to a midnight: the days between the dates, less one
    when some of the clock's day is gone. *)
Lemma sub_midnight_clock (today : DateTime.datetime) (y m d : Z) :
  valid_time today ->
  DateTime.days (DateTime.sub (midnight y m d) today)
  = (DateTime.ymd_to_ord y m d - DateTime.toordinal today
     - (if 0 <? time_of_day today then 1 else 0))%Z.
Proof.
  intros Htime. pose proof (time_of_day_range today Htime) as Hrange.
  unfold DateTime.sub, DateTime.new_delta, DateTime.toordinal, midnight,
    time_of_day, valid_time in *.
  cbn [DateTime.days DateTime.year DateTime.month DateTime.day DateTime.hour
       DateTime.minute DateTime.second DateTime.microsecond DateTime.seconds_of_day]
    in *.
  unfold DateTime.seconds_of_day at 1.
  cbn [DateTime.hour DateTime.minute DateTime.second].
  set (s := DateTime.seconds_of_day today) in *.
  set (us := DateTime.microsecond today) in *.
  assert (Hs : (0 <= s < 86400)%Z)
    by (unfold s, DateTime.seconds_of_day; lia).
  destruct (Z.ltb_spec 0 (s * 1000000 + us));
    Z.to_euclidean_division_equations; lia.
Qed.

(** ** [days_to_birthday] under any clock *)

Lemma replace_year_invalid (y m d y' : Z) :
  ~ valid_date y' m d ->
  exists e, DateTime.replace_year (midnight y m d) y' = Raise e.
Proof.
  intros H. unfold DateTime.replace_year, midnight.
  cbn [DateTime.year DateTime.month DateTime.day].
  destruct (DateTime.check_date_fields y' m d) as [[]|e] eqn:E.
  - apply check_date_fields_valid in E. contradiction.
  - exists e. reflexivity.
Qed.

(** What the code takes for the next birthday, case by case. *)
Lemma next_birthday_clock (today : DateTime.datetime) (b : Birthday) :
  valid_datetime today -> at_midnight (value b) ->
  let y := DateTime.year today in
  let m := DateTime.month (value b) in
  let d := DateTime.day (value b) in
  (valid_date y m d -> passed today m d = false ->
   next_birthday today b = Ok (midnight y m d))
  /\ (valid_date y m d -> passed today m d = true -> valid_date (y + 1) m d ->
      next_birthday today b = Ok (midnight (y + 1) m d))
  /\ (valid_date y m d -> passed today m d = true -> ~ valid_date (y + 1) m d ->
      next_birthday today b = DateTime.replace_year (midnight y m d) (y + 1)
      /\ exists e, next_birthday today b = Raise e)
  /\ (~ valid_date y m d ->
      next_birthday today b
      = DateTime.replace_year (midnight (DateTime.year (value b)) m d) y
      /\ exists e, next_birthday today b = Raise e).
Proof.
  intros Htoday Hb. destruct b as [[yb m d h mi s us]].
  unfold at_midnight in Hb.
  cbn [value DateTime.hour DateTime.minute DateTime.second DateTime.microsecond] in Hb.
  destruct Hb as [-> [-> [-> ->]]].
  cbv zeta. cbn [value DateTime.year DateTime.month DateTime.day].
  unfold next_birthday. cbn [value].
  change (DateTime.mkDatetime yb m d 0 0 0 0) with (midnight yb m d).
  assert (Hthis : valid_date (DateTime.year today) m d ->
                  DateTime.replace_year (midnight yb m d) (DateTime.year today)
                  = Ok (midnight (DateTime.year today) m d))
    by (apply replace_year_midnight).
  assert (Hltb : valid_date (DateTime.year today) m d ->
                 DateTime.ltb (midnight (DateTime.year today) m d) today
                 = passed today m d)
    by (intros Hv; apply (ltb_midnight_clock today m d Htoday Hv)).
  split; [|split; [|split]].
  - intros Hv Hp. rewrite (Hthis Hv). cbn [bind]. rewrite (Hltb Hv), Hp.
    reflexivity.
  - intros Hv Hp Hnext. rewrite (Hthis Hv). cbn [bind]. rewrite (Hltb Hv), Hp.
    apply replace_year_midnight. exact Hnext.
  - intros Hv Hp Hnext. rewrite (Hthis Hv). cbn [bind]. rewrite (Hltb Hv), Hp.
    split; [reflexivity|]. apply replace_year_invalid. exact Hnext.
  - intros Hv.
    destruct (replace_year_invalid yb m d (DateTime.year today) Hv) as [e He].
    rewrite He. cbn [bind]. split; [reflexivity|]. exists e. reflexivity.
Qed.

Lemma days_to_birthday_range (today : DateTime.datetime) (b : Birthday) (nb : DateTime.datetime) :
  valid_datetime today -> at_midnight (value b) -> valid_day (value b) ->
  next_birthday today b = Ok nb ->
  (0 <= DateTime.days (DateTime.sub nb today) <= 365)%Z.
Proof.
  intros Htoday Hb Hvb Hnb.
  destruct (next_birthday_clock today b Htoday Hb) as [H1 [H2 [H3 H4]]].
  set (y := DateTime.year today) in *.
  set (m := DateTime.month (value b)) in *.
  set (d := DateTime.day (value b)) in *.
  destruct Htoday as [Hday Htime].
  pose proof (ord_in_year _ _ _ Hday) as Hord. fold y in Hord.
  change (DateTime.ymd_to_ord y (DateTime.month today) (DateTime.day today))
    with (DateTime.toordinal today) in Hord.
  pose proof (time_of_day_range today Htime) as Htod.
  assert (Hdec : valid_date y m d \/ ~ valid_date y m d).
  { destruct (DateTime.check_date_fields y m d) as [[]|e] eqn:E.
    - left. apply check_date_fields_valid. exact E.
    - right. intros H. apply check_date_fields_valid in H. congruence. }
  destruct Hdec as [Hv|Hv]; [|destruct (H4 Hv) as [_ [e He]]; congruence].
  pose proof (ord_in_year _ _ _ Hv) as Hthis.
  destruct (passed today m d) eqn:Hp.
  - assert (Hdec' : valid_date (y + 1) m d \/ ~ valid_date (y + 1) m d).
    { destruct (DateTime.check_date_fields (y + 1) m d) as [[]|e] eqn:E.
      - left. apply check_date_fields_valid. exact E.
      - right. intros H. apply check_date_fields_valid in H. congruence. }
    destruct Hdec' as [Hn|Hn];
      [|destruct (H3 Hv eq_refl Hn) as [_ [e He]]; congruence].
    rewrite (H2 Hv eq_refl Hn) in Hnb. injection Hnb as <-.
    rewrite (sub_midnight_clock today _ _ _ Htime).
    pose proof (ord_next_year y m d Hv Hn) as Hyear.
    pose proof (ord_in_year _ _ _ Hn) as Hnext.
    rewrite (days_before_year_succ y) in Hnext by (destruct Hv; lia).
    unfold passed in Hp. fold y in Hp.
    destruct (Z.ltb_spec (DateTime.ymd_to_ord y m d) (DateTime.toordinal today));
      destruct (Z.eqb_spec (DateTime.ymd_to_ord y m d) (DateTime.toordinal today));
      destruct (Z.ltb_spec 0 (time_of_day today));
      cbn [orb andb] in Hp; try discriminate; lia.
  - rewrite (H1 Hv eq_refl) in Hnb. injection Hnb as <-.
    rewrite (sub_midnight_clock today _ _ _ Htime).
    unfold passed in Hp. fold y in Hp.
    destruct (Z.ltb_spec (DateTime.ymd_to_ord y m d) (DateTime.toordinal today));
      destruct (Z.eqb_spec (DateTime.ymd_to_ord y m d) (DateTime.toordinal today));
      destruct (Z.ltb_spec 0 (time_of_day today));
      cbn [orb andb] in Hp; try discriminate; unfold leap_day in *;
      destruct (DateTime.is_leap y); lia.
Qed.

(** X16: for a clock reading that is a valid date and time, and a
    birthday that is a valid date at midnight, [days_to_birthday], when
    it returns a number, returns one from 0 to 365. *)
Theorem days_to_birthday_between_0_and_365
    (today : DateTime.datetime) (r : Record_) (b : Birthday) (d : Z) :
  valid_datetime today ->
  birthday r = Some b -> at_midnight (value b) -> valid_day (value b) ->
  Record_days_to_birthday today r = Ok (Some d) ->
  (0 <= d <= 365)%Z.
Proof.
  intros Htoday Hr Hb Hvb. unfold Record_days_to_birthday. rewrite Hr.
  destruct (next_birthday today b) as [nb|e] eqn:Hnb; cbn [bind]; [|discriminate].
  intros H. injection H as <-.
  apply (days_to_birthday_range today b nb Htoday Hb Hvb Hnb).
Qed.

Lemma noon_is_valid : valid_datetime noon.
Proof. unfold valid_datetime, valid_day, valid_date, valid_time. vm_compute. intuition discriminate. Qed.

Lemma days_to_birthday_between_0_and_365_witness : (0 <= 0 <= 365)%Z.
Proof.
  apply (days_to_birthday_between_0_and_365 noon ben
           (mkField (DateTime.mkDatetime 1990 11 5 0 0 0 0)) 0).
  - exact noon_is_valid.
  - reflexivity.
  - repeat split.
  - unfold valid_day, valid_date. vm_compute. intuition discriminate.
  - reflexivity.
Defined.

Lemma valid_date_any_year (y y' m d : Z) :
  valid_date y m d -> (1 <= y' <= 9999)%Z -> ~ (m = 2 /\ d = 29)%Z ->
  valid_date y' m d.
Proof.
  unfold valid_date, DateTime.days_in_month. intros [_ [Hm Hd]] Hy' Hfeb.
  split; [exact Hy'|]. split; [exact Hm|].
  destruct (Z.eqb_spec m 2) as [->|Hm2].
  - destruct (DateTime.is_leap y); destruct (DateTime.is_leap y'); lia.
  - exact Hd.
Qed.

(** The same month and day a year later: 365 days later, and one more
    when a 29 February lies between. *)
Lemma ord_next_year_exact (y m d : Z) :
  (1 <= y)%Z -> (1 <= m <= 12)%Z ->
  (DateTime.ymd_to_ord (y + 1) m d - DateTime.ymd_to_ord y m d
   = 365 + (if 2 <? m then leap_day (y + 1) else leap_day y))%Z.
Proof.
  intros Hy Hm. unfold DateTime.ymd_to_ord.
  rewrite (days_before_year_succ y) by lia.
  rewrite (days_before_month_leap_shift y m Hm),
    (days_before_month_leap_shift (y + 1) m Hm).
  destruct (2 <? m)%Z; lia.
Qed.

(** X17: for a contact whose birthday is today's month and day,
    [days_to_birthday] is 0 when the clock reads exactly midnight; at any
    later time of the day the birthday counts as passed and the next
    year's is taken: the method raises "day is out of range for month"
    on a 29 February and "year 10000 is out of range" in the year 9999,
    and otherwise returns 364, or 365 when a 29 February lies between. *)
Theorem days_to_birthday_on_the_day
    (today : DateTime.datetime) (r : Record_) (b : Birthday) :
  valid_datetime today ->
  birthday r = Some b -> at_midnight (value b) ->
  DateTime.month (value b) = DateTime.month today ->
  DateTime.day (value b) = DateTime.day today ->
  (time_of_day today = 0%Z ->
   Record_days_to_birthday today r = Ok (Some 0%Z))
  /\ ((0 < time_of_day today)%Z ->
      if ((DateTime.month today =? 2) && (DateTime.day today =? 29))%Z then
        Record_days_to_birthday today r = raise_ValueError day_error
      else if (DateTime.year today =? 9999)%Z then
        Record_days_to_birthday today r
        = raise_ValueError (lit "year 10000 is out of range")
      else
        Record_days_to_birthday today r
        = Ok (Some (364 + (if (2 <? DateTime.month today)%Z
                           then leap_day (DateTime.year today + 1)
                           else leap_day (DateTime.year today)))%Z)).
Proof.
  intros Htoday Hr Hb Hm Hd.
  destruct (next_birthday_clock today b Htoday Hb) as [H1 [H2 [H3 _]]].
  rewrite Hm, Hd in H1, H2, H3.
  assert (Hthis : valid_date (DateTime.year today) (DateTime.month today)
                             (DateTime.day today)) by apply Htoday.
  assert (Hp : passed today (DateTime.month today) (DateTime.day today)
               = (0 <? time_of_day today)%Z).
  { unfold passed, DateTime.toordinal. rewrite Z.ltb_irrefl, Z.eqb_refl.
    reflexivity. }
  destruct Htoday as [_ Htime].
  unfold Record_days_to_birthday. rewrite Hr.
  split.
  - intros Hzero. rewrite Hzero in Hp.
    rewrite (H1 Hthis Hp). cbn [bind].
    rewrite (sub_midnight_clock today _ _ _ Htime). rewrite Hzero.
    unfold DateTime.toordinal. cbn [Z.ltb Z.compare]. do 2 f_equal. lia.
  - intros Hpos.
    replace (0 <? time_of_day today)%Z with true in Hp
      by (symmetry; apply Z.ltb_lt; exact Hpos).
    assert (Hother :
              ~ (DateTime.month today = 2 /\ DateTime.day today = 29)%Z ->
              if (DateTime.year today =? 9999)%Z then
                bind (next_birthday today b)
                     (fun nb => Ok (Some (DateTime.days (DateTime.sub nb today))))
                = raise_ValueError (lit "year 10000 is out of range")
              else
                bind (next_birthday today b)
                     (fun nb => Ok (Some (DateTime.days (DateTime.sub nb today))))
                = Ok (Some (364 + (if (2 <? DateTime.month today)%Z
                                   then leap_day (DateTime.year today + 1)
                                   else leap_day (DateTime.year today)))%Z)).
    { intros Hfeb.
      destruct (Z.eqb_spec (DateTime.year today) 9999) as [Ey|Ey].
      - assert (Hn : ~ valid_date (DateTime.year today + 1) (DateTime.month today)
                                  (DateTime.day today))
          by (unfold valid_date; lia).
        destruct (H3 Hthis Hp Hn) as [-> _].
        unfold DateTime.replace_year, midnight, DateTime.check_date_fields,
          DateTime.MINYEAR, DateTime.MAXYEAR.
        cbn [DateTime.year DateTime.month DateTime.day].
        rewrite Ey. reflexivity.
      - assert (Hn : valid_date (DateTime.year today + 1) (DateTime.month today)
                                (DateTime.day today)).
        { apply (valid_date_any_year (DateTime.year today)); [exact Hthis| |exact Hfeb].
          destruct Hthis as [Hy _]. lia. }
        rewrite (H2 Hthis Hp Hn). cbn [bind].
        rewrite (sub_midnight_clock today _ _ _ Htime).
        replace (0 <? time_of_day today)%Z with true
          by (symmetry; apply Z.ltb_lt; exact Hpos).
        unfold DateTime.toordinal.
        pose proof (ord_next_year_exact (DateTime.year today) (DateTime.month today)
                      (DateTime.day today)) as Hyear.
        destruct Hthis as [Hy [Hmonth _]].
        specialize (Hyear ltac:(lia) Hmonth).
        do 2 f_equal. lia. }
    destruct Hthis as [Hy [Hmonth Hday]].
    destruct (Z.eqb_spec (DateTime.month today) 2) as [Em|Em];
      [destruct (Z.eqb_spec (DateTime.day today) 29) as [Ed|Ed]|]; cbn [andb].
    + assert (Hl : DateTime.is_leap (DateTime.year today) = true).
      { rewrite Em, Ed in Hday. unfold DateTime.days_in_month in Hday.
        change (2 =? 2)%Z with true in Hday. cbv iota in Hday.
        destruct (DateTime.is_leap (DateTime.year today)); [reflexivity|lia]. }
      pose proof (leap_years_are_apart _ Hl) as Hl'.
      assert (Hrange : (DateTime.year today + 1 <= 9999)%Z).
      { unfold DateTime.is_leap in Hl. apply andb_true_iff in Hl as [H4 _].
        apply Z.eqb_eq in H4. Z.to_euclidean_division_equations. lia. }
      assert (Hn : ~ valid_date (DateTime.year today + 1) (DateTime.month today)
                                (DateTime.day today)).
      { rewrite Em, Ed. unfold valid_date, DateTime.days_in_month.
        change (2 =? 2)%Z with true. cbv iota. rewrite Hl'. lia. }
      destruct (H3 (conj Hy (conj Hmonth Hday)) Hp Hn) as [-> _].
      rewrite Em, Ed.
      unfold DateTime.replace_year, midnight, DateTime.check_date_fields,
        DateTime.MINYEAR, DateTime.MAXYEAR, DateTime.days_in_month.
      cbn [DateTime.year DateTime.month DateTime.day].
      replace (DateTime.year today + 1 <? 1)%Z with false
        by (symmetry; apply Z.ltb_ge; lia).
      replace (9999 <? DateTime.year today + 1)%Z with false
        by (symmetry; apply Z.ltb_ge; lia).
      rewrite Hl'. reflexivity.
    + apply Hother. intros [_ E]. contradiction.
    + apply Hother. intros [E _]. contradiction.
Qed.

Lemma days_to_birthday_on_the_day_witness :
  Record_days_to_birthday noon ann = Ok (Some 364%Z).
Proof.
  destruct (days_to_birthday_on_the_day noon ann
              (mkField (DateTime.mkDatetime 1990 11 4 0 0 0 0))) as [_ H].
  - exact noon_is_valid.
  - reflexivity.
  - repeat split.
  - reflexivity.
  - reflexivity.
  - exact (H eq_refl).
Defined.

(** X18: for a clock reading that is a valid date and time before the
    year 9999, and a birthday that is a valid date at midnight,
    [days_to_birthday] returns a number for every birthday but a 29
    February; for a 29 February it returns one only when the year of the
    clock is a leap year and its 29 February has not begun to pass, and
    otherwise raises "day is out of range for month". *)
Theorem days_to_birthday_raises_for_29_february_only
    (today : DateTime.datetime) (r : Record_) (b : Birthday) :
  valid_datetime today -> (DateTime.year today < 9999)%Z ->
  birthday r = Some b -> at_midnight (value b) -> valid_day (value b) ->
  (~ (DateTime.month (value b) = 2 /\ DateTime.day (value b) = 29)%Z ->
   exists d, Record_days_to_birthday today r = Ok (Some d))
  /\ ((DateTime.month (value b) = 2 /\ DateTime.day (value b) = 29)%Z ->
      if DateTime.is_leap (DateTime.year today) && negb (passed today 2 29)
      then exists d, Record_days_to_birthday today r = Ok (Some d)
      else Record_days_to_birthday today r = raise_ValueError day_error).
Proof.
  intros Htoday Hy Hr Hb Hvb.
  assert (Hyear : (1 <= DateTime.year today <= 9999)%Z)
    by (destruct Htoday as [[H _] _]; exact H).
  destruct (next_birthday_clock today b Htoday Hb) as [H1 [H2 [H3 H4]]].
  unfold Record_days_to_birthday. rewrite Hr.
  split.
  - intros Hfeb.
    assert (Hthis := valid_date_any_year _ (DateTime.year today) _ _ Hvb Hyear Hfeb).
    assert (Hnext := valid_date_any_year _ (DateTime.year today + 1) _ _ Hvb
                       ltac:(lia) Hfeb).
    destruct (passed today (DateTime.month (value b)) (DateTime.day (value b)))
      eqn:Hp.
    + rewrite (H2 Hthis eq_refl Hnext). eexists. reflexivity.
    + rewrite (H1 Hthis eq_refl). eexists. reflexivity.
  - intros [Hm Hd]. rewrite Hm, Hd in *.
    assert (Hleap : forall y, (1 <= y <= 9999)%Z ->
                      (valid_date y 2 29 <-> DateTime.is_leap y = true)).
    { intros y Hrange. unfold valid_date, DateTime.days_in_month.
      change (2 =? 2)%Z with true. cbv iota.
      destruct (DateTime.is_leap y); split; intros H; try reflexivity;
        try discriminate; lia. }
    assert (Hraise : forall y yb, (1 <= y <= 9999)%Z -> DateTime.is_leap y = false ->
                       DateTime.replace_year (midnight yb 2 29) y
                       = raise_ValueError day_error).
    { intros y yb Hrange Hl. unfold DateTime.replace_year, midnight,
        DateTime.check_date_fields, DateTime.MINYEAR, DateTime.MAXYEAR,
        DateTime.days_in_month.
      cbn [DateTime.year DateTime.month DateTime.day].
      replace (y <? 1)%Z with false by (symmetry; apply Z.ltb_ge; lia).
      replace (9999 <? y)%Z with false by (symmetry; apply Z.ltb_ge; lia).
      rewrite Hl. reflexivity. }
    destruct (DateTime.is_leap (DateTime.year today)) eqn:Hl; cbn [andb].
    + assert (Hthis : valid_date (DateTime.year today) 2 29)
        by (apply Hleap; assumption).
      destruct (passed today 2 29) eqn:Hp; cbn [negb].
      * assert (Hn : ~ valid_date (DateTime.year today + 1) 2 29).
        { intros H. apply Hleap in H; [|lia].
          rewrite (leap_years_are_apart _ Hl) in H. discriminate. }
        destruct (H3 Hthis eq_refl Hn) as [-> _].
        rewrite (Hraise (DateTime.year today + 1)%Z _ ltac:(lia)
                   (leap_years_are_apart _ Hl)).
        reflexivity.
      * rewrite (H1 Hthis eq_refl). eexists. reflexivity.
    + assert (Hn : ~ valid_date (DateTime.year today) 2 29).
      { intros H. apply Hleap in H; [|lia]. congruence. }
      destruct (H4 Hn) as [-> _].
      rewrite (Hraise (DateTime.year today) _ Hyear Hl). reflexivity.
Qed.

Lemma days_to_birthday_raises_for_29_february_only_witness :
  Record_days_to_birthday noon leo = raise_ValueError day_error.
Proof.
  destruct (days_to_birthday_raises_for_29_february_only noon leo
              (mkField (DateTime.mkDatetime 2000 2 29 0 0 0 0))) as [_ H].
  - exact noon_is_valid.
  - vm_compute. reflexivity.
  - reflexivity.
  - repeat split.
  - unfold valid_day, valid_date. vm_compute. intuition discriminate.
  - apply H. split; reflexivity.
Defined.

Lemma filter_ext_in_bool {A : Type} (f g : A -> bool) (l : list A) :
  (forall x, In x l -> f x = g x) -> filter f l = filter g l.
Proof.
  induction l as [|x l IH]; simpl; intros H; [reflexivity|].
  rewrite (H x (or_introl eq_refl)), IH; [reflexivity|].
  intros y Hy. apply H. right. exact Hy.
Qed.

(** X19: with a window of 365 days or more, [get_upcoming_birthdays],
    when it returns, returns every record of the book that has a
    birthday, in the order of the book (for a valid clock reading and
    stored birthdays that are valid dates at midnight). *)
Theorem a_year_long_window_has_every_birthday
    (today : DateTime.datetime) (days : Z) (book : AddressBook)
    (l : list Record_) :
  valid_datetime today -> birthdays_valid book -> (365 <= days)%Z ->
  AddressBook_get_upcoming_birthdays today days book = Ok l ->
  l = filter has_birthday (dict_values book).
Proof.
  intros Htoday Hbook Hdays Hl.
  unfold AddressBook_get_upcoming_birthdays in Hl.
  pose proof (upcoming_loop_within today days (dict_values book) []) as H.
  rewrite Hl in H. destruct H as [-> Hall]. cbn [app].
  apply filter_ext_in_bool. intros r Hr.
  rewrite Forall_forall in Hall. destruct (Hall r Hr) as [o Ho].
  unfold within, has_birthday. rewrite Ho.
  unfold Record_days_to_birthday in Ho.
  destruct (birthday r) as [b|] eqn:Hb.
  - destruct (next_birthday today b) as [nb|e] eqn:Hnb; cbn [bind] in Ho;
      [|discriminate].
    remember (DateTime.days (DateTime.sub nb today)) as dd eqn:Hdd.
    injection Ho as <-.
    assert (Hvalid : at_midnight (value b) /\ valid_day (value b)).
    { unfold birthdays_valid in Hbook. rewrite Forall_forall in Hbook.
      unfold dict_values in Hr. apply in_map_iff in Hr as [kv [<- Hkv]].
      specialize (Hbook kv Hkv). rewrite Hb in Hbook. exact Hbook. }
    destruct Hvalid as [Hmid Hvb].
    pose proof (days_to_birthday_range today b nb Htoday Hmid Hvb Hnb) as Hrange.
    rewrite <- Hdd in Hrange.
    apply andb_true_iff. split; apply Z.leb_le; lia.
  - injection Ho as <-. reflexivity.
Qed.

Lemma a_year_long_window_has_every_birthday_witness :
  [ann; ben] = filter has_birthday (dict_values book_ann_ben).
Proof.
  apply (a_year_long_window_has_every_birthday noon 365 book_ann_ben [ann; ben]).
  - exact noon_is_valid.
  - repeat constructor; vm_compute; intuition discriminate.
  - lia.
  - reflexivity.
Defined.

(** ** A window of negative length *)

Lemma within_negative (today : DateTime.datetime) (days : Z) (recs : list Record_) :
  (days < 0)%Z -> filter (within today days) recs = [].
Proof.
  intros Hdays. induction recs as [|r recs IH]; [reflexivity|].
  cbn [filter]. unfold within at 1.
  destruct (Record_days_to_birthday today r) as [[d|]|e]; try exact IH.
  destruct (Z.leb_spec 0 d) as [H0|H0]; destruct (Z.leb_spec d days) as [H1|H1];
    cbn [andb]; try exact IH.
  exfalso. lia.
Qed.

(** X20: with a negative number of days [get_upcoming_birthdays], when it
    returns, returns the empty list, and [birthdays] then answers that
    there are no upcoming birthdays. *)
Theorem negative_window_is_empty
    (today : DateTime.datetime) (days : Z) (book : AddressBook)
    (l : list Record_) (a0 : pystr) (more : list pystr) :
  (days < 0)%Z ->
  AddressBook_get_upcoming_birthdays today days book = Ok l ->
  l = []
  /\ (PyInt.int a0 = Ok days ->
      birthdays today (a0 :: more) book
      = (Ok (lit "No upcoming birthdays in the next week."), book)).
Proof.
  intros Hdays Hl.
  assert (El : l = []).
  { pose proof (upcoming_loop_within today days (dict_values book) []) as H.
    unfold AddressBook_get_upcoming_birthdays in Hl. rewrite Hl in H.
    destruct H as [H _]. rewrite H. cbn [app].
    apply within_negative. exact Hdays. }
  split; [exact El|]. intros Hint.
  unfold birthdays, input_error, birthdays_func. cbn [fst snd].
  rewrite Hint. cbn [bind]. rewrite Hl, El. reflexivity.
Qed.

Lemma negative_window_is_empty_witness :
  birthdays noon [lit "-3"] book_ann_ben
  = (Ok (lit "No upcoming birthdays in the next week."), book_ann_ben).
Proof.
  destruct (negative_window_is_empty noon (-3) book_ann_ben [] (lit "-3") [])
    as [_ H].
  - lia.
  - reflexivity.
  - apply H. reflexivity.
Defined.

(** ** Arguments that are missing or too many *)

(** X21: [add] with fewer than two arguments, or with a second argument
    that [str.isdigit] rejects, answers with its own error message and
    leaves the book as it is. *)
Theorem add_contact_rejects_at_the_guard
    (args : list pystr) (book : AddressBook) :
  length args < 2 \/ PyStr.isdigit (nth 1 args []) = false ->
  add_contact args book
  = (Ok (lit "Error: Please provide both name and a valid phone number."), book).
Proof.
  intros H. unfold add_contact, input_error, add_contact_func.
  replace (Nat.ltb (length args) 2 || negb (PyStr.isdigit (nth 1 args [])))
    with true; [reflexivity|].
  symmetry. apply orb_true_iff. destruct H as [H|H].
  - left. apply Nat.ltb_lt. exact H.
  - right. rewrite H. reflexivity.
Qed.

Lemma add_contact_rejects_at_the_guard_witness :
  add_contact [lit "Bob"; lit "05012x4567"] book_ann_ben
  = (Ok (lit "Error: Please provide both name and a valid phone number."),
     book_ann_ben).
Proof.
  apply (add_contact_rejects_at_the_guard [lit "Bob"; lit "05012x4567"] book_ann_ben).
  right. reflexivity.
Defined.

(** X22: [phone] without an argument and [add-birthday] with fewer than
    two answer with the text of the unpacking error, and [change] with
    more than three arguments answers that there are too many values;
    the book is left as it is. *)
Theorem wrong_number_of_arguments
    (args : list pystr) (book : AddressBook) :
  (args = [] ->
   show_phones args book
   = (Ok (lit "Error: not enough values to unpack (expected at least 1, got 0)"),
      book))
  /\ (length args < 2 ->
      add_birthday args book
      = (Ok (lit "Error: not enough values to unpack (expected at least 2, got "
               ++ PyStr.of_nat (length args) ++ lit ")"),
         book))
  /\ (3 < length args ->
      change_phone args book
      = (Ok (lit "Error: too many values to unpack (expected 3)"), book)).
Proof.
  split; [|split].
  - intros ->. reflexivity.
  - intros H. destruct args as [|a [|b args]]; [reflexivity|reflexivity|].
    simpl in H. lia.
  - intros H. destruct args as [|a [|b [|c [|d args]]]]; simpl in H; try lia.
    reflexivity.
Qed.

(** ** [all] *)

Lemma fold_left_blocks (recs : list Record_) (res : pystr) :
  fold_left (fun res record => res ++ (Record_str record ++ nl ++ repeat 45%N 20 ++ nl))
            recs res
  = res ++ concat (map (fun r => record_block r ++ nl) recs).
Proof.
  revert res. induction recs as [|r recs IH]; intros res;
    cbn [fold_left map concat].
  - rewrite app_nil_r. reflexivity.
  - rewrite IH. unfold record_block, rule. rewrite <- !app_assoc. reflexivity.
Qed.

Lemma concat_blocks_join (l : list pystr) :
  l <> [] ->
  concat (map (fun w => w ++ nl) l) = PyStr.join nl l ++ nl.
Proof.
  induction l as [|w l IH]; intros Hne; [exfalso; apply Hne; reflexivity|].
  destruct l as [|w' l].
  - simpl. rewrite app_nil_r. reflexivity.
  - cbn [map concat]. cbn [map concat] in IH. rewrite IH by discriminate.
    rewrite (join_cons nl w (w' :: l)) by discriminate.
    rewrite <- !app_assoc. reflexivity.
Qed.

Lemma rstrip_keeps (s : pystr) (c : N) :
  Unicode.isspace c = false -> PyStr.rstrip (s ++ [c]) = s ++ [c].
Proof.
  intros H. unfold PyStr.rstrip, PyStr.lstrip.
  rewrite rev_app_distr. cbn [rev app PyStr.dropwhile]. rewrite H.
  cbn [rev]. rewrite rev_involutive. reflexivity.
Qed.

Lemma rstrip_drops (s : pystr) (c : N) :
  Unicode.isspace c = true -> PyStr.rstrip (s ++ [c]) = PyStr.rstrip s.
Proof.
  intros H. unfold PyStr.rstrip, PyStr.lstrip.
  rewrite rev_app_distr. cbn [rev app PyStr.dropwhile]. rewrite H. reflexivity.
Qed.

Lemma join_blocks_end (recs : list Record_) :
  recs <> [] ->
  exists s, PyStr.join nl (map record_block recs) = s ++ [45%N].
Proof.
  intros Hne. destruct (exists_last Hne) as [l [r ->]].
  assert (Hr : exists s, record_block r = s ++ [45%N]).
  { exists (Record_str r ++ nl ++ repeat 45%N 19).
    unfold record_block, rule. rewrite <- !app_assoc. reflexivity. }
  destruct Hr as [s Hs]. rewrite map_app. cbn [map]. clear Hne.
  induction l as [|r0 l IH].
  - exists s. exact Hs.
  - destruct IH as [s' Hs']. cbn [map app].
    rewrite (join_cons nl (record_block r0)
               (map record_block l ++ [record_block r]))
      by (destruct (map record_block l); discriminate).
    rewrite Hs'. exists (record_block r0 ++ nl ++ s').
    rewrite <- !app_assoc. reflexivity.
Qed.

(** X23: [all] answers "AddressBook is empty." for the empty book; for
    any other book it answers the heading and then, for each record in
    the order of the book, its line and a rule of twenty hyphens, each on
    a line of its own, with no newline after the last rule; the book is
    left as it is. *)
Theorem show_all_lists_the_book (book : AddressBook) :
  show_all [] = (Ok (lit "AddressBook is empty."), [])
  /\ (book <> [] ->
      show_all book
      = (Ok (lit "All contacts:" ++ nl
               ++ PyStr.join nl (map record_block (dict_values book))),
         book)).
Proof.
  split; [reflexivity|]. intros Hne.
  destruct book as [|kv book]; [contradiction|].
  unfold show_all, input_error, show_all_func. cbn [fst snd catch_errors].
  f_equal. f_equal.
  rewrite fold_left_blocks.
  assert (Hvals : dict_values (kv :: book) <> []) by discriminate.
  rewrite <- (map_map record_block (fun w => w ++ nl)).
  rewrite concat_blocks_join by (destruct (dict_values (kv :: book)); [contradiction|discriminate]).
  destruct (join_blocks_end (dict_values (kv :: book)) Hvals) as [s Hs].
  rewrite Hs. unfold PyStr.strip.
  change (PyStr.lstrip ((lit "All contacts:" ++ nl) ++ (s ++ [45%N]) ++ nl))
    with ((lit "All contacts:" ++ nl) ++ (s ++ [45%N]) ++ nl).
  unfold nl at 2.
  rewrite !app_assoc. rewrite rstrip_drops by reflexivity.
  rewrite rstrip_keeps by reflexivity. reflexivity.
Qed.

(** ** [birthdays] *)

Lemma digits_fuel_end (fuel : nat) (n : N) (acc : pystr) :
  exists t, PyStr.digits_fuel (S fuel) n acc = t ++ (48 + n mod 10)%N :: acc.
Proof.
  revert n acc. induction fuel as [|fuel IH]; intros n acc.
  - cbn [PyStr.digits_fuel]. exists []. destruct (n <? 10)%N; reflexivity.
  - cbn [PyStr.digits_fuel]. cbn [PyStr.digits_fuel] in IH.
    destruct (n <? 10)%N; [exists []; reflexivity|].
    destruct (IH (n / 10)%N ((48 + n mod 10)%N :: acc)) as [t Ht].
    rewrite Ht. exists (t ++ [(48 + (n / 10) mod 10)%N]).
    rewrite <- app_assoc. reflexivity.
Qed.

Lemma digit_is_not_space (n : N) : Unicode.isspace (48 + n mod 10)%N = false.
Proof.
  assert (H : (n mod 10 < 10)%N) by (apply N.mod_lt; discriminate).
  generalize dependent (n mod 10)%N. intros k H.
  assert (E : (k = 0 \/ k = 1 \/ k = 2 \/ k = 3 \/ k = 4 \/ k = 5 \/ k = 6
               \/ k = 7 \/ k = 8 \/ k = 9)%N) by lia.
  repeat (destruct E as [E|E]; [rewrite E; reflexivity|]).
  rewrite E. reflexivity.
Qed.

Lemma of_Z_ends_unspaced (z : Z) : ends_unspaced (PyStr.of_Z z).
Proof.
  assert (H : ends_unspaced (PyStr.of_N (Z.abs_N z))).
  { unfold PyStr.of_N.
    destruct (digits_fuel_end (N.to_nat (N.log2 (Z.abs_N z))) (Z.abs_N z) [])
      as [t Ht].
    exists t, (48 + Z.abs_N z mod 10)%N.
    split; [exact Ht|apply digit_is_not_space]. }
  unfold PyStr.of_Z. destruct (z <? 0)%Z; [|exact H].
  destruct H as [t [c [Ht Hc]]]. exists (45%N :: t), c.
  rewrite Ht. split; [reflexivity|exact Hc].
Qed.

Lemma ends_unspaced_app (s s' : pystr) : ends_unspaced s' -> ends_unspaced (s ++ s').
Proof.
  intros [t [c [-> Hc]]]. exists (s ++ t), c.
  rewrite app_assoc. split; [reflexivity|exact Hc].
Qed.

Lemma join_ends_unspaced (l : list pystr) :
  l <> [] -> Forall ends_unspaced l -> ends_unspaced (PyStr.join nl l).
Proof.
  intros Hne Hall. induction Hall as [|w l Hw Hl IH]; [contradiction|].
  destruct l as [|w' l]; [exact Hw|].
  rewrite (join_cons nl w (w' :: l)) by discriminate.
  apply ends_unspaced_app, ends_unspaced_app, IH. discriminate.
Qed.

Lemma strip_heading_body (h : N) (t body : pystr) :
  Unicode.isspace h = false -> ends_unspaced body ->
  PyStr.strip ((h :: t) ++ body ++ nl) = (h :: t) ++ body.
Proof.
  intros Hh [s [c [-> Hc]]]. unfold PyStr.strip, PyStr.lstrip.
  cbn [app PyStr.dropwhile]. rewrite Hh.
  change (h :: t ++ (s ++ [c]) ++ nl) with ((h :: t) ++ (s ++ [c]) ++ nl).
  unfold nl. rewrite !app_assoc.
  rewrite rstrip_drops by reflexivity. apply rstrip_keeps. exact Hc.
Qed.

Lemma birthday_lines_all (recs : list Record_) (res : pystr) :
  Forall (fun r => has_birthday r = true) recs ->
  birthday_lines recs res
  = Ok (res ++ concat (map (fun w => w ++ nl) (map birthday_line recs))).
Proof.
  intros Hall. revert res. induction Hall as [|r recs Hr _ IH]; intros res.
  - simpl. rewrite app_nil_r. reflexivity.
  - cbn [birthday_lines map concat]. unfold has_birthday in Hr.
    unfold birthday_line at 1.
    destruct (birthday r) as [b|]; [|discriminate].
    rewrite IH. rewrite <- !app_assoc. reflexivity.
Qed.

Lemma within_has_birthday (today : DateTime.datetime) (days : Z) (r : Record_) :
  within today days r = true -> has_birthday r = true.
Proof.
  unfold within, has_birthday, Record_days_to_birthday.
  destruct (birthday r); [reflexivity|discriminate].
Qed.

Lemma birthday_line_ends_unspaced (r : Record_) :
  has_birthday r = true -> ends_unspaced (birthday_line r).
Proof.
  unfold has_birthday, birthday_line. destruct (birthday r) as [b|]; [|discriminate].
  intros _. unfold DateTime.strftime_dmY.
  repeat apply ends_unspaced_app. apply of_Z_ends_unspaced.
Qed.

(** X24: when the number of days is read and [get_upcoming_birthdays]
    returns at least one record, [birthdays] answers the heading and
    then one line per record, the name and the birthday as day.month.year,
    in the order returned and with no newline after the last; it never
    meets a record without a birthday; the book is left as it is. *)
Theorem birthdays_lists_the_window
    (today : DateTime.datetime) (args : list pystr) (book : AddressBook)
    (days : Z) (r : Record_) (l : list Record_) :
  days_argument args = Ok days ->
  AddressBook_get_upcoming_birthdays today days book = Ok (r :: l) ->
  birthdays today args book
  = (Ok (lit "Upcoming birthdays:" ++ nl
           ++ PyStr.join nl (map birthday_line (r :: l))),
     book).
Proof.
  intros Hdays Hl.
  assert (Hall : Forall (fun x => has_birthday x = true) (r :: l)).
  { pose proof (upcoming_loop_within today days (dict_values book) []) as H.
    unfold AddressBook_get_upcoming_birthdays in Hl. rewrite Hl in H.
    destruct H as [H _]. cbn [app] in H. rewrite H.
    apply Forall_forall. intros x Hx. apply filter_In in Hx as [_ Hx].
    apply (within_has_birthday today days x Hx). }
  unfold birthdays, input_error, birthdays_func. cbn [fst snd].
  unfold days_argument in Hdays. rewrite Hdays. cbn [bind]. rewrite Hl. cbn [bind].
  rewrite (birthday_lines_all (r :: l) _ Hall). cbn [bind catch_errors].
  f_equal. f_equal.
  rewrite concat_blocks_join by discriminate.
  assert (Hends : ends_unspaced (PyStr.join nl (map birthday_line (r :: l)))).
  { apply join_ends_unspaced; [discriminate|].
    apply Forall_map. refine (Forall_impl _ _ Hall).
    intros x Hx. apply birthday_line_ends_unspaced. exact Hx. }
  etransitivity;
    [exact (strip_heading_body 85 (lit "pcoming birthdays:" ++ nl) _ eq_refl Hends)|].
  symmetry. exact (app_assoc (lit "Upcoming birthdays:") nl _).
Qed.

Lemma birthdays_lists_the_window_witness :
  birthdays noon [] book_ann_ben
  = (Ok (lit "Upcoming birthdays:" ++ nl ++ PyStr.join nl (map birthday_line [ben])),
     book_ann_ben).
Proof.
  apply (birthdays_lists_the_window noon [] book_ann_ben 7 ben []); reflexivity.
Defined.
